(** * video/out/w32_common.c: window state of the Win32 video output

    A shallow embedding of the GUI-thread code of mpv's Win32 window
    back end: border conversion, UTF-16 decoding of character messages,
    key release handling, the window (re)configuration that switches between
    windowed and fullscreen geometry, and the control requests that run on
    the GUI thread; further the hit test and the resize of a borderless or
    aspect-locked window, modifier keys, the refresh rate read from GDI, the
    mouse and destroy messages of the window procedure, the drop target,
    and the configuration for a new video size.

    Conventions.
    - C [int], [long] and Win32 [LONG] are 32 bits wide on every Windows
      target; they are integers of [Z] and every arithmetic result is brought
      back into range by [Int32.wrap].  [DWORD] and [unsigned] are reduced
      modulo [2^32], [wchar_t] modulo [2^16].
    - [double] is IEEE 754 binary64, given by the Standard Library's
      [SpecFloat] at precision 53; what is proved of its rounding is stated
      on the real numbers the floats stand for.
    - The struct [vo_w32_state] is a record; the native window, the log and
      the input queue, which the C code reaches through handles, are the
      remaining fields of [gui].  Functions pass the state explicitly.
    - What the operating system answers (frame metrics, monitors) is a record
      [desktop] of functions, a parameter of the code that asks. *)

From Stdlib Require Import ZArith List String Bool Lia Reals Lra.
From Stdlib Require Import Floats.SpecFloat.
Import ListNotations.
Local Open Scope Z_scope.

(** ** Machine integers *)

Module Int32.

Definition min_signed : Z := - 2 ^ 31.
Definition max_signed : Z := 2 ^ 31 - 1.
Definition modulus : Z := 2 ^ 32.

(** Two's complement reduction into [min_signed .. max_signed]. *)
Definition wrap (z : Z) : Z := (z + 2 ^ 31) mod modulus - 2 ^ 31.

Definition in_range (z : Z) : Prop := min_signed <= z <= max_signed.

Definition add (a b : Z) : Z := wrap (a + b).
Definition sub (a b : Z) : Z := wrap (a - b).
(** C division truncates towards zero. *)
Definition div (a b : Z) : Z := wrap (Z.quot a b).

(** Unsigned 32-bit reduction, for [DWORD] and [unsigned int]. *)
Definition uwrap (z : Z) : Z := z mod modulus.
Definition unot (z : Z) : Z := uwrap (Z.lnot z).

End Int32.

(** ** Win32 types and constants used by the file *)

Definition HWND := Z.
Definition HMONITOR := Z.
Definition DWORD := Z.

Record RECT := mkRECT { left : Z; top : Z; right : Z; bottom : Z }.

(** [struct mp_rect] of common/common.h. *)
Record mp_rect := mk_mp_rect { x0 : Z; y0 : Z; x1 : Z; y1 : Z }.

Definition RECT_in_range (rc : RECT) : Prop :=
  Int32.in_range (left rc) /\ Int32.in_range (top rc) /\
  Int32.in_range (right rc) /\ Int32.in_range (bottom rc).

Module Win32.
(* winuser.h *)
Definition VK_SHIFT : Z := 0x10.
Definition VK_CONTROL : Z := 0x11.
Definition VK_MENU : Z := 0x12.
Definition WS_OVERLAPPED : DWORD := 0x00000000.
Definition WS_OVERLAPPEDWINDOW : DWORD := 0x00CF0000.
Definition WS_SIZEBOX : DWORD := 0x00040000.
Definition HWND_NOTOPMOST : HWND := -2.
Definition HWND_TOPMOST : HWND := -1.
Definition SWP_FRAMECHANGED : Z := 0x0020.
Definition SWP_SHOWWINDOW : Z := 0x0040.
Definition SM_XVIRTUALSCREEN : Z := 76.
Definition SM_YVIRTUALSCREEN : Z := 77.
Definition SM_CXVIRTUALSCREEN : Z := 78.
Definition SM_CYVIRTUALSCREEN : Z := 79.

(* winnls.h *)
Definition IS_HIGH_SURROGATE (c : Z) : bool := (0xd800 <=? c) && (c <=? 0xdbff).
Definition IS_LOW_SURROGATE (c : Z) : bool := (0xdc00 <=? c) && (c <=? 0xdfff).

(** A [wchar_t] is an unsigned 16-bit code unit. *)
Definition wchar (z : Z) : Z := z mod 2 ^ 16.
End Win32.

(** What the window system answers.  [AdjustWindowRect style rc] is the
    window rectangle for the client rectangle [rc]; [EnumDisplayMonitors] is
    the order in which monitors are enumerated; [MonitorFromRect] gives the
    monitor a window occupying the rectangle belongs to (what
    [MonitorFromWindow] with [MONITOR_DEFAULTTOPRIMARY] returns for it);
    [primary_monitor] is [MonitorFromPoint((0,0), MONITOR_DEFAULTTOPRIMARY)]. *)
Record desktop := mk_desktop {
  AdjustWindowRect : DWORD -> RECT -> RECT;
  GetSystemMetrics : Z -> Z;
  EnumDisplayMonitors : list HMONITOR;
  MonitorFromRect : RECT -> HMONITOR;
  primary_monitor : HMONITOR;
  rcMonitor : HMONITOR -> RECT
}.

(** ** The module's state *)

(** The options of [struct mp_vo_opts] read by the modelled code. *)
Record mp_vo_opts := mk_opts {
  fullscreen : bool;
  border : bool;
  ontop : bool;
  fit_border : bool;
  screen_id : Z;
  fsscreen_id : Z
}.

(** [struct vo_w32_state], the fields the modelled functions read or write.
    Pointers are integers, [0] being [NULL]. *)
Record vo_w32_state := mk_w32 {
  opts : mp_vo_opts;
  terminate : bool;
  window : HWND;
  parent : HWND;
  screenrc : mp_rect;
  prev_width : Z;
  prev_height : Z;
  prev_x : Z;
  prev_y : Z;
  destroyed : bool;
  window_bounds_initialized : bool;
  current_fs : bool;
  window_x : Z;
  window_y : Z;
  dw : Z;
  dh : Z;
  disable_screensaver : bool;
  cursor_visible : bool;
  event_flags : Z;
  high_surrogate : Z;
  taskbar_list : Z
}.

Inductive msg_level := MSGL_ERR | MSGL_WARN | MSGL_INFO | MSGL_V.

(** Calls that leave the module: log lines, keys handed to the input
    context, and requests to the window system. *)
Inductive effect :=
| mp_msg (lev : msg_level) (fmt : string) (args : list Z)
| mp_input_put_key (code : Z)
| vo_wakeup
| ITaskbarList2_MarkFullscreenWindow (hwnd : HWND) (fs : bool)
| SetWindowLong_GWL_STYLE (hwnd : HWND) (style : DWORD)
| SetWindowPos (hwnd layer : HWND) (x y cx cy flags : Z)
| SetThreadExecutionState (continuous system_required display_required : bool).

(** The GUI thread's view: the struct, the style and rectangle of the native
    window as last set, and the calls made so far, oldest first. *)
Record gui := mk_gui {
  w32 : vo_w32_state;
  hwnd_style : DWORD;
  hwnd_rect : RECT;
  trace : list effect
}.

Definition emit (e : effect) (s : gui) : gui :=
  mk_gui (w32 s) (hwnd_style s) (hwnd_rect s) (trace s ++ [e]).

Definition MP_ERR (fmt : string) (args : list Z) : gui -> gui :=
  emit (mp_msg MSGL_ERR fmt args).
Definition MP_INFO (fmt : string) (args : list Z) : gui -> gui :=
  emit (mp_msg MSGL_INFO fmt args).
Definition MP_VERBOSE (fmt : string) (args : list Z) : gui -> gui :=
  emit (mp_msg MSGL_V fmt args).

(** Field assignment [w32->f = v]. *)
Definition upd (f : vo_w32_state -> vo_w32_state) (s : gui) : gui :=
  mk_gui (f (w32 s)) (hwnd_style s) (hwnd_rect s) (trace s).

Definition with_opts v (w : vo_w32_state) : vo_w32_state :=
  mk_w32 v (terminate w) (window w) (parent w) (screenrc w)
    (prev_width w) (prev_height w) (prev_x w) (prev_y w) (destroyed w)
    (window_bounds_initialized w) (current_fs w) (window_x w) (window_y w)
    (dw w) (dh w) (disable_screensaver w) (cursor_visible w) (event_flags w)
    (high_surrogate w) (taskbar_list w).
Definition with_screenrc v (w : vo_w32_state) : vo_w32_state :=
  mk_w32 (opts w) (terminate w) (window w) (parent w) v
    (prev_width w) (prev_height w) (prev_x w) (prev_y w) (destroyed w)
    (window_bounds_initialized w) (current_fs w) (window_x w) (window_y w)
    (dw w) (dh w) (disable_screensaver w) (cursor_visible w) (event_flags w)
    (high_surrogate w) (taskbar_list w).
Definition with_prev_width v (w : vo_w32_state) : vo_w32_state :=
  mk_w32 (opts w) (terminate w) (window w) (parent w) (screenrc w)
    v (prev_height w) (prev_x w) (prev_y w) (destroyed w)
    (window_bounds_initialized w) (current_fs w) (window_x w) (window_y w)
    (dw w) (dh w) (disable_screensaver w) (cursor_visible w) (event_flags w)
    (high_surrogate w) (taskbar_list w).
Definition with_prev_height v (w : vo_w32_state) : vo_w32_state :=
  mk_w32 (opts w) (terminate w) (window w) (parent w) (screenrc w)
    (prev_width w) v (prev_x w) (prev_y w) (destroyed w)
    (window_bounds_initialized w) (current_fs w) (window_x w) (window_y w)
    (dw w) (dh w) (disable_screensaver w) (cursor_visible w) (event_flags w)
    (high_surrogate w) (taskbar_list w).
Definition with_prev_x v (w : vo_w32_state) : vo_w32_state :=
  mk_w32 (opts w) (terminate w) (window w) (parent w) (screenrc w)
    (prev_width w) (prev_height w) v (prev_y w) (destroyed w)
    (window_bounds_initialized w) (current_fs w) (window_x w) (window_y w)
    (dw w) (dh w) (disable_screensaver w) (cursor_visible w) (event_flags w)
    (high_surrogate w) (taskbar_list w).
Definition with_prev_y v (w : vo_w32_state) : vo_w32_state :=
  mk_w32 (opts w) (terminate w) (window w) (parent w) (screenrc w)
    (prev_width w) (prev_height w) (prev_x w) v (destroyed w)
    (window_bounds_initialized w) (current_fs w) (window_x w) (window_y w)
    (dw w) (dh w) (disable_screensaver w) (cursor_visible w) (event_flags w)
    (high_surrogate w) (taskbar_list w).
Definition with_current_fs v (w : vo_w32_state) : vo_w32_state :=
  mk_w32 (opts w) (terminate w) (window w) (parent w) (screenrc w)
    (prev_width w) (prev_height w) (prev_x w) (prev_y w) (destroyed w)
    (window_bounds_initialized w) v (window_x w) (window_y w)
    (dw w) (dh w) (disable_screensaver w) (cursor_visible w) (event_flags w)
    (high_surrogate w) (taskbar_list w).
Definition with_window_x v (w : vo_w32_state) : vo_w32_state :=
  mk_w32 (opts w) (terminate w) (window w) (parent w) (screenrc w)
    (prev_width w) (prev_height w) (prev_x w) (prev_y w) (destroyed w)
    (window_bounds_initialized w) (current_fs w) v (window_y w)
    (dw w) (dh w) (disable_screensaver w) (cursor_visible w) (event_flags w)
    (high_surrogate w) (taskbar_list w).
Definition with_window_y v (w : vo_w32_state) : vo_w32_state :=
  mk_w32 (opts w) (terminate w) (window w) (parent w) (screenrc w)
    (prev_width w) (prev_height w) (prev_x w) (prev_y w) (destroyed w)
    (window_bounds_initialized w) (current_fs w) (window_x w) v
    (dw w) (dh w) (disable_screensaver w) (cursor_visible w) (event_flags w)
    (high_surrogate w) (taskbar_list w).
Definition with_dw v (w : vo_w32_state) : vo_w32_state :=
  mk_w32 (opts w) (terminate w) (window w) (parent w) (screenrc w)
    (prev_width w) (prev_height w) (prev_x w) (prev_y w) (destroyed w)
    (window_bounds_initialized w) (current_fs w) (window_x w) (window_y w)
    v (dh w) (disable_screensaver w) (cursor_visible w) (event_flags w)
    (high_surrogate w) (taskbar_list w).
Definition with_dh v (w : vo_w32_state) : vo_w32_state :=
  mk_w32 (opts w) (terminate w) (window w) (parent w) (screenrc w)
    (prev_width w) (prev_height w) (prev_x w) (prev_y w) (destroyed w)
    (window_bounds_initialized w) (current_fs w) (window_x w) (window_y w)
    (dw w) v (disable_screensaver w) (cursor_visible w) (event_flags w)
    (high_surrogate w) (taskbar_list w).
Definition with_disable_screensaver v (w : vo_w32_state) : vo_w32_state :=
  mk_w32 (opts w) (terminate w) (window w) (parent w) (screenrc w)
    (prev_width w) (prev_height w) (prev_x w) (prev_y w) (destroyed w)
    (window_bounds_initialized w) (current_fs w) (window_x w) (window_y w)
    (dw w) (dh w) v (cursor_visible w) (event_flags w)
    (high_surrogate w) (taskbar_list w).
Definition with_event_flags v (w : vo_w32_state) : vo_w32_state :=
  mk_w32 (opts w) (terminate w) (window w) (parent w) (screenrc w)
    (prev_width w) (prev_height w) (prev_x w) (prev_y w) (destroyed w)
    (window_bounds_initialized w) (current_fs w) (window_x w) (window_y w)
    (dw w) (dh w) (disable_screensaver w) (cursor_visible w) v
    (high_surrogate w) (taskbar_list w).
Definition with_high_surrogate v (w : vo_w32_state) : vo_w32_state :=
  mk_w32 (opts w) (terminate w) (window w) (parent w) (screenrc w)
    (prev_width w) (prev_height w) (prev_x w) (prev_y w) (destroyed w)
    (window_bounds_initialized w) (current_fs w) (window_x w) (window_y w)
    (dw w) (dh w) (disable_screensaver w) (cursor_visible w) (event_flags w)
    v (taskbar_list w).

(** ** Border conversion (lines 321-335) *)

Section Borders.
Variable os : desktop.

(** [GetWindowLong(hwnd, GWL_STYLE)] is the style of the native window. *)
Definition add_window_borders (s : gui) (rc : RECT) : RECT :=
  AdjustWindowRect os (hwnd_style s) rc.

Definition subtract_window_borders (s : gui) (rc : RECT) : RECT :=
  let b := add_window_borders s (mkRECT 0 0 0 0) in
  mkRECT (Int32.sub (left rc) (left b)) (Int32.sub (top rc) (top b))
         (Int32.sub (right rc) (right b)) (Int32.sub (bottom rc) (bottom b)).
End Borders.

(** [AdjustWindowRect] widens a client rectangle by the frame of the style:
    by the amounts it gives for the empty rectangle at the origin. *)
Definition frame_additive (os : desktop) : Prop :=
  forall style rc,
    AdjustWindowRect os style rc =
    let b := AdjustWindowRect os style (mkRECT 0 0 0 0) in
    mkRECT (Int32.add (left rc) (left b)) (Int32.add (top rc) (top b))
           (Int32.add (right rc) (right b)) (Int32.add (bottom rc) (bottom b)).

(** ** Keyboard input (lines 417-445, 544-556) *)

Definition decode_surrogate_pair (lead trail : Z) : Z :=
  let lead := Win32.wchar lead in
  let trail := Win32.wchar trail in
  Int32.add 0x10000
    (Z.lor (Int32.wrap (Z.shiftl (Z.land lead 0x3ff) 10)) (Z.land trail 0x3ff)).

(** Decode UTF-16, keeping state in [high_surrogate]; the result is the
    returned code point and the state after the call. *)
Definition decode_utf16 (s : gui) (c : Z) : Z * gui :=
  let c := Win32.wchar c in
  if Win32.IS_HIGH_SURROGATE c then
    (0, upd (with_high_surrogate c) s)
  else if Win32.IS_LOW_SURROGATE c then
    if high_surrogate (w32 s) =? 0 then
      (0, MP_ERR "Invalid UTF-16 input\n" [] s)
    else
      let codepoint := decode_surrogate_pair (high_surrogate (w32 s)) c in
      (codepoint, upd (with_high_surrogate 0) s)
  else if negb (high_surrogate (w32 s) =? 0) then
    (0, MP_ERR "Invalid UTF-16 input\n" [] (upd (with_high_surrogate 0) s))
  else
    (c, s).

Section Input.
(** [MP_INPUT_RELEASE_ALL] of input/keycodes.h. *)
Variable MP_INPUT_RELEASE_ALL : Z.

Definition handle_key_up (s : gui) (vkey scancode : Z) : gui :=
  let vkey := Int32.uwrap vkey in
  if vkey =? Win32.VK_MENU then s
  else if vkey =? Win32.VK_CONTROL then s
  else if vkey =? Win32.VK_SHIFT then s
  else emit (mp_input_put_key MP_INPUT_RELEASE_ALL) s.
End Input.

(** The virtual keys that [handle_key_up] passes over. *)
Definition bare_modifier (vkey : Z) : Prop :=
  vkey = Win32.VK_SHIFT \/ vkey = Win32.VK_CONTROL \/ vkey = Win32.VK_MENU.

(** ** IEEE 754 binary64, the C type [double] *)

Module Double.
Definition prec : Z := 53.
Definition emax : Z := 1024.

(** Conversion of a [long]; exact, since 32 bits fit the mantissa. *)
Definition of_long (z : Z) : spec_float := binary_normalize prec emax z 0 false.

Definition div : spec_float -> spec_float -> spec_float := SFdiv prec emax.
Definition mul : spec_float -> spec_float -> spec_float := SFmul prec emax.
Definition gt (a b : spec_float) : bool := SFltb b a.

(** The integer part, towards zero, of a finite number. *)
Definition trunc (f : spec_float) : option Z :=
  match f with
  | S754_zero _ => Some 0
  | S754_finite sg m e =>
      let t := Z.shiftl (Zpos m) e in Some (if sg then - t else t)
  | _ => None
  end.

(** Conversion to [long].  C leaves the result undefined when the integer
    part is not representable; x86 conversion instructions then store the
    "integer indefinite" value [0x80000000], which is what is given here. *)
Definition to_long (f : spec_float) : Z :=
  match trunc f with
  | Some t =>
      if (Int32.min_signed <=? t) && (t <=? Int32.max_signed) then t
      else Int32.min_signed
  | None => Int32.min_signed
  end.
End Double.

(** ** Screen rectangle and window style (lines 1047-1120) *)

Section Screen.
Variable os : desktop.

(** [EnumDisplayMonitors] with [get_monitor_proc]: the callback stops the
    enumeration at the monitor whose index equals [target]. *)
Fixpoint get_monitor_proc (mons : list HMONITOR) (i target : Z) : HMONITOR :=
  match mons with
  | [] => 0
  | mon :: rest =>
      if i =? target then mon else get_monitor_proc rest (Int32.add i 1) target
  end.

Definition get_monitor (id : Z) : HMONITOR :=
  get_monitor_proc (EnumDisplayMonitors os) 0 id.

Definition update_screen_rect (s : gui) : gui :=
  let w := w32 s in
  let screen := if current_fs w then fsscreen_id (opts w) else screen_id (opts w) in
  if current_fs w && (screen =? -2) then
    (* --fs-screen=all *)
    let rx0 := GetSystemMetrics os Win32.SM_XVIRTUALSCREEN in
    let ry0 := GetSystemMetrics os Win32.SM_YVIRTUALSCREEN in
    let rx1 := GetSystemMetrics os Win32.SM_CXVIRTUALSCREEN in
    let ry1 := GetSystemMetrics os Win32.SM_CYVIRTUALSCREEN in
    let rx1 := Int32.add rx1 rx0 in
    let ry1 := Int32.add ry1 ry0 in
    upd (with_screenrc (mk_mp_rect rx0 ry0 rx1 ry1)) s
  else
    let '(mon, s) :=
      if screen =? -1 then
        (MonitorFromRect os (hwnd_rect s), s)
      else
        let mon := get_monitor screen in
        if mon =? 0 then
          (primary_monitor os,
           MP_INFO "Screen %d does not exist, falling back to primary\n"
             [screen] s)
        else (mon, s) in
    let mi := rcMonitor os mon in
    upd (with_screenrc (mk_mp_rect (left mi) (top mi) (right mi) (bottom mi))) s.

Definition update_style (w : vo_w32_state) (style : DWORD) : DWORD :=
  let NO_FRAME := Win32.WS_OVERLAPPED in
  let FRAME := Z.lor Win32.WS_OVERLAPPEDWINDOW Win32.WS_SIZEBOX in
  let style := Z.land style (Int32.unot (Z.lor NO_FRAME FRAME)) in
  Z.lor style (if border (opts w) && negb (current_fs w) then FRAME else NO_FRAME).
End Screen.

(** ** Window reconfiguration (lines 571-575, 1122-1252) *)

Section Reinit.
Variable os : desktop.
(** [VO_EVENT_RESIZE] of video/out/vo.h. *)
Variable VO_EVENT_RESIZE : Z.

Definition signal_events (events : Z) (s : gui) : gui :=
  emit vo_wakeup
    (upd (fun w => with_event_flags
                     (Z.lor (event_flags w) (Int32.uwrap events)) w) s).

Definition SetWindowLong (style : DWORD) (s : gui) : gui :=
  emit (SetWindowLong_GWL_STYLE (window (w32 s)) style)
    (mk_gui (w32 s) style (hwnd_rect s) (trace s)).

(** Lines 1151-1176: on entering fullscreen the windowed bounds are saved
    and the window takes the screen rectangle; on leaving it they are
    restored. *)
Definition switch_fs_bounds (toggle_fs : bool) (screen_w screen_h : Z)
    (s : gui) : gui :=
  if current_fs (w32 s) then
    let s :=
      if toggle_fs then
        let s := upd (fun w => with_prev_width (dw w) w) s in
        let s := upd (fun w => with_prev_height (dh w) w) s in
        let s := upd (fun w => with_prev_x (window_x w) w) s in
        let s := upd (fun w => with_prev_y (window_y w) w) s in
        MP_VERBOSE "save window bounds: %d:%d:%d:%d\n"
          [prev_x (w32 s); prev_y (w32 s);
           prev_width (w32 s); prev_height (w32 s)] s
      else s in
    let s := upd (fun w => with_window_x (x0 (screenrc w)) w) s in
    let s := upd (fun w => with_window_y (y0 (screenrc w)) w) s in
    let s := upd (with_dw screen_w) s in
    upd (with_dh screen_h) s
  else if toggle_fs then
    let s := MP_VERBOSE "restore window bounds: %d:%d:%d:%d\n"
               [prev_x (w32 s); prev_y (w32 s);
                prev_width (w32 s); prev_height (w32 s)] s in
    let s := upd (fun w => with_dw (prev_width w) w) s in
    let s := upd (fun w => with_dh (prev_height w) w) s in
    let s := upd (fun w => with_window_x (prev_x w) w) s in
    upd (fun w => with_window_y (prev_y w) w) s
  else s.

(** Line 1198: the test that guards the handling of a window larger than
    the screen.  [cr] is the client rectangle and [r] the same rectangle
    with the borders added. *)
Definition larger_than_screen (s : gui) (cr r : RECT)
    (screen_w screen_h : Z) : bool :=
  let o_w := if fit_border (opts (w32 s))
             then Int32.sub (right r) (left r)
             else Int32.sub (right cr) (left cr) in
  let o_h := if fit_border (opts (w32 s))
             then Int32.sub (bottom r) (top r)
             else Int32.sub (bottom cr) (top cr) in
  negb (current_fs (w32 s)) && ((o_w >? screen_w) || (o_h >? screen_h)).

(** Lines 1213-1219, "Letterbox": the client size [c_w] x [c_h] is fitted
    into [n_w] x [n_h] by shrinking the side that is too long for its
    aspect; gives the new [n_w] and [n_h]. *)
Definition letterbox_size (c_w c_h n_w n_h : Z) : Z * Z :=
  let asp := Double.div (Double.of_long c_w) (Double.of_long c_h) in
  let s_asp := Double.div (Double.of_long n_w) (Double.of_long n_h) in
  if Double.gt asp s_asp
  then (n_w, Double.to_long (Double.div (Double.of_long n_w) asp))
  else (Double.to_long (Double.mul (Double.of_long n_h) asp), n_h).

(** Lines 1200-1241: the body of that branch; gives the state and the
    window rectangle [r] handed on to [SetWindowPos]. *)
Definition letterbox (s : gui) (cr r : RECT) (screen_w screen_h : Z)
    : gui * RECT :=
  let s := MP_VERBOSE "requested window size larger than the screen\n" [] s in
  let n_w := if fit_border (opts (w32 s))
             then Int32.sub (Int32.sub screen_w (Int32.sub (right r) (right cr)))
                            (Int32.sub (left cr) (left r))
             else screen_w in
  let n_h := if fit_border (opts (w32 s))
             then Int32.sub (Int32.sub screen_h (Int32.sub (bottom r) (bottom cr)))
                            (Int32.sub (top cr) (top r))
             else screen_h in
  (* Letterbox *)
  let '(n_w, n_h) :=
    letterbox_size (Int32.sub (right cr) (left cr))
                   (Int32.sub (bottom cr) (top cr)) n_w n_h in
  (* Save new size *)
  let s := upd (with_dw n_w) s in
  let s := upd (with_dh n_h) s in
  (* Get old window center *)
  let o_cx := Int32.add (left r) (Int32.div (Int32.sub (right r) (left r)) 2) in
  let o_cy := Int32.add (top r) (Int32.div (Int32.sub (bottom r) (top r)) 2) in
  (* Add window borders to the new window size *)
  let r := add_window_borders os s (mkRECT 0 0 n_w n_h) in
  (* Get top and left border size for client area position calculation *)
  let b_top := Int32.sub 0 (top r) in
  let b_left := Int32.sub 0 (left r) in
  (* Center the final window around the old window center *)
  let n_w := Int32.sub (right r) (left r) in
  let n_h := Int32.sub (bottom r) (top r) in
  let r_left := Int32.sub o_cx (Int32.div n_w 2) in
  let r_top := Int32.sub o_cy (Int32.div n_h 2) in
  let r := mkRECT r_left r_top (Int32.add r_left n_w) (Int32.add r_top n_h) in
  (* Save new client area position *)
  let s := upd (with_window_x (Int32.add (left r) b_left)) s in
  let s := upd (with_window_y (Int32.add (top r) b_top)) s in
  (s, r).

(** [SetWindowPos]: the request is recorded and the native window takes
    the rectangle asked for. *)
Definition set_window_pos (layer : HWND) (r : RECT) (flags : Z) (s : gui) : gui :=
  let cx := Int32.sub (right r) (left r) in
  let cy := Int32.sub (bottom r) (top r) in
  emit (SetWindowPos (window (w32 s)) layer (left r) (top r) cx cy flags)
    (mk_gui (w32 s) (hwnd_style s)
       (mkRECT (left r) (top r) (Int32.add (left r) cx) (Int32.add (top r) cy))
       (trace s)).

(** Lines 1131-1186 of [reinit_window_state]: the new mode, style, layer
    and screen rectangle, the bounds for the new mode, and the client
    rectangle [cr] with its bordered counterpart [r].  The result is the
    state and the locals [layer], [cr], [r], [screen_w], [screen_h]. *)
Definition reinit_bounds (s : gui) : gui * HWND * RECT * RECT * Z * Z :=
  let layer := Win32.HWND_NOTOPMOST in
  let new_fs := fullscreen (opts (w32 s)) in
  let toggle_fs := negb (Bool.eqb (current_fs (w32 s)) new_fs) in
  let s := upd (with_current_fs new_fs) s in
  let s := if negb (taskbar_list (w32 s) =? 0)
           then emit (ITaskbarList2_MarkFullscreenWindow
                        (window (w32 s)) (current_fs (w32 s))) s
           else s in
  let style := update_style (w32 s) (hwnd_style s) in
  let layer := if ontop (opts (w32 s)) then Win32.HWND_TOPMOST else layer in
  let s := update_screen_rect os s in
  let screen_w := Int32.sub (x1 (screenrc (w32 s))) (x0 (screenrc (w32 s))) in
  let screen_h := Int32.sub (y1 (screenrc (w32 s))) (y0 (screenrc (w32 s))) in
  let s := switch_fs_bounds toggle_fs screen_w screen_h s in
  let r_left := window_x (w32 s) in
  let r_right := Int32.add r_left (dw (w32 s)) in
  let r_top := window_y (w32 s) in
  let r_bottom := Int32.add r_top (dh (w32 s)) in
  let r := mkRECT r_left r_top r_right r_bottom in
  let s := SetWindowLong style s in
  let cr := r in
  let r := add_window_borders os s r in
  (s, layer, cr, r, screen_w, screen_h).

(** Update the window title, position, size, and border style. *)
Definition reinit_window_state (s : gui) : gui :=
  if negb (parent (w32 s) =? 0) then s else
  let '(s, layer, cr, r, screen_w, screen_h) := reinit_bounds s in
  let '(s, r) :=
    if larger_than_screen s cr r screen_w screen_h
    then letterbox s cr r screen_w screen_h
    else (s, r) in
  let s := MP_VERBOSE "reset window bounds: %d:%d:%d:%d\n"
             [left r; top r; Int32.sub (right r) (left r);
              Int32.sub (bottom r) (top r)] s in
  let s := set_window_pos layer r
             (Z.lor Win32.SWP_FRAMECHANGED Win32.SWP_SHOWWINDOW) s in
  signal_events VO_EVENT_RESIZE s.

(** Whether [reinit_window_state], run on [s], takes the branch of
    line 1198. *)
Definition finds_larger_than_screen (s : gui) : bool :=
  let '(s, _, cr, r, screen_w, screen_h) := reinit_bounds s in
  larger_than_screen s cr r screen_w screen_h.

(** ** Control requests on the GUI thread (lines 1534-1629) *)

Inductive vo_status := VO_TRUE | VO_FALSE | VO_NOTIMPL.

(** The requests of the [switch] whose cases are modelled, and
    [VOCTRL_other] for a request that has no case.  (The cases for the
    window state, cursor, title, playback state, display rate, display
    names and colour profile are left out.) *)
Inductive voctrl :=
| VOCTRL_FULLSCREEN
| VOCTRL_ONTOP
| VOCTRL_BORDER
| VOCTRL_GET_UNFS_WINDOW_SIZE
| VOCTRL_SET_UNFS_WINDOW_SIZE
| VOCTRL_KILL_SCREENSAVER
| VOCTRL_RESTORE_SCREENSAVER
| VOCTRL_other (request : Z).

(** [arg] is the [int s[2]] that the two window size requests read or
    fill; the result carries its contents after the call. *)
Definition gui_thread_control (s : gui) (request : voctrl) (arg : Z * Z)
    : vo_status * (Z * Z) * gui :=
  match request with
  | VOCTRL_FULLSCREEN =>
      let s := if negb (Bool.eqb (fullscreen (opts (w32 s))) (current_fs (w32 s)))
               then reinit_window_state s else s in
      (VO_TRUE, arg, s)
  | VOCTRL_ONTOP => (VO_TRUE, arg, reinit_window_state s)
  | VOCTRL_BORDER => (VO_TRUE, arg, reinit_window_state s)
  | VOCTRL_GET_UNFS_WINDOW_SIZE =>
      let w := w32 s in
      if negb (window_bounds_initialized w) then (VO_FALSE, arg, s)
      else
        let s0 := if current_fs w then prev_width w else dw w in
        let s1 := if current_fs w then prev_height w else dh w in
        (VO_TRUE, (s0, s1), s)
  | VOCTRL_SET_UNFS_WINDOW_SIZE =>
      let '(s0, s1) := arg in
      if negb (window_bounds_initialized (w32 s)) then (VO_FALSE, arg, s)
      else
        let s :=
          if current_fs (w32 s) then
            let s := upd (fun w => with_prev_x
                       (Int32.add (prev_x w)
                          (Int32.sub (Int32.div (prev_width w) 2) (Int32.div s0 2))) w) s in
            let s := upd (fun w => with_prev_y
                       (Int32.add (prev_y w)
                          (Int32.sub (Int32.div (prev_height w) 2) (Int32.div s1 2))) w) s in
            let s := upd (with_prev_width s0) s in
            upd (with_prev_height s1) s
          else
            let s := upd (fun w => with_window_x
                       (Int32.add (window_x w)
                          (Int32.sub (Int32.div (dw w) 2) (Int32.div s0 2))) w) s in
            let s := upd (fun w => with_window_y
                       (Int32.add (window_y w)
                          (Int32.sub (Int32.div (dh w) 2) (Int32.div s1 2))) w) s in
            let s := upd (with_dw s0) s in
            upd (with_dh s1) s in
        (VO_TRUE, arg, reinit_window_state s)
  | VOCTRL_KILL_SCREENSAVER =>
      let s := upd (with_disable_screensaver true) s in
      (VO_TRUE, arg, emit (SetThreadExecutionState true true true) s)
  | VOCTRL_RESTORE_SCREENSAVER =>
      let s := upd (with_disable_screensaver false) s in
      (VO_TRUE, arg, emit (SetThreadExecutionState true false false) s)
  | VOCTRL_other _ => (VO_NOTIMPL, arg, s)
  end.
End Reinit.

(** ** The fullscreen request of the player core *)

Definition with_fullscreen (v : bool) (o : mp_vo_opts) : mp_vo_opts :=
  mk_opts v (border o) (ontop o) (fit_border o) (screen_id o) (fsscreen_id o).

Section Core.
Variable os : desktop.
Variable VO_EVENT_RESIZE : Z.

(** The core stores the requested mode in [opts->fullscreen] and then
    issues [VOCTRL_FULLSCREEN] through [vo_w32_control]. *)
Definition request_fullscreen (fs : bool) (s : gui) : gui :=
  upd (fun w => with_opts (with_fullscreen fs (opts w)) w) s.

Definition set_fullscreen (fs : bool) (s : gui) : gui :=
  snd (gui_thread_control os VO_EVENT_RESIZE (request_fullscreen fs s)
         VOCTRL_FULLSCREEN (0, 0)).
End Core.

(** The current bounds and the saved windowed bounds. *)
Definition bounds (w : vo_w32_state) : Z * Z * Z * Z :=
  (window_x w, window_y w, dw w, dh w).
Definition prev_bounds (w : vo_w32_state) : Z * Z * Z * Z :=
  (prev_x w, prev_y w, prev_width w, prev_height w).

(** ** Reading binary64 numbers

    What the proofs say about [double] arithmetic is said of the real
    numbers the floats stand for. *)

(** The real number a float stands for. *)
Definition B2R (f : spec_float) : R :=
  match f with
  | S754_finite sg m e =>
      ((if sg then -1 else 1) * IZR (Zpos m) * powerRZ 2 e)%R
  | _ => 0%R
  end.

(** A positive normal number whose exponent is within [K] of zero. *)
Definition normal (K : Z) (f : spec_float) : Prop :=
  exists m e, f = S754_finite false m e /\
              2 ^ 52 <= Zpos m < 2 ^ 53 /\ - K <= e <= K.

(** The unit roundoff of binary64. *)
Definition roundoff : R := powerRZ 2 (-53).

(** The record [mrs] locates the fraction [N / D]: its integer part, whether
    the remainder reaches one half, and whether it is off zero and one half. *)
Definition locates (N D : Z) (mrs : shr_record) : Prop :=
  0 < D /\ 0 <= N /\
  shr_m mrs = N / D /\
  shr_r mrs = (D <=? 2 * (N mod D)) /\
  shr_s mrs = negb (N mod D =? 0) && negb (2 * (N mod D) =? D).

(** ** Measures of a rectangle *)

Definition rect_width (r : RECT) : Z := right r - left r.
Definition rect_height (r : RECT) : Z := bottom r - top r.

(** The centre as line 1224 computes it: the left edge plus half the width,
    the half taken towards zero. *)
Definition rect_center (r : RECT) : Z * Z :=
  (left r + Z.quot (rect_width r) 2, top r + Z.quot (rect_height r) 2).

(** ** A desktop to evaluate the code on *)

Module Sample.
(** One 1920x1080 monitor at the origin; a window with a caption has a
    frame of 8 pixels and a title bar of 23 more, any other window none. *)
Definition frame (style : DWORD) : RECT :=
  if Z.land style 0x00C00000 =? 0x00C00000
  then mkRECT (-8) (-31) 8 8 else mkRECT 0 0 0 0.

Definition adjust (style : DWORD) (rc : RECT) : RECT :=
  let b := frame style in
  mkRECT (Int32.add (left rc) (left b)) (Int32.add (top rc) (top b))
         (Int32.add (right rc) (right b)) (Int32.add (bottom rc) (bottom b)).

Definition os : desktop :=
  mk_desktop adjust (fun _ => 0) [1] (fun _ => 1) 1
    (fun _ => mkRECT 0 0 1920 1080).

Definition VO_EVENT_RESIZE : Z := 2.
Definition MP_INPUT_RELEASE_ALL : Z := -1.

Definition options (fit : bool) : mp_vo_opts := mk_opts false true false fit (-1) (-1).

(** A windowed, initialized window with client area [w] x [h] at [(x, y)]. *)
Definition windowed (fit : bool) (x y w h : Z) : gui :=
  mk_gui
    (mk_w32 (options fit) false 0x1234 0 (mk_mp_rect 0 0 1920 1080)
       w h x y false true false x y w h false true 0 0 0)
    0x00CF0000 (mkRECT (x - 8) (y - 31) (x + w + 8) (y + h + 8)) [].

(** The same struct before the first reconfiguration. *)
Definition uninitialized : gui :=
  mk_gui
    (mk_w32 (options true) false 0x1234 0 (mk_mp_rect 0 0 1920 1080)
       0 0 0 0 false false false 0 0 0 0 false true 0 0 0)
    0x00CF0000 (mkRECT 0 0 100 100) [].
End Sample.

(** * Further code of the file *)

(** More constants of winuser.h. *)
Module Win32Ext.
Definition VK_LCONTROL : Z := 0xA2.
Definition VK_RCONTROL : Z := 0xA3.
Definition VK_LMENU : Z := 0xA4.
Definition VK_RMENU : Z := 0xA5.
Definition WMSZ_LEFT : Z := 1.
Definition WMSZ_RIGHT : Z := 2.
Definition WMSZ_TOP : Z := 3.
Definition WMSZ_TOPLEFT : Z := 4.
Definition WMSZ_TOPRIGHT : Z := 5.
Definition WMSZ_BOTTOM : Z := 6.
Definition WMSZ_BOTTOMLEFT : Z := 7.
Definition WMSZ_BOTTOMRIGHT : Z := 8.
Definition HTCLIENT : Z := 1.
Definition HTLEFT : Z := 10.
Definition HTRIGHT : Z := 11.
Definition HTTOP : Z := 12.
Definition HTTOPLEFT : Z := 13.
Definition HTTOPRIGHT : Z := 14.
Definition HTBOTTOM : Z := 15.
Definition HTBOTTOMLEFT : Z := 16.
Definition HTBOTTOMRIGHT : Z := 17.
Definition SM_CXBORDER : Z := 5.
Definition SM_CXFRAME : Z := 32.
Definition SM_CXPADDEDBORDER : Z := 92.
Definition SC_SCREENSAVE : Z := 0xF140.
Definition SC_MONITORPOWER : Z := 0xF170.
End Win32Ext.

(** ** Hit test of a borderless window (lines 337-376) *)

Section HitTest.
Variable os : desktop.
(** [IsMaximized(w32->window)], and [ScreenToClient] for that window. *)
Variable IsMaximized : bool.
Variable ScreenToClient : Z * Z -> Z * Z.

Definition borderless_nchittest (s : gui) (x y : Z) : Z :=
  if IsMaximized then Win32Ext.HTCLIENT else
  let '(mouse_x, mouse_y) := ScreenToClient (x, y) in
  (* The horizontal frame should be the same size as the vertical frame *)
  let frame_size := Int32.add (GetSystemMetrics os Win32Ext.SM_CXFRAME)
                              (GetSystemMetrics os Win32Ext.SM_CXPADDEDBORDER) in
  (* The diagonal size handles are slightly wider than the side borders *)
  let diagonal_width :=
    Int32.add (Int32.wrap (frame_size * 2))
              (GetSystemMetrics os Win32Ext.SM_CXBORDER) in
  (* Hit-test top border *)
  if mouse_y <? frame_size then
    if mouse_x <? diagonal_width then Win32Ext.HTTOPLEFT
    else if mouse_x >=? Int32.sub (dw (w32 s)) diagonal_width
    then Win32Ext.HTTOPRIGHT
    else Win32Ext.HTTOP
  (* Hit-test bottom border *)
  else if mouse_y >=? Int32.sub (dh (w32 s)) frame_size then
    if mouse_x <? diagonal_width then Win32Ext.HTBOTTOMLEFT
    else if mouse_x >=? Int32.sub (dw (w32 s)) diagonal_width
    then Win32Ext.HTBOTTOMRIGHT
    else Win32Ext.HTBOTTOM
  (* Hit-test side borders *)
  else if mouse_x <? frame_size then Win32Ext.HTLEFT
  else if mouse_x >=? Int32.sub (dw (w32 s)) frame_size then Win32Ext.HTRIGHT
  else Win32Ext.HTCLIENT.
End HitTest.

(** ** Interactive resize with the aspect kept (lines 378-393, 748-769) *)

(** Turn a WMSZ_* value into the border that should be resized:
    0=left, 1=top, 2=right, 3=bottom, -1=undefined. *)
Definition get_resize_border (v : Z) : Z :=
  if v =? Win32Ext.WMSZ_LEFT then 3
  else if v =? Win32Ext.WMSZ_TOP then 2
  else if v =? Win32Ext.WMSZ_RIGHT then 3
  else if v =? Win32Ext.WMSZ_BOTTOM then 2
  else if v =? Win32Ext.WMSZ_TOPLEFT then 1
  else if v =? Win32Ext.WMSZ_TOPRIGHT then 1
  else if v =? Win32Ext.WMSZ_BOTTOMLEFT then 3
  else if v =? Win32Ext.WMSZ_BOTTOMRIGHT then 3
  else -1.

(** IEEE 754 binary32, the C type [float], with every operation rounded to
    [float] as SSE arithmetic does. *)
Module Single.
Definition prec : Z := 24.
Definition emax : Z := 128.
Definition of_int (z : Z) : spec_float := binary_normalize prec emax z 0 false.
Definition mul : spec_float -> spec_float -> spec_float := SFmul prec emax.
Definition div : spec_float -> spec_float -> spec_float := SFdiv prec emax.
Definition sub : spec_float -> spec_float -> spec_float := SFsub prec emax.
(** Conversion to [int], as [Double.to_long]. *)
Definition to_int (f : spec_float) : Z :=
  match Double.trunc f with
  | Some t =>
      if (Int32.min_signed <=? t) && (t <=? Int32.max_signed) then t
      else Int32.min_signed
  | None => Int32.min_signed
  end.
End Single.

Definition MPMAX (a b : Z) : Z := if a >? b then a else b.

(** [a[i] -= d[i]] on a C array given as a list. *)
Fixpoint array_sub_at (a : list Z) (i : nat) (d : Z) : list Z :=
  match a, i with
  | [], _ => []
  | v :: rest, O => Int32.sub v d :: rest
  | v :: rest, S j => v :: array_sub_at rest j d
  end.

Section Sizing.
Variable os : desktop.
(** [opts->keepaspect], [opts->keepaspect_window] and the video size
    [o_dwidth], [o_dheight] ([uint32_t]) of the struct. *)
Variable keepaspect keepaspect_window : bool.
Variable o_dwidth o_dheight : Z.

(** The case [WM_SIZING] of [WndProc]: [rc] is the rectangle [lParam] points
    to.  The result is the rectangle stored back when the case returns
    [TRUE], and [None] when it breaks. *)
Definition WM_SIZING_case (s : gui) (wParam : Z) (rc : RECT) : option RECT :=
  if keepaspect && keepaspect_window && negb (current_fs (w32 s))
     && (parent (w32 s) =? 0) then
    (* get client area of the windows if it had the rect rc *)
    let r := subtract_window_borders os s rc in
    let c_w := Int32.sub (right r) (left r) in
    let c_h := Int32.sub (bottom r) (top r) in
    let aspect := Single.div (Single.of_int o_dwidth)
                             (Single.of_int (MPMAX o_dheight 1)) in
    let d_w := Single.to_int
                 (Single.sub (Single.mul (Single.of_int c_h) aspect)
                             (Single.of_int c_w)) in
    let d_h := Single.to_int
                 (Single.sub (Single.div (Single.of_int c_w) aspect)
                             (Single.of_int c_h)) in
    let d_corners := [d_w; d_h; Int32.sub 0 d_w; Int32.sub 0 d_h] in
    let corners := [left rc; top rc; right rc; bottom rc] in
    let corner := get_resize_border (Int32.wrap wParam) in
    let corners :=
      if corner >=? 0
      then array_sub_at corners (Z.to_nat corner)
             (nth (Z.to_nat corner) d_corners 0)
      else corners in
    Some (mkRECT (nth 0 corners 0) (nth 1 corners 0)
                 (nth 2 corners 0) (nth 3 corners 0))
  else None.
End Sizing.

(** ** Modifier keys and character messages (lines 395-415, 558-569) *)

Section Modifiers.
(** [GetKeyState], a [SHORT]; [mp_input_use_alt_gr(w32->input_ctx)]; and the
    modifier bits of input/keycodes.h. *)
Variable GetKeyState : Z -> Z.
Variable mp_input_use_alt_gr : bool.
Variable MP_KEY_MODIFIER_CTRL MP_KEY_MODIFIER_SHIFT MP_KEY_MODIFIER_ALT : Z.

Definition key_state (vk : Z) : bool :=
  negb (Z.land (GetKeyState vk) 0x8000 =? 0).

Definition mod_state : Z :=
  let res := 0 in
  (* AltGr is represented as LCONTROL+RMENU on Windows *)
  let alt_gr := mp_input_use_alt_gr && key_state Win32Ext.VK_RMENU
                && key_state Win32Ext.VK_LCONTROL in
  let res := if key_state Win32Ext.VK_RCONTROL
                || (key_state Win32Ext.VK_LCONTROL && negb alt_gr)
             then Z.lor res MP_KEY_MODIFIER_CTRL else res in
  let res := if key_state Win32.VK_SHIFT
             then Z.lor res MP_KEY_MODIFIER_SHIFT else res in
  let res := if key_state Win32Ext.VK_LMENU
                || (key_state Win32Ext.VK_RMENU && negb alt_gr)
             then Z.lor res MP_KEY_MODIFIER_ALT else res in
  res.

(** The result is the returned [bool] and the state after the call. *)
Definition handle_char (s : gui) (wc : Z) : bool * gui :=
  let '(c, s) := decode_utf16 s wc in
  if c =? 0 then (true, s)
  else if c <? 0x20 then (false, s)
  else (true, emit (mp_input_put_key (Z.lor c mod_state)) s).
End Modifiers.

(** The UTF-16 encoding of a code point above the basic plane (the Unicode
    Standard, section 3.9): its two surrogates. *)
Definition high_surrogate_of (cp : Z) : Z := 0xD800 + (cp - 0x10000) / 1024.
Definition low_surrogate_of (cp : Z) : Z := 0xDC00 + (cp - 0x10000) mod 1024.

(** ** Refresh rate from GDI (lines 583-613) *)

Definition double_add : spec_float -> spec_float -> spec_float :=
  SFadd Double.prec Double.emax.

(** The constant [1.001]: the double nearest to 1001/1000. *)
Definition double_1_001 : spec_float :=
  Double.div (Double.of_long 1001) (Double.of_long 1000).

(** [EnumDisplaySettingsW] either fails or fills [dm.dmDisplayFrequency],
    a [DWORD]; [dmDisplayFrequency] is that answer. *)
Definition get_refresh_rate_from_gdi (dmDisplayFrequency : option Z)
    : spec_float :=
  match dmDisplayFrequency with
  | None => S754_zero false
  | Some freq =>
      (* May return 0 or 1 which "represent the display hardware's default
         refresh rate"; don't return exactly 1 *)
      if freq =? 1 then S754_zero false else
      let rv := Double.of_long freq in
      if existsb (Z.eqb freq) [23; 29; 47; 59; 71; 89; 95; 119; 143]
      then Double.div (double_add rv (Double.of_long 1)) double_1_001
      else rv
  end.

(** ** The screensaver command (lines 788-798) *)

(** The case [WM_SYSCOMMAND] of [WndProc]: the state and the value returned,
    [None] when the case breaks and the message goes on to
    [DefWindowProcW]. *)
Definition WM_SYSCOMMAND_case (s : gui) (wParam : Z) : gui * option Z :=
  if (wParam =? Win32Ext.SC_SCREENSAVE) || (wParam =? Win32Ext.SC_MONITORPOWER)
  then
    if disable_screensaver (w32 s)
    then (MP_VERBOSE "killing screensaver\n" [] s, Some 0)
    else (s, None)
  else (s, None).

(** ** Running a control request for the caller (lines 1631-1646) *)

(** The fields of [struct vo] that [do_control] writes, with the state. *)
Record vo := mk_vo { vo_w32 : gui; dwidth : Z; dheight : Z }.

Section DoControl.
Variable os : desktop.
Variable VO_EVENT_RESIZE : Z.

(** [atomic_fetch_and(&w32->event_flags, 0)]: the flags are cleared and
    their old value is the result. *)
Definition fetch_and_clear_event_flags (s : gui) : Z * gui :=
  (event_flags (w32 s), upd (with_event_flags 0) s).

(** [events] is the caller's [int *events]; the result carries the status,
    the caller's array, [*events] and the state after the call. *)
Definition do_control (v : vo) (events : Z) (request : voctrl) (arg : Z * Z)
    : vo_status * (Z * Z) * Z * vo :=
  let '(ret, arg, s) := gui_thread_control os VO_EVENT_RESIZE (vo_w32 v) request arg in
  let '(flags, s) := fetch_and_clear_event_flags s in
  let events := Int32.wrap (Z.lor (Int32.uwrap events) flags) in
  (* Safe access, since caller (owner of vo) is blocked. *)
  if negb (Z.land events VO_EVENT_RESIZE =? 0)
  then (ret, arg, events, mk_vo s (dw (w32 s)) (dh (w32 s)))
  else (ret, arg, events, mk_vo s (dwidth v) (dheight v)).
End DoControl.

(** ** Requests of the caller (lines 1648-1666) *)

Section Control.
Variable os : desktop.
Variable VO_EVENT_RESIZE : Z.
(** [VOCTRL_CHECK_EVENTS] of video/out/vo.h, a request without a case in
    [gui_thread_control]. *)
Variable VOCTRL_CHECK_EVENTS : Z.

(** [mp_dispatch_run] runs [do_control] on the GUI thread while the caller
    waits for it. *)
Definition vo_w32_control (v : vo) (events : Z) (request : voctrl) (arg : Z * Z)
    : vo_status * (Z * Z) * Z * vo :=
  let check_events :=
    match request with
    | VOCTRL_other r => r =? VOCTRL_CHECK_EVENTS
    | _ => false
    end in
  if check_events then
    let '(flags, s) := fetch_and_clear_event_flags (vo_w32 v) in
    let events := Int32.wrap (Z.lor (Int32.uwrap events) flags) in
    if negb (Z.land events VO_EVENT_RESIZE =? 0)
    then (VO_TRUE, arg, events, mk_vo s (dw (w32 s)) (dh (w32 s)))
    else (VO_TRUE, arg, events, mk_vo s (dwidth v) (dheight v))
  else
    do_control os VO_EVENT_RESIZE v events request arg.
End Control.

(** ** Mouse tracking and the end of the window (lines 775-787, 845-865) *)

(** [LOWORD], [HIWORD] of minwindef.h; [GET_X_LPARAM], [GET_Y_LPARAM] of
    windowsx.h, a word of [lParam] read as a [short]. *)
Definition LOWORD (l : Z) : Z := Z.land l 0xffff.
Definition HIWORD (l : Z) : Z := Z.land (Z.shiftr l 16) 0xffff.
Definition short (z : Z) : Z := (z + 2 ^ 15) mod 2 ^ 16 - 2 ^ 15.
Definition GET_X_LPARAM (lp : Z) : Z := short (LOWORD lp).
Definition GET_Y_LPARAM (lp : Z) : Z := short (HIWORD lp).

(** The calls of these cases that [effect] does not list. *)
Inductive os_call :=
| TrackMouseEvent
| mp_input_set_mouse_pos (x y : Z)
| RevokeDragDrop (hwnd : HWND)
| PostQuitMessage (nExitCode : Z).

(** The struct with the fields [tracking], [mouse_x] and [mouse_y], and the
    calls made so far, oldest first. *)
Record wnd := mk_wnd {
  wnd_w32 : vo_w32_state;
  tracking : bool;
  mouse_x : Z;
  mouse_y : Z;
  calls : list (effect + os_call)
}.

Definition call (c : effect + os_call) (st : wnd) : wnd :=
  mk_wnd (wnd_w32 st) (tracking st) (mouse_x st) (mouse_y st) (calls st ++ [c]).

Definition with_destroyed v (w : vo_w32_state) : vo_w32_state :=
  mk_w32 (opts w) (terminate w) (window w) (parent w) (screenrc w)
    (prev_width w) (prev_height w) (prev_x w) (prev_y w) v
    (window_bounds_initialized w) (current_fs w) (window_x w) (window_y w)
    (dw w) (dh w) (disable_screensaver w) (cursor_visible w) (event_flags w)
    (high_surrogate w) (taskbar_list w).
Definition with_window v (w : vo_w32_state) : vo_w32_state :=
  mk_w32 (opts w) (terminate w) v (parent w) (screenrc w)
    (prev_width w) (prev_height w) (prev_x w) (prev_y w) (destroyed w)
    (window_bounds_initialized w) (current_fs w) (window_x w) (window_y w)
    (dw w) (dh w) (disable_screensaver w) (cursor_visible w) (event_flags w)
    (high_surrogate w) (taskbar_list w).

Section Messages.
(** Key codes of input/keycodes.h. *)
Variable MP_KEY_MOUSE_ENTER MP_KEY_MOUSE_LEAVE MP_KEY_CLOSE_WIN : Z.

(** The case [WM_MOUSEMOVE] of [WndProc]; [tracked] is what
    [TrackMouseEvent] returns if it is called. *)
Definition WM_MOUSEMOVE_case (tracked : bool) (st : wnd) (lParam : Z) : wnd :=
  let st :=
    if negb (tracking st) then
      let st := call (inr TrackMouseEvent) st in
      let st := mk_wnd (wnd_w32 st) tracked (mouse_x st) (mouse_y st) (calls st) in
      call (inl (mp_input_put_key MP_KEY_MOUSE_ENTER)) st
    else st in
  (* Windows can send spurious mouse events *)
  let x := GET_X_LPARAM lParam in
  let y := GET_Y_LPARAM lParam in
  if negb (x =? mouse_x st) || negb (y =? mouse_y st) then
    let st := mk_wnd (wnd_w32 st) (tracking st) x (mouse_y st) (calls st) in
    let st := mk_wnd (wnd_w32 st) (tracking st) (mouse_x st) y (calls st) in
    call (inr (mp_input_set_mouse_pos x y)) st
  else st.

Definition WM_MOUSELEAVE_case (st : wnd) : wnd :=
  let st := mk_wnd (wnd_w32 st) false (mouse_x st) (mouse_y st) (calls st) in
  call (inl (mp_input_put_key MP_KEY_MOUSE_LEAVE)) st.

(** The cases [WM_NCDESTROY] and [WM_DESTROY], which share their code. *)
Definition WM_DESTROY_case (st : wnd) : wnd :=
  if destroyed (wnd_w32 st) then st else
  (* If terminate is not set, something else destroyed the window. *)
  let st := if negb (terminate (wnd_w32 st))
            then call (inl (mp_input_put_key MP_KEY_CLOSE_WIN)) st
            else st in
  let st := call (inr (RevokeDragDrop (window (wnd_w32 st)))) st in
  let st := mk_wnd (with_destroyed true (wnd_w32 st)) (tracking st)
              (mouse_x st) (mouse_y st) (calls st) in
  let st := mk_wnd (with_window 0 (wnd_w32 st)) (tracking st)
              (mouse_x st) (mouse_y st) (calls st) in
  call (inr (PostQuitMessage 0)) st.

(** The messages of these cases; [WM_MOUSEMOVE] carries [lParam] and the
    answer [TrackMouseEvent] has for it. *)
Inductive message :=
| WM_MOUSEMOVE (lParam : Z) (tracked : bool)
| WM_MOUSELEAVE
| WM_NCDESTROY
| WM_DESTROY.

(** Lines 705-706, which run for every message before the [switch]: a
    struct without a window handle takes [hWnd]. *)
Definition adopt_window (hWnd : HWND) (st : wnd) : wnd :=
  if window (wnd_w32 st) =? 0
  then mk_wnd (with_window hWnd (wnd_w32 st)) (tracking st)
         (mouse_x st) (mouse_y st) (calls st)
  else st.

(** Line 707: what [assert(w32->window == hWnd)] tests, after the handle
    is taken.  [WndProc] below is the code where the test holds. *)
Definition WndProc_assert (hWnd : HWND) (st : wnd) : bool :=
  window (wnd_w32 (adopt_window hWnd st)) =? hWnd.

(** The [switch] of [WndProc] on these messages. *)
Definition WndProc_switch (st : wnd) (m : message) : wnd :=
  match m with
  | WM_MOUSEMOVE lParam tracked => WM_MOUSEMOVE_case tracked st lParam
  | WM_MOUSELEAVE => WM_MOUSELEAVE_case st
  | WM_NCDESTROY => WM_DESTROY_case st
  | WM_DESTROY => WM_DESTROY_case st
  end.

(** [WndProc] on these messages, for the window [hWnd]. *)
Definition WndProc (hWnd : HWND) (st : wnd) (m : message) : wnd :=
  WndProc_switch (adopt_window hWnd st) m.

(** The message loop delivers the messages one after the other. *)
Definition deliver (hWnd : HWND) (st : wnd) (ms : list message) : wnd :=
  fold_left (WndProc hWnd) ms st.
End Messages.

(** The positions handed to [mp_input_set_mouse_pos], oldest first. *)
Fixpoint mouse_positions (cs : list (effect + os_call)) : list (Z * Z) :=
  match cs with
  | [] => []
  | inr (mp_input_set_mouse_pos x y) :: rest => (x, y) :: mouse_positions rest
  | _ :: rest => mouse_positions rest
  end.

(** No element is followed by an equal one. *)
Fixpoint no_repeat (l : list (Z * Z)) : Prop :=
  match l with
  | a :: (b :: _) as rest => a <> b /\ no_repeat rest
  | _ => True
  end.

Definition is_destroy (m : message) : bool :=
  match m with WM_NCDESTROY | WM_DESTROY => true | _ => false end.

Definition is_PostQuitMessage (c : effect + os_call) : bool :=
  match c with inr (PostQuitMessage _) => true | _ => false end.

(** ** The drop target (lines 135-318) *)

Inductive HRESULT := S_OK | E_NOINTERFACE.

(** [DROPEFFECT_NONE] of oleidl.h and [MK_SHIFT] of winuser.h. *)
Definition DROPEFFECT_NONE : DWORD := 0.
Definition MK_SHIFT : Z := 0x0004.

Inductive mp_dnd_action := DND_REPLACE | DND_APPEND.

(** [GUID] of guiddef.h with the two interface identifiers the file names:
    00000000-0000-0000-C000-000000000046 and
    0000010E-0000-0000-C000-000000000046. *)
Record GUID := mk_GUID { Data1 : Z; Data2 : Z; Data3 : Z; Data4 : list Z }.

Definition IID_IUnknown : GUID := mk_GUID 0 0 0 [0xC0; 0; 0; 0; 0; 0; 0; 0x46].
Definition IID_IDataObject : GUID :=
  mk_GUID 0x10E 0 0 [0xC0; 0; 0; 0; 0; 0; 0; 0x46].

Fixpoint bytes_eqb (a b : list Z) : bool :=
  match a, b with
  | [], [] => true
  | x :: a, y :: b => (x =? y) && bytes_eqb a b
  | _, _ => false
  end.

Definition IsEqualGUID (a b : GUID) : bool :=
  (Data1 a =? Data1 b) && (Data2 a =? Data2 b) && (Data3 a =? Data3 b)
  && bytes_eqb (Data4 a) (Data4 b).

(** [struct tagDropTarget]: the reference count, the effect last decided
    and the data object held, [0] being [NULL]. *)
Record DropTarget := mk_DropTarget {
  refCnt : Z;
  lastEffect : DWORD;
  dataObj : Z
}.

(** What the drop target does to the world: calls on data objects, log
    lines, events for the input context, and its own deallocation.
    (The calls that lock, read and free storage media are not listed.) *)
Inductive dnd_call :=
| IDataObject_AddRef (obj : Z)
| IDataObject_Release (obj : Z)
| IDataObject_clear_lpVtbl (obj : Z)
| dnd_msg (lev : msg_level) (fmt : string) (args : list string)
| mp_event_drop_files (num_files : Z) (files : list string) (action : mp_dnd_action)
| mp_event_drop_mime_data (mime_type data : string) (action : mp_dnd_action)
| talloc_free_This.

(** What a data object answers.  [QueryGetData_file] and [QueryGetData_url]
    tell whether [QueryGetData] returns [S_OK] for [fmtetc_file] and
    [fmtetc_url].  [GetData_file] is [None] when [GetData] fails for
    [fmtetc_file], [Some None] when [GlobalLock] then gives [NULL], and
    otherwise the files of the [HDROP]: for each, the name in UTF-8, or
    [None] when the second [DragQueryFileW] does not return the length the
    first announced.  [GetData_url] likewise holds the URL in UTF-8. *)
Record IDataObject := mk_IDataObject {
  QueryGetData_file : bool;
  QueryGetData_url : bool;
  GetData_file : option (option (list (option string)));
  GetData_url : option (option string)
}.

Definition DropTarget_Destroy (This : DropTarget) : list dnd_call :=
  (if negb (dataObj This =? 0)
   then [IDataObject_Release (dataObj This); IDataObject_clear_lpVtbl (dataObj This)]
   else [])
  ++ [talloc_free_This].

(** The result is the new count as a [ULONG], and the target. *)
Definition DropTarget_AddRef (This : DropTarget) : Z * DropTarget :=
  (Int32.uwrap (Int32.add (refCnt This) 1),
   mk_DropTarget (Int32.add (refCnt This) 1) (lastEffect This) (dataObj This)).

(** The result is the [HRESULT], whether [*ppvObject] is [This] rather than
    [NULL], and the target. *)
Definition DropTarget_QueryInterface (This : DropTarget) (riid : GUID)
    : HRESULT * bool * DropTarget :=
  if negb (IsEqualGUID riid IID_IUnknown) || negb (IsEqualGUID riid IID_IDataObject)
  then (E_NOINTERFACE, false, This)
  else (S_OK, true, snd (DropTarget_AddRef This)).

(** The result is [cRef], the target if it still exists, and the calls
    made. *)
Definition DropTarget_Release (This : DropTarget)
    : Z * option DropTarget * list dnd_call :=
  let cRef := Int32.uwrap (Int32.sub (refCnt This) 1) in
  let t := mk_DropTarget (Int32.sub (refCnt This) 1) (lastEffect This) (dataObj This) in
  if cRef =? 0 then (cRef, None, DropTarget_Destroy t)
  else (cRef, Some t, []).

Section Drop.
(** The object behind a pointer, and what [mp_event_drop_mime_data]
    returns. *)
Variable object : Z -> IDataObject.
Variable drop_mime_data_result : string -> string -> mp_dnd_action -> Z.

(** The methods give [*pdwEffect] on return, the target and the calls
    made; all of them return [S_OK]. *)
Definition DropTarget_DragEnter (This : DropTarget) (pDataObj : Z)
    (pdwEffect : DWORD) : DWORD * DropTarget * list dnd_call :=
  let c := [IDataObject_AddRef pDataObj] in
  let pdwEffect :=
    if negb (QueryGetData_file (object pDataObj))
       && negb (QueryGetData_url (object pDataObj))
    then DROPEFFECT_NONE else pdwEffect in
  let c := if negb (dataObj This =? 0)
           then c ++ [IDataObject_Release (dataObj This)] else c in
  (pdwEffect, mk_DropTarget (refCnt This) pdwEffect pDataObj, c).

Definition DropTarget_DragOver (This : DropTarget) (pdwEffect : DWORD)
    : DWORD * DropTarget * list dnd_call :=
  (lastEffect This, This, []).

Definition DropTarget_DragLeave (This : DropTarget)
    : DropTarget * list dnd_call :=
  if negb (dataObj This =? 0)
  then (mk_DropTarget (refCnt This) (lastEffect This) 0,
        [IDataObject_Release (dataObj This)])
  else (This, []).

(** The loop over the dropped files: the names received and the log
    lines. *)
Fixpoint received_files (entries : list (option string))
    : list string * list dnd_call :=
  match entries with
  | [] => ([], [])
  | Some fname :: rest =>
      let '(files, c) := received_files rest in
      (fname :: files,
       dnd_msg MSGL_V "received dropped file: %s\n" [fname] :: c)
  | None :: rest =>
      let '(files, c) := received_files rest in
      (files, dnd_msg MSGL_ERR "error getting dropped file name\n" [] :: c)
  end.

Definition DropTarget_Drop (This : DropTarget) (pDataObj : Z)
    (grfKeyState : DWORD) (pdwEffect : DWORD)
    : DWORD * DropTarget * list dnd_call :=
  let '(This, c) :=
    if negb (dataObj This =? 0)
    then (mk_DropTarget (refCnt This) (lastEffect This) 0,
          [IDataObject_Release (dataObj This)])
    else (This, []) in
  let action := if negb (Z.land grfKeyState MK_SHIFT =? 0)
                then DND_APPEND else DND_REPLACE in
  let c := c ++ [IDataObject_AddRef pDataObj] in
  let '(This, c) :=
    match GetData_file (object pDataObj) with
    | Some medium =>
        match medium with
        | Some entries =>
            let '(files, log) := received_files entries in
            (This, c ++ log
                     ++ [mp_event_drop_files (Z.of_nat (List.length files)) files action])
        | None => (This, c)
        end
    | None =>
        match GetData_url (object pDataObj) with
        | Some medium =>
            match medium with
            | Some url =>
                let c := c ++ [mp_event_drop_mime_data "text/uri-list" url action] in
                if drop_mime_data_result "text/uri-list" url action >? 0
                then (This, c ++ [dnd_msg MSGL_V "received dropped URL: %s\n" [url]])
                else (This, c ++ [dnd_msg MSGL_ERR "error getting dropped URL\n" []])
            | None => (This, c)
            end
        | None =>
            (mk_DropTarget (refCnt This) DROPEFFECT_NONE (dataObj This), c)
        end
    end in
  let c := c ++ [IDataObject_Release pDataObj] in
  (lastEffect This, This, c).

(** The calls the system makes on a registered target during drags. *)
Inductive drag_call :=
| DragEnter (pDataObj : Z) (pdwEffect : DWORD)
| DragOver (pdwEffect : DWORD)
| DragLeave
| Drop (pDataObj : Z) (grfKeyState pdwEffect : DWORD).

Definition drag (This : DropTarget) (d : drag_call) : DropTarget * list dnd_call :=
  match d with
  | DragEnter p e => let '(_, t, c) := DropTarget_DragEnter This p e in (t, c)
  | DragOver e => let '(_, t, c) := DropTarget_DragOver This e in (t, c)
  | DragLeave => DropTarget_DragLeave This
  | Drop p k e => let '(_, t, c) := DropTarget_Drop This p k e in (t, c)
  end.

Fixpoint drags (This : DropTarget) (ds : list drag_call)
    : DropTarget * list dnd_call :=
  match ds with
  | [] => (This, [])
  | d :: rest =>
      let '(t, c) := drag This d in
      let '(t, c') := drags t rest in
      (t, c ++ c')
  end.
End Drop.

(** The references held on [obj] after the calls [cs]: one for each
    [AddRef], less one for each [Release]. *)
Fixpoint references (obj : Z) (cs : list dnd_call) : Z :=
  match cs with
  | [] => 0
  | IDataObject_AddRef o :: rest =>
      (if o =? obj then 1 else 0) + references obj rest
  | IDataObject_Release o :: rest =>
      references obj rest - (if o =? obj then 1 else 0)
  | _ :: rest => references obj rest
  end.

(** The data object passed with a call is not [NULL]. *)
Definition passes_object (d : drag_call) : Prop :=
  match d with
  | DragEnter p _ => p <> 0
  | Drop p _ _ => p <> 0
  | _ => True
  end.

(** ** Reconfiguration for a new video size (lines 1254-1308) *)

Definition with_window_bounds_initialized v (w : vo_w32_state) : vo_w32_state :=
  mk_w32 (opts w) (terminate w) (window w) (parent w) (screenrc w)
    (prev_width w) (prev_height w) (prev_x w) (prev_y w) (destroyed w)
    v (current_fs w) (window_x w) (window_y w)
    (dw w) (dh w) (disable_screensaver w) (cursor_visible w) (event_flags w)
    (high_surrogate w) (taskbar_list w).

Section Reconfig.
Variable os : desktop.
Variable VO_EVENT_RESIZE : Z.
(** [geo.win.x0] and [geo.win.y0] as [vo_calc_window_geometry] gives them,
    and the rectangle [GetClientRect] fills. *)
Variable geo_win_x0 geo_win_y0 : Z.
Variable GetClientRect : RECT.

Definition set_vo_size (width height : Z) (v : vo) : vo :=
  mk_vo (vo_w32 v) width height.
Definition on_w32 (f : gui -> gui) (v : vo) : vo :=
  mk_vo (f (vo_w32 v)) (dwidth v) (dheight v).

(** [v] holds [vo->dwidth] and [vo->dheight] as [vo_apply_window_geometry]
    leaves them; [o_dwidth] and [o_dheight] are the fields of the struct
    with the video size ([uint32_t]), given back with the result. *)
Definition gui_thread_reconfig (v : vo) (o_dwidth o_dheight : Z) : vo * Z * Z :=
  let reset_size := negb (o_dwidth =? Int32.uwrap (dwidth v))
                    || negb (o_dheight =? Int32.uwrap (dheight v)) in
  let pos_init := false in
  let o_dwidth := Int32.uwrap (dwidth v) in
  let o_dheight := Int32.uwrap (dheight v) in
  (* the desired size is ignored in wid mode *)
  let '(v, reset_size, pos_init) :=
    if parent (w32 (vo_w32 v)) =? 0 then
      let '(v, reset_size, pos_init) :=
        if window_bounds_initialized (w32 (vo_w32 v)) then
          (* restore vo_dwidth/vo_dheight *)
          (set_vo_size (right GetClientRect) (bottom GetClientRect) v,
           reset_size, pos_init)
        else
          let v := on_w32 (upd (with_window_bounds_initialized true)) v in
          let v := on_w32 (upd (with_prev_x geo_win_x0)) v in
          let v := on_w32 (upd (with_window_x geo_win_x0)) v in
          let v := on_w32 (upd (with_prev_y geo_win_y0)) v in
          let v := on_w32 (upd (with_window_y geo_win_y0)) v in
          (v, true, true) in
      let v :=
        if reset_size then
          let v := set_vo_size (Int32.wrap o_dwidth) (dheight v) v in
          let v := on_w32 (upd (with_prev_width (dwidth v))) v in
          let v := set_vo_size (dwidth v) (Int32.wrap o_dheight) v in
          on_w32 (upd (with_prev_height (dheight v))) v
        else v in
      (v, reset_size, pos_init)
    else
      (set_vo_size (right GetClientRect) (bottom GetClientRect) v,
       reset_size, pos_init) in
  (* Recenter window around old position on new video size *)
  let v :=
    if negb pos_init then
      let v := on_w32 (upd (fun w => with_window_x
                 (Int32.add (window_x w)
                    (Int32.sub (Int32.div (dw w) 2) (Int32.div (dwidth v) 2))) w)) v in
      on_w32 (upd (fun w => with_window_y
                 (Int32.add (window_y w)
                    (Int32.sub (Int32.div (dh w) 2) (Int32.div (dheight v) 2))) w)) v
    else v in
  let v := on_w32 (upd (with_dw (dwidth v))) v in
  let v := on_w32 (upd (with_dh (dheight v))) v in
  (on_w32 (reinit_window_state os VO_EVENT_RESIZE) v, o_dwidth, o_dheight).
End Reconfig.

(** ** UTF-16 text *)

Definition is_surrogate (c : Z) : bool :=
  Win32.IS_HIGH_SURROGATE c || Win32.IS_LOW_SURROGATE c.

(** Successive character messages: the code units are decoded in turn and
    the characters that come out (the results other than 0) collected. *)
Fixpoint decode_units (s : gui) (units : list Z) : list Z * gui :=
  match units with
  | [] => ([], s)
  | c :: rest =>
      let '(r, s) := decode_utf16 s c in
      let '(out, s) := decode_units s rest in
      (if r =? 0 then out else r :: out, s)
  end.

(** A Unicode scalar value other than NUL. *)
Definition scalar_value (cp : Z) : Prop :=
  0 < cp <= 0x10FFFF /\ is_surrogate cp = false.

(** The UTF-16 encoding of a text. *)
Fixpoint utf16_encode (cps : list Z) : list Z :=
  match cps with
  | [] => []
  | cp :: rest =>
      if cp <? 0x10000 then cp :: utf16_encode rest
      else high_surrogate_of cp :: low_surrogate_of cp :: utf16_encode rest
  end.

(** ** Measures used by the statements *)

Definition mp_rect_of (r : RECT) : mp_rect :=
  mk_mp_rect (left r) (top r) (right r) (bottom r).

(** [FRAME] of [update_style]. *)
Definition FRAME : Z := Z.lor Win32.WS_OVERLAPPEDWINDOW Win32.WS_SIZEBOX.

(** The client rectangle of the struct, as lines 1178-1182 build it. *)
Definition client_rect (w : vo_w32_state) : RECT :=
  mkRECT (window_x w) (window_y w)
         (Int32.add (window_x w) (dw w)) (Int32.add (window_y w) (dh w)).

(** ** Sequences of requests, and counts over the calls made *)

Section Requests.
Variable os : desktop.
Variable VO_EVENT_RESIZE : Z.

(** Requests run one after the other on the GUI thread. *)
Fixpoint controls (s : gui) (reqs : list (voctrl * (Z * Z))) : gui :=
  match reqs with
  | [] => s
  | (request, arg) :: rest =>
      controls (snd (gui_thread_control os VO_EVENT_RESIZE s request arg)) rest
  end.
End Requests.

(** The requests whose cases [gui_thread_control] has as the code has
    them: all but [VOCTRL_other], which stands for the requests without a
    case and does not tell them from those whose case is left out. *)
Definition modelled_request (request : voctrl) : Prop :=
  match request with
  | VOCTRL_other _ => False
  | _ => True
  end.

(** Whether the last of the two screensaver requests among [reqs] is
    [VOCTRL_KILL_SCREENSAVER]; [init] if there is none. *)
Fixpoint screensaver_disabled (init : bool) (reqs : list (voctrl * (Z * Z)))
    : bool :=
  match reqs with
  | [] => init
  | (VOCTRL_KILL_SCREENSAVER, _) :: rest => screensaver_disabled true rest
  | (VOCTRL_RESTORE_SCREENSAVER, _) :: rest => screensaver_disabled false rest
  | _ :: rest => screensaver_disabled init rest
  end.

(** How often [PostQuitMessage] was called. *)
Definition quits (cs : list (effect + os_call)) : nat :=
  List.length (filter is_PostQuitMessage cs).

(** ** More to evaluate the code on *)

Module Sample2.
(** Two 1920x1080 monitors side by side, and a frame of 4+4 pixels with a
    border of 1 for a borderless window. *)
Definition metrics (i : Z) : Z :=
  if i =? Win32Ext.SM_CXFRAME then 4
  else if i =? Win32Ext.SM_CXPADDEDBORDER then 4
  else if i =? Win32Ext.SM_CXBORDER then 1
  else 0.

Definition monitor_rect (m : HMONITOR) : RECT :=
  if m =? 2 then mkRECT 1920 0 3840 1080 else mkRECT 0 0 1920 1080.

Definition os : desktop :=
  mk_desktop Sample.adjust metrics [1; 2] (fun _ => 1) 1 monitor_rect.

(** The keyboard with AltGr held: right Alt and left Ctrl are down. *)
Definition GetKeyState (vk : Z) : Z :=
  if (vk =? Win32Ext.VK_RMENU) || (vk =? Win32Ext.VK_LCONTROL) then -128 else 0.

(** A window embedded in the window [0x99]. *)
Definition embedded : gui :=
  mk_gui
    (mk_w32 (Sample.options true) false 0x1234 0x99 (mk_mp_rect 0 0 1920 1080)
       0 0 0 0 false false false 0 0 640 480 false true 0 0 0)
    0x40000000 (mkRECT 0 0 640 480) [].

(** A fullscreen window whose saved bounds are 800x600 at (100, 100). *)
Definition fullscreen_window : gui :=
  mk_gui
    (mk_w32 (mk_opts true true false true (-1) (-1)) false 0x1234 0
       (mk_mp_rect 0 0 1920 1080)
       800 600 100 100 false true true 0 0 1920 1080 false true 0 0 0)
    0 (mkRECT 0 0 1920 1080) [].

(** The struct before any mouse message. *)
Definition pointer : wnd :=
  mk_wnd (w32 (Sample.windowed true 0 0 640 480)) false 0 0 [].

(** The object behind pointer 1 holds two files, the second of which cannot
    be read; any other object holds a URL. *)
Definition object (p : Z) : IDataObject :=
  if p =? 1
  then mk_IDataObject true false
         (Some (Some [Some "a.mkv"%string; None])) None
  else mk_IDataObject false true None (Some (Some "http://example.org/"%string)).

Definition drop_mime_data_result (mime_type data : string)
    (action : mp_dnd_action) : Z := 1.

(** Values to stand for constants of headers outside the file. *)
Definition VOCTRL_CHECK_EVENTS : Z := 11.
Definition MP_KEY_MOUSE_LEAVE : Z := 101.
Definition MP_KEY_MOUSE_ENTER : Z := 102.
Definition MP_KEY_CLOSE_WIN : Z := 103.
Definition MP_KEY_MODIFIER_SHIFT : Z := 2 ^ 25.
Definition MP_KEY_MODIFIER_CTRL : Z := 2 ^ 26.
Definition MP_KEY_MODIFIER_ALT : Z := 2 ^ 27.
End Sample2.

(** * Properties *)

(** ** Machine integers *)

Lemma Int32_wrap_range z : Int32.in_range (Int32.wrap z).
Proof.
  unfold Int32.in_range, Int32.wrap, Int32.min_signed, Int32.max_signed, Int32.modulus.
  pose proof (Z.mod_pos_bound (z + 2 ^ 31) (2 ^ 32)). lia.
Qed.

Lemma Int32_wrap_small z : Int32.in_range z -> Int32.wrap z = z.
Proof.
  unfold Int32.in_range, Int32.wrap, Int32.min_signed, Int32.max_signed, Int32.modulus.
  intros H. rewrite Z.mod_small; lia.
Qed.

Lemma Int32_wrap_add_sub a b : Int32.wrap (Int32.wrap (a + b) - b) = Int32.wrap a.
Proof.
  unfold Int32.wrap, Int32.modulus. f_equal.
  replace ((a + b + 2 ^ 31) mod 2 ^ 32 - 2 ^ 31 - b + 2 ^ 31)
    with ((a + b + 2 ^ 31) mod 2 ^ 32 - b) by lia.
  rewrite Zminus_mod_idemp_l. f_equal. lia.
Qed.

Lemma Int32_add_small a b : Int32.in_range (a + b) -> Int32.add a b = a + b.
Proof. apply Int32_wrap_small. Qed.

Lemma Int32_sub_small a b : Int32.in_range (a - b) -> Int32.sub a b = a - b.
Proof. apply Int32_wrap_small. Qed.

Lemma Int32_sub_add_cancel a b :
  Int32.in_range a -> Int32.sub (Int32.add a b) b = a.
Proof.
  intros H. unfold Int32.sub, Int32.add.
  rewrite Int32_wrap_add_sub. now apply Int32_wrap_small.
Qed.

(** ** Border conversion *)

Lemma sample_frame_additive : frame_additive Sample.os.
Proof.
  intros style rc. cbn [AdjustWindowRect Sample.os]. unfold Sample.adjust.
  destruct (Sample.frame style) as [l t r b] eqn:E.
  assert (Z : forall z, Int32.add 0 z = Int32.wrap z) by reflexivity.
  cbn [left top right bottom]. rewrite !Z.
  unfold Sample.frame in E.
  destruct (Z.land style 12582912 =? 12582912); inversion E; subst; reflexivity.
Qed.

(** C5.  For a window whose style stays the same, taking the borders off a
    rectangle to which they were added gives the rectangle back, whatever the
    rectangle; the window system is taken to widen a client rectangle by the
    frame of the style. *)
Theorem C5_subtract_add_window_borders :
  forall (os : desktop) (s : gui) (rc : RECT),
    frame_additive os ->
    RECT_in_range rc ->
    subtract_window_borders os s (add_window_borders os s rc) = rc.
Proof.
  intros os s rc Hadd (Hl & Ht & Hr & Hb).
  unfold subtract_window_borders, add_window_borders.
  rewrite (Hadd (hwnd_style s) rc). cbv zeta.
  destruct rc as [l t r b]; cbn [left top right bottom] in *.
  now rewrite !Int32_sub_add_cancel.
Qed.

Lemma C5_witness :
  subtract_window_borders Sample.os (Sample.windowed true 100 100 800 600)
    (add_window_borders Sample.os (Sample.windowed true 100 100 800 600)
       (mkRECT 100 100 900 700))
  = mkRECT 100 100 900 700.
Proof.
  apply (C5_subtract_add_window_borders Sample.os
           (Sample.windowed true 100 100 800 600) (mkRECT 100 100 900 700)).
  - exact sample_frame_additive.
  - unfold RECT_in_range, Int32.in_range, Int32.min_signed, Int32.max_signed.
    cbn [left top right bottom]. lia.
Defined.

(** ** UTF-16 decoding *)

Lemma decode_surrogate_pair_D83D_DE00 :
  decode_surrogate_pair 0xD83D 0xDE00 = 0x1F600.
Proof. reflexivity. Qed.

(** A high surrogate is stored, whatever was pending, and gives no
    character. *)
Lemma decode_utf16_high s c :
  Win32.IS_HIGH_SURROGATE (Win32.wchar c) = true ->
  decode_utf16 s c = (0, upd (with_high_surrogate (Win32.wchar c)) s).
Proof. intros H. unfold decode_utf16. now rewrite H. Qed.

Lemma high_not_low c :
  Win32.IS_LOW_SURROGATE c = true -> Win32.IS_HIGH_SURROGATE c = false.
Proof.
  unfold Win32.IS_LOW_SURROGATE, Win32.IS_HIGH_SURROGATE. intros H.
  apply andb_true_iff in H as [H1 H2].
  apply andb_false_iff. right. apply Z.leb_le in H1. apply Z.leb_gt. lia.
Qed.

(** C7.  The code units 0xD83D, 0xDE00 decode to U+1F600: the first call
    gives no character and the second the code point, with nothing left
    pending.  A low surrogate that arrives while no high surrogate is pending
    gives no character (0), logs "Invalid UTF-16 input" at error level and
    leaves the state otherwise as it was, so with nothing pending. *)
Theorem C7_decode_utf16 :
  (forall s : gui,
     let '(c1, s1) := decode_utf16 s 0xD83D in
     let '(c2, s2) := decode_utf16 s1 0xDE00 in
     c1 = 0 /\ c2 = 0x1F600 /\ high_surrogate (w32 s2) = 0 /\
     trace s2 = trace s) /\
  (forall (s : gui) (c : Z),
     Win32.IS_LOW_SURROGATE (Win32.wchar c) = true ->
     high_surrogate (w32 s) = 0 ->
     let '(r, s') := decode_utf16 s c in
     r = 0 /\
     s' = emit (mp_msg MSGL_ERR "Invalid UTF-16 input\n" []) s /\
     high_surrogate (w32 s') = 0).
Proof.
  split.
  - intros s.
    rewrite (decode_utf16_high s 0xD83D) by reflexivity.
    unfold decode_utf16.
    change (Win32.IS_HIGH_SURROGATE (Win32.wchar 0xDE00)) with false.
    change (Win32.IS_LOW_SURROGATE (Win32.wchar 0xDE00)) with true.
    cbn [upd w32 high_surrogate with_high_surrogate].
    change (Win32.wchar 0xD83D =? 0) with false. cbv iota.
    change (Win32.wchar 0xD83D) with 0xD83D.
    change (Win32.wchar 0xDE00) with 0xDE00.
    rewrite decode_surrogate_pair_D83D_DE00.
    repeat split.
  - intros s c Hlow Hnone.
    unfold decode_utf16.
    rewrite (high_not_low _ Hlow), Hlow, Hnone. cbn [Z.eqb].
    repeat split. exact Hnone.
Qed.

Lemma C7_witness :
  fst (decode_utf16 (Sample.windowed true 0 0 640 480) 0xDC00) = 0 /\
  trace (snd (decode_utf16 (Sample.windowed true 0 0 640 480) 0xDC00))
    = [mp_msg MSGL_ERR "Invalid UTF-16 input\n" []].
Proof.
  pose proof (proj2 C7_decode_utf16 (Sample.windowed true 0 0 640 480) 0xDC00
                eq_refl eq_refl) as H.
  destruct (decode_utf16 (Sample.windowed true 0 0 640 480) 0xDC00) as [r s'].
  destruct H as (Hr & Hs & _). subst. split; reflexivity.
Defined.

(** ** Key release *)

(** C8.  A key-up message hands exactly one key, the release of all keys, to
    the input context and changes nothing else, unless the virtual key is
    Shift, Ctrl or Alt (Menu), in which case nothing happens at all. *)
Theorem C8_handle_key_up :
  forall (MP_INPUT_RELEASE_ALL : Z) (s : gui) (vkey scancode : Z),
    0 <= vkey < 2 ^ 32 ->
    (bare_modifier vkey ->
       handle_key_up MP_INPUT_RELEASE_ALL s vkey scancode = s) /\
    (~ bare_modifier vkey ->
       let s' := handle_key_up MP_INPUT_RELEASE_ALL s vkey scancode in
       trace s' = trace s ++ [mp_input_put_key MP_INPUT_RELEASE_ALL] /\
       w32 s' = w32 s /\ hwnd_style s' = hwnd_style s /\
       hwnd_rect s' = hwnd_rect s).
Proof.
  intros rel s vkey scancode Hv.
  unfold handle_key_up, bare_modifier, Int32.uwrap, Int32.modulus.
  rewrite Z.mod_small by exact Hv.
  destruct (Z.eqb_spec vkey Win32.VK_MENU) as [E1|N1];
    [ split; [reflexivity | intros H; exfalso; apply H; auto] | ].
  destruct (Z.eqb_spec vkey Win32.VK_CONTROL) as [E2|N2];
    [ split; [reflexivity | intros H; exfalso; apply H; auto] | ].
  destruct (Z.eqb_spec vkey Win32.VK_SHIFT) as [E3|N3];
    [ split; [reflexivity | intros H; exfalso; apply H; auto] | ].
  split.
  - intros [H|[H|H]]; contradiction.
  - intros _. repeat split.
Qed.

Lemma C8_witness :
  handle_key_up Sample.MP_INPUT_RELEASE_ALL (Sample.windowed true 0 0 640 480)
    Win32.VK_SHIFT 0x2a = Sample.windowed true 0 0 640 480 /\
  trace (handle_key_up Sample.MP_INPUT_RELEASE_ALL
           (Sample.windowed true 0 0 640 480) 0x41 0x1e)
    = [mp_input_put_key Sample.MP_INPUT_RELEASE_ALL].
Proof.
  split.
  - apply (C8_handle_key_up Sample.MP_INPUT_RELEASE_ALL
             (Sample.windowed true 0 0 640 480) Win32.VK_SHIFT 0x2a).
    + unfold Win32.VK_SHIFT. lia.
    + left. reflexivity.
  - apply (C8_handle_key_up Sample.MP_INPUT_RELEASE_ALL
             (Sample.windowed true 0 0 640 480) 0x41 0x1e).
    + lia.
    + unfold bare_modifier, Win32.VK_SHIFT, Win32.VK_CONTROL, Win32.VK_MENU. lia.
Defined.

(** ** Control requests *)

(** C9.  While the window bounds are not initialized, the requests that get
    and that set the unfullscreened window size answer [VO_FALSE]; the state
    (every field of the struct, the native window, the calls made) and the
    caller's array are as before. *)
Theorem C9_unfs_window_size_uninitialized :
  forall (os : desktop) (VO_EVENT_RESIZE : Z) (s : gui) (request : voctrl)
         (arg : Z * Z),
    window_bounds_initialized (w32 s) = false ->
    request = VOCTRL_GET_UNFS_WINDOW_SIZE \/
    request = VOCTRL_SET_UNFS_WINDOW_SIZE ->
    gui_thread_control os VO_EVENT_RESIZE s request arg = (VO_FALSE, arg, s).
Proof.
  intros os ev s request [a0 a1] Hinit [-> | ->]; cbn [gui_thread_control];
    rewrite Hinit; reflexivity.
Qed.

Lemma C9_witness :
  gui_thread_control Sample.os Sample.VO_EVENT_RESIZE Sample.uninitialized
    VOCTRL_SET_UNFS_WINDOW_SIZE (1280, 720)
  = (VO_FALSE, (1280, 720), Sample.uninitialized).
Proof.
  apply (C9_unfs_window_size_uninitialized Sample.os Sample.VO_EVENT_RESIZE
           Sample.uninitialized VOCTRL_SET_UNFS_WINDOW_SIZE (1280, 720)).
  - reflexivity.
  - right. reflexivity.
Defined.

(** C10.  A fullscreen request whose requested mode is the current mode
    answers [VO_TRUE] and does not reconfigure the window: the state is the
    one before the call, so the bounds and the saved bounds are unchanged. *)
Theorem C10_fullscreen_request_idempotent :
  forall (os : desktop) (VO_EVENT_RESIZE : Z) (s : gui) (arg : Z * Z),
    fullscreen (opts (w32 s)) = current_fs (w32 s) ->
    gui_thread_control os VO_EVENT_RESIZE s VOCTRL_FULLSCREEN arg
      = (VO_TRUE, arg, s) /\
    forall s', s' = snd (gui_thread_control os VO_EVENT_RESIZE s
                           VOCTRL_FULLSCREEN arg) ->
      bounds (w32 s') = bounds (w32 s) /\
      prev_bounds (w32 s') = prev_bounds (w32 s).
Proof.
  intros os ev s arg H.
  assert (E : gui_thread_control os ev s VOCTRL_FULLSCREEN arg = (VO_TRUE, arg, s)).
  { cbn [gui_thread_control]. rewrite H.
    now destruct (current_fs (w32 s)). }
  split; [exact E|]. intros s' ->. rewrite E. split; reflexivity.
Qed.

Lemma C10_witness :
  gui_thread_control Sample.os Sample.VO_EVENT_RESIZE
    (Sample.windowed true 100 100 800 600) VOCTRL_FULLSCREEN (0, 0)
  = (VO_TRUE, (0, 0), Sample.windowed true 100 100 800 600).
Proof.
  apply (C10_fullscreen_request_idempotent Sample.os Sample.VO_EVENT_RESIZE
           (Sample.windowed true 100 100 800 600) (0, 0)).
  reflexivity.
Defined.

(** ** Window reconfiguration: what each step leaves alone *)

Lemma update_screen_rect_frame os s :
  exists rc t,
    update_screen_rect os s =
    mk_gui (with_screenrc rc (w32 s)) (hwnd_style s) (hwnd_rect s) (trace s ++ t).
Proof.
  unfold update_screen_rect.
  destruct (current_fs (w32 s) && _).
  - eexists; exists []. rewrite app_nil_r. reflexivity.
  - destruct (_ =? -1).
    + eexists; exists []. rewrite app_nil_r. reflexivity.
    + destruct (get_monitor os _ =? 0).
      * eexists; eexists. reflexivity.
      * eexists; exists []. rewrite app_nil_r. reflexivity.
Qed.

Lemma letterbox_prev_bounds os s cr r sw sh :
  prev_bounds (w32 (fst (letterbox os s cr r sw sh))) = prev_bounds (w32 s).
Proof.
  unfold letterbox. destruct (letterbox_size _ _ _ _); reflexivity.
Qed.

(** The saved bounds after the first part of the reconfiguration: the
    current bounds if the window was windowed and fullscreen is requested,
    the saved bounds otherwise. *)
Lemma reinit_bounds_prev_bounds os s :
  prev_bounds (w32 (fst (fst (fst (fst (fst (reinit_bounds os s)))))))
  = if negb (current_fs (w32 s)) && fullscreen (opts (w32 s))
    then bounds (w32 s) else prev_bounds (w32 s).
Proof.
  unfold reinit_bounds.
  match goal with |- context [update_screen_rect os ?x] =>
    destruct (update_screen_rect_frame os x) as (rc & t & ->) end.
  unfold switch_fs_bounds.
  destruct s as [w st hr tr]; destruct w; cbn.
  destruct (taskbar_list0 =? 0), current_fs0, (fullscreen opts0);
    reflexivity.
Qed.

Lemma reinit_window_state_prev_bounds os ev s :
  prev_bounds (w32 (reinit_window_state os ev s))
  = if (parent (w32 s) =? 0) && negb (current_fs (w32 s))
       && fullscreen (opts (w32 s))
    then bounds (w32 s) else prev_bounds (w32 s).
Proof.
  unfold reinit_window_state.
  destruct (parent (w32 s) =? 0); [|reflexivity]. cbn [negb andb].
  rewrite <- (reinit_bounds_prev_bounds os s).
  destruct (reinit_bounds os s) as [[[[[s1 layer] cr] r] sw] sh].
  cbn [fst].
  destruct (larger_than_screen s1 cr r sw sh).
  - rewrite <- (letterbox_prev_bounds os s1 cr r sw sh).
    destruct (letterbox os s1 cr r sw sh) as [s2 r2]. reflexivity.
  - reflexivity.
Qed.

Lemma reinit_window_state_current_fs os ev s :
  parent (w32 s) = 0 ->
  current_fs (w32 (reinit_window_state os ev s)) = fullscreen (opts (w32 s)).
Proof.
  intros Hp. unfold reinit_window_state. rewrite Hp. cbn [Z.eqb negb].
  assert (H : current_fs (w32 (fst (fst (fst (fst (fst (reinit_bounds os s)))))))
              = fullscreen (opts (w32 s))).
  { unfold reinit_bounds.
    match goal with |- context [update_screen_rect os ?x] =>
      destruct (update_screen_rect_frame os x) as (rc & t & ->) end.
    unfold switch_fs_bounds.
    destruct s as [w st hr tr]; destruct w; cbn.
    destruct (taskbar_list0 =? 0), current_fs0, (fullscreen opts0);
      reflexivity. }
  destruct (reinit_bounds os s) as [[[[[s1 layer] cr] r] sw] sh].
  cbn [fst] in H.
  destruct (larger_than_screen s1 cr r sw sh).
  - assert (H2 : current_fs (w32 (fst (letterbox os s1 cr r sw sh)))
                 = current_fs (w32 s1)).
    { unfold letterbox. destruct (letterbox_size _ _ _ _); reflexivity. }
    destruct (letterbox os s1 cr r sw sh) as [s2 r2]. cbn [fst] in H2.
    cbn. congruence.
  - cbn. exact H.
Qed.

Lemma reinit_window_state_opts_parent os ev s :
  opts (w32 (reinit_window_state os ev s)) = opts (w32 s) /\
  parent (w32 (reinit_window_state os ev s)) = parent (w32 s).
Proof.
  unfold reinit_window_state.
  destruct (parent (w32 s) =? 0); [|split; reflexivity]. cbn [negb].
  assert (H : opts (w32 (fst (fst (fst (fst (fst (reinit_bounds os s)))))))
              = opts (w32 s) /\
              parent (w32 (fst (fst (fst (fst (fst (reinit_bounds os s)))))))
              = parent (w32 s)).
  { unfold reinit_bounds.
    match goal with |- context [update_screen_rect os ?x] =>
      destruct (update_screen_rect_frame os x) as (rc & t & ->) end.
    unfold switch_fs_bounds.
    destruct s as [w st hr tr]; destruct w; cbn.
    destruct (taskbar_list0 =? 0), current_fs0, (fullscreen opts0);
      split; reflexivity. }
  destruct (reinit_bounds os s) as [[[[[s1 layer] cr] r] sw] sh].
  cbn [fst] in H.
  destruct (larger_than_screen s1 cr r sw sh).
  - assert (H2 : opts (w32 (fst (letterbox os s1 cr r sw sh))) = opts (w32 s1) /\
                 parent (w32 (fst (letterbox os s1 cr r sw sh))) = parent (w32 s1)).
    { unfold letterbox. destruct (letterbox_size _ _ _ _); split; reflexivity. }
    destruct (letterbox os s1 cr r sw sh) as [s2 r2]. cbn [fst] in H2.
    cbn. intuition congruence.
  - cbn. exact H.
Qed.




(** ** Entering and leaving fullscreen *)

Lemma reinit_bounds_restores os s :
  current_fs (w32 s) = true ->
  fullscreen (opts (w32 s)) = false ->
  bounds (w32 (fst (fst (fst (fst (fst (reinit_bounds os s)))))))
  = prev_bounds (w32 s).
Proof.
  intros Hfs Hopt. unfold reinit_bounds.
  match goal with |- context [update_screen_rect os ?x] =>
    destruct (update_screen_rect_frame os x) as (rc & t & ->) end.
  unfold switch_fs_bounds.
  destruct s as [w st hr tr]; destruct w; cbn in *. subst.
  rewrite Hopt.
  destruct (taskbar_list0 =? 0); reflexivity.
Qed.

(** Leaving fullscreen gives the window its saved bounds, unless these make
    it larger than the screen. *)
Lemma leave_fullscreen_restores os ev s :
  current_fs (w32 s) = true ->
  fullscreen (opts (w32 s)) = false ->
  parent (w32 s) = 0 ->
  finds_larger_than_screen os s = false ->
  bounds (w32 (reinit_window_state os ev s)) = prev_bounds (w32 s).
Proof.
  intros Hfs Hopt Hp Hfit.
  rewrite <- (reinit_bounds_restores os s Hfs Hopt).
  unfold reinit_window_state, finds_larger_than_screen in *.
  rewrite Hp. cbn [Z.eqb negb].
  destruct (reinit_bounds os s) as [[[[[s1 layer] cr] r] sw] sh].
  rewrite Hfit. reflexivity.
Qed.

(** C3 (as the code has it).  Entering fullscreen and leaving it again, with
    nothing in between, gives [window_x], [window_y], [dw], [dh] the values
    they had before, provided that on leaving the restored window is not
    found larger than the screen (the test of line 1198, on the window
    rectangle under --fit-border and on the client rectangle otherwise). *)
Theorem C3_fullscreen_round_trip :
  forall (os : desktop) (VO_EVENT_RESIZE : Z) (s : gui),
    current_fs (w32 s) = false ->
    let s1 := set_fullscreen os VO_EVENT_RESIZE true s in
    finds_larger_than_screen os (request_fullscreen false s1) = false ->
    bounds (w32 (set_fullscreen os VO_EVENT_RESIZE false s1)) = bounds (w32 s).
Proof.
  intros os ev s Hfs s1 Hfit.
  assert (E1 : s1 = reinit_window_state os ev (request_fullscreen true s)).
  { subst s1. unfold set_fullscreen. cbn [gui_thread_control snd].
    replace (fullscreen (opts (w32 (request_fullscreen true s)))) with true
      by reflexivity.
    replace (current_fs (w32 (request_fullscreen true s))) with false
      by (symmetry; exact Hfs).
    reflexivity. }
  destruct (Z.eqb_spec (parent (w32 s)) 0) as [Hp|Hp].
  - (* an independent window *)
    assert (Hp1 : parent (w32 (request_fullscreen true s)) = 0) by exact Hp.
    assert (Hfs1 : current_fs (w32 s1) = true).
    { rewrite E1. now rewrite reinit_window_state_current_fs. }
    assert (Hprev1 : prev_bounds (w32 s1) = bounds (w32 s)).
    { rewrite E1, reinit_window_state_prev_bounds.
      replace (parent (w32 (request_fullscreen true s))) with 0.
      replace (current_fs (w32 (request_fullscreen true s))) with false
        by (symmetry; exact Hfs).
      reflexivity. }
    assert (Hpar1 : parent (w32 s1) = 0).
    { rewrite E1.
      now rewrite (proj2 (reinit_window_state_opts_parent os ev _)). }
    unfold set_fullscreen. cbn [gui_thread_control snd].
    replace (fullscreen (opts (w32 (request_fullscreen false s1)))) with false
      by reflexivity.
    replace (current_fs (w32 (request_fullscreen false s1))) with true
      by (symmetry; exact Hfs1).
    cbn [Bool.eqb negb].
    rewrite <- Hprev1.
    change (prev_bounds (w32 s1))
      with (prev_bounds (w32 (request_fullscreen false s1))).
    apply leave_fullscreen_restores; try assumption; reflexivity.
  - (* an embedded window is not reconfigured at all *)
    assert (R : forall x, parent (w32 x) = parent (w32 s) ->
                          reinit_window_state os ev x = x).
    { intros x Hx. unfold reinit_window_state. rewrite Hx.
      destruct (Z.eqb_spec (parent (w32 s)) 0); [contradiction|reflexivity]. }
    assert (E1' : s1 = request_fullscreen true s).
    { rewrite E1. now apply R. }
    unfold set_fullscreen. cbn [gui_thread_control snd].
    destruct (negb _).
    + rewrite R by (rewrite E1'; reflexivity). rewrite E1'. reflexivity.
    + rewrite E1'. reflexivity.
Qed.

Lemma C3_witness :
  bounds (w32 (set_fullscreen Sample.os Sample.VO_EVENT_RESIZE false
                 (set_fullscreen Sample.os Sample.VO_EVENT_RESIZE true
                    (Sample.windowed true 100 100 800 600))))
  = (100, 100, 800, 600).
Proof.
  apply (C3_fullscreen_round_trip Sample.os Sample.VO_EVENT_RESIZE
           (Sample.windowed true 100 100 800 600)).
  - reflexivity.
  - vm_compute. reflexivity.
Defined.

(** A 3000x2000 window on the 1920x1080 monitor: after entering and leaving
    fullscreen it is letterboxed to 1561x1041 around its old centre. *)
Lemma C3_counterexample :
  current_fs (w32 (Sample.windowed true 0 0 3000 2000)) = false /\
  bounds (w32 (Sample.windowed true 0 0 3000 2000)) = (0, 0, 3000, 2000) /\
  bounds (w32 (set_fullscreen Sample.os Sample.VO_EVENT_RESIZE false
                 (set_fullscreen Sample.os Sample.VO_EVENT_RESIZE true
                    (Sample.windowed true 0 0 3000 2000))))
  = (720, 479, 1561, 1041).
Proof. vm_compute. repeat split. Qed.

(** ** Rounding of binary64 operations *)

(** The arithmetic on concrete values: 1920 / (3000 / 2000.0) and
    1041 * (3000 / 2000.0) as C computes them. *)
Example letterbox_size_3000x2000_into_1920x1600 :
  letterbox_size 3000 2000 1920 1600 = (1920, 1280).
Proof. vm_compute. reflexivity. Qed.

Example letterbox_size_3000x2000_into_1904x1041 :
  letterbox_size 3000 2000 1904 1041 = (1561, 1041).
Proof. vm_compute. reflexivity. Qed.

Example to_long_truncates_towards_zero :
  Double.to_long (Double.div (Double.of_long (-7)) (Double.of_long 2)) = -3.
Proof. vm_compute. reflexivity. Qed.

Lemma digits2_pos_size p : digits2_pos p = Pos.size p.
Proof. induction p; cbn; congruence. Qed.

Lemma Zdigits2_bounds p :
  2 ^ (Zdigits2 (Zpos p) - 1) <= Zpos p < 2 ^ Zdigits2 (Zpos p).
Proof.
  cbn [Zdigits2]. rewrite digits2_pos_size. split.
  - pose proof (Pos.size_le p) as H.
    assert (E : Zpos (Pos.size p) = Z.succ (Zpos (Pos.size p) - 1)) by lia.
    assert (2 ^ Zpos (Pos.size p) <= 2 * Zpos p).
    { change (2 * Zpos p) with (Zpos p~0). rewrite <- Pos2Z.inj_pow. lia. }
    rewrite E, Z.pow_succ_r in H0 by lia. lia.
  - pose proof (Pos.size_gt p) as H. rewrite <- Pos2Z.inj_pow. lia.
Qed.

Lemma Zdigits2_unique p d :
  2 ^ (d - 1) <= Zpos p < 2 ^ d -> Zdigits2 (Zpos p) = d.
Proof.
  intros [H1 H2]. pose proof (Zdigits2_bounds p) as [H3 H4].
  set (d' := Zdigits2 (Zpos p)) in *.
  assert (0 < d'). { unfold d'. cbn. lia. }
  assert (0 < d).
  { destruct (Z_lt_le_dec 0 d) as [|Hd]; [lia|].
    destruct (Z.eq_dec d 0) as [->|]; [cbn in H2; lia|].
    rewrite Z.pow_neg_r in H2; lia. }
  destruct (Z_lt_le_dec d d') as [L|L].
  - assert (2 ^ d <= 2 ^ (d' - 1)) by (apply Z.pow_le_mono_r; lia). lia.
  - destruct (Z_lt_le_dec d' d) as [L'|L']; [|lia].
    assert (2 ^ d' <= 2 ^ (d - 1)) by (apply Z.pow_le_mono_r; lia). lia.
Qed.

Lemma iter_pos_nat {A} (f : A -> A) p x :
  iter_pos f p x = Nat.iter (Pos.to_nat p) f x.
Proof.
  revert x. induction p; intros x; cbn [iter_pos].
  - rewrite !IHp. rewrite Pos2Nat.inj_xI. cbn [Nat.iter].
    rewrite <- Nat.iter_add. rewrite <- Nat.iter_succ_r. f_equal. lia.
  - rewrite !IHp. rewrite Pos2Nat.inj_xO. rewrite <- Nat.iter_add. f_equal. lia.
  - reflexivity.
Qed.

Lemma shr_1_locates N D mrs :
  locates N D mrs -> locates N (2 * D) (shr_1 mrs).
Proof.
  intros (HD & HN & Hm & Hr & Hs).
  destruct mrs as [m r s]; cbn [shr_m shr_r shr_s] in *.
  pose proof (Z.mod_pos_bound N D HD) as Hb.
  pose proof (Z.div_mod N D ltac:(lia)) as Hdm.
  assert (Hq : 0 <= N / D) by (apply Z.div_pos; lia).
  (* the quotient and remainder by 2 * D *)
  assert (HqD : N / (2 * D) = (N / D) / 2).
  { rewrite (Z.mul_comm 2 D). rewrite <- Z.div_div by lia. reflexivity. }
  assert (HrD : N mod (2 * D) = D * ((N / D) mod 2) + N mod D).
  { rewrite (Z.mul_comm 2 D). rewrite Z.rem_mul_r by lia. lia. }
  pose proof (Z.div_mod (N / D) 2 ltac:(lia)) as Hdm2.
  pose proof (Z.mod_pos_bound (N / D) 2 ltac:(lia)) as Hb2.
  unfold locates. rewrite HqD, HrD.
  split; [lia|]. split; [lia|].
  rewrite <- Hm in *.
  destruct m as [|p|p]; [| |lia].
  - (* m = 0 *)
    cbn [shr_1 shr_m shr_r shr_s].
    change (0 / 2) with 0. change (0 mod 2) with 0.
    rewrite Z.mul_0_r, Z.add_0_l.
    repeat split.
    + symmetry. apply Z.leb_gt. lia.
    + rewrite Hr, Hs.
      destruct (Z.leb_spec D (2 * (N mod D))), (Z.eqb_spec (N mod D) 0),
        (Z.eqb_spec (2 * (N mod D)) D), (Z.eqb_spec (2 * (N mod D)) (2 * D));
        cbn; try reflexivity; lia.
  - destruct p as [p|p|].
    + (* odd *)
      cbn [shr_1 shr_m shr_r shr_s].
      assert (E1 : Z.pos p~1 / 2 = Z.pos p).
      { symmetry. apply (Z.div_unique _ 2 _ 1); lia. }
      assert (E2 : Z.pos p~1 mod 2 = 1).
      { symmetry. apply (Z.mod_unique _ 2 (Z.pos p) 1); lia. }
      rewrite E1, E2. repeat split.
      * symmetry. apply Z.leb_le. lia.
      * rewrite Hr, Hs.
        destruct (Z.leb_spec D (2 * (N mod D))), (Z.eqb_spec (N mod D) 0),
          (Z.eqb_spec (2 * (N mod D)) D),
          (Z.eqb_spec (D * 1 + N mod D) 0),
          (Z.eqb_spec (2 * (D * 1 + N mod D)) (2 * D));
          cbn; try reflexivity; lia.
    + cbn [shr_1 shr_m shr_r shr_s].
      assert (E1 : Z.pos p~0 / 2 = Z.pos p).
      { symmetry. apply (Z.div_unique _ 2 _ 0); lia. }
      assert (E2 : Z.pos p~0 mod 2 = 0).
      { symmetry. apply (Z.mod_unique _ 2 (Z.pos p) 0); lia. }
      rewrite E1, E2. repeat split.
      * symmetry. apply Z.leb_gt. lia.
      * rewrite Hr, Hs.
        destruct (Z.leb_spec D (2 * (N mod D))), (Z.eqb_spec (N mod D) 0),
          (Z.eqb_spec (2 * (N mod D)) D),
          (Z.eqb_spec (D * 0 + N mod D) 0),
          (Z.eqb_spec (2 * (D * 0 + N mod D)) (2 * D));
          cbn; try reflexivity; lia.
    + cbn [shr_1 shr_m shr_r shr_s].
      change (1 / 2) with 0. change (1 mod 2) with 1. repeat split.
      * symmetry. apply Z.leb_le. lia.
      * rewrite Hr, Hs.
        destruct (Z.leb_spec D (2 * (N mod D))), (Z.eqb_spec (N mod D) 0),
          (Z.eqb_spec (2 * (N mod D)) D),
          (Z.eqb_spec (D * 1 + N mod D) 0),
          (Z.eqb_spec (2 * (D * 1 + N mod D)) (2 * D));
          cbn; try reflexivity; lia.
Qed.

Lemma shr_iter_locates N D mrs n :
  locates N D mrs ->
  locates N (2 ^ Z.of_nat n * D) (Nat.iter n shr_1 mrs).
Proof.
  intros H. induction n.
  - cbn [Nat.iter]. change (2 ^ Z.of_nat 0) with 1. now rewrite Z.mul_1_l.
  - cbn [Nat.iter]. rewrite Nat2Z.inj_succ, Z.pow_succ_r by lia.
    rewrite <- Z.mul_assoc. now apply shr_1_locates.
Qed.

Lemma loc_of_shr_record_of_loc m l :
  loc_of_shr_record (shr_record_of_loc m l) = l.
Proof. destruct l as [|[]]; reflexivity. Qed.

Lemma shr_m_of_loc m l : shr_m (shr_record_of_loc m l) = m.
Proof. destruct l as [|[]]; reflexivity. Qed.

Lemma locates_exact N : 0 <= N -> locates N 1 (shr_record_of_loc N loc_Exact).
Proof.
  intros H. unfold locates. cbn [shr_record_of_loc shr_m shr_r shr_s].
  rewrite Z.div_1_r, Z.mod_1_r. repeat split; lia.
Qed.

Lemma locates_new_location N D :
  0 <= N -> 0 < D ->
  locates N D (shr_record_of_loc (N / D) (new_location D (N mod D))).
Proof.
  intros HN HD. pose proof (Z.mod_pos_bound N D HD) as Hb.
  unfold locates. rewrite shr_m_of_loc.
  split; [exact HD|]. split; [exact HN|]. split; [reflexivity|].
  assert (Hodd : Z.even D = false -> 2 * (N mod D) <> D).
  { intros Hev C. rewrite <- C in Hev. rewrite Z.even_mul in Hev. discriminate. }
  unfold new_location, new_location_even, new_location_odd.
  set (x := N mod D) in *.
  destruct (Z.even D); cbv beta; set (y := 2 * x) in *;
    assert (Hy : y = 2 * x) by reflexivity; clearbody y; clearbody x;
    destruct (Z.eqb_spec x 0) as [E|E];
    try destruct (Z.compare_spec y D) as [C|C|C];
    try destruct (Z.compare_spec (y + 1) D) as [C'|C'|C'];
    cbn [shr_record_of_loc shr_r shr_s];
    destruct (Z.leb_spec D y), (Z.eqb_spec y D);
    cbn [negb andb]; try (split; reflexivity); try lia;
    try (specialize (Hodd eq_refl); lia).
Qed.

(** Rounding to nearest of a located fraction is within one half of it. *)
Lemma round_nearest_even_locates N D mrs :
  locates N D mrs ->
  let m := round_nearest_even (shr_m mrs) (loc_of_shr_record mrs) in
  2 * Z.abs (m * D - N) <= D /\ N / D <= m <= N / D + 1 /\
  (N mod D = 0 -> m = N / D).
Proof.
  intros (HD & HN & Hm & Hr & Hs).
  pose proof (Z.mod_pos_bound N D HD) as Hb.
  pose proof (Z.div_mod N D ltac:(lia)) as Hdm.
  destruct mrs as [m r s]; cbn [shr_m shr_r shr_s] in *. subst m.
  destruct (Z.leb_spec D (2 * (N mod D))), (Z.eqb_spec (N mod D) 0),
    (Z.eqb_spec (2 * (N mod D)) D); cbn in Hs; subst r s;
    cbn [loc_of_shr_record round_nearest_even]; try lia;
    try destruct (Z.even (N / D)); repeat split; try nia.
Qed.

Lemma fexp_normal e : -1021 <= e -> fexp 53 1024 e = e - 53.
Proof. intros H. unfold fexp, emin. lia. Qed.

Lemma Zdigits2_of_bounds m d :
  2 ^ (d - 1) <= m < 2 ^ d -> 0 < d -> Zdigits2 m = d.
Proof.
  intros H Hd. destruct m as [|p|p].
  - pose proof (Z.pow_pos_nonneg 2 (d - 1) ltac:(lia) ltac:(lia)). lia.
  - now apply Zdigits2_unique.
  - pose proof (Z.pow_pos_nonneg 2 (d - 1) ltac:(lia) ltac:(lia)). lia.
Qed.

Lemma shr_locates N D mrs e n :
  0 <= n -> locates N D mrs ->
  locates N (2 ^ n * D) (fst (shr mrs e n)) /\ snd (shr mrs e n) = e + n.
Proof.
  intros Hn H. destruct n as [|p|p]; [| |lia].
  - cbn [shr fst snd]. change (2 ^ 0) with 1. rewrite Z.mul_1_l. split; [exact H|lia].
  - cbn [shr fst snd]. rewrite iter_pos_nat. split; [|reflexivity].
    rewrite <- (positive_nat_Z p). now apply shr_iter_locates.
Qed.

(** A mantissa of [53 + n] bits that locates [N / D] is rounded to 53 bits:
    the result is normal and within half a unit in the last place. *)
Lemma binary_round_aux_locates N D mx ex lx n :
  locates N D (shr_record_of_loc mx lx) ->
  0 <= n -> 2 ^ (52 + n) <= mx < 2 ^ (53 + n) ->
  -1021 <= 53 + n + ex -> ex + n + 1 <= 971 ->
  exists m e,
    binary_round_aux 53 1024 false mx ex lx = S754_finite false m e /\
    2 ^ 52 <= Zpos m < 2 ^ 53 /\
    ex + n <= e <= ex + n + 1 /\
    2 * Z.abs (Zpos m * (2 ^ (e - ex) * D) - N) <= 2 ^ (e - ex) * D /\
    (N mod (2 ^ n * D) = 0 -> e = ex + n /\ Zpos m = N / (2 ^ n * D)).
Proof.
  intros Hloc Hn Hmx He1 He2.
  unfold binary_round_aux, shr_fexp.
  assert (Hdig : Zdigits2 mx = 53 + n).
  { apply Zdigits2_of_bounds; [|lia].
    replace (53 + n - 1) with (52 + n) by lia. exact Hmx. }
  rewrite Hdig.
  rewrite fexp_normal by lia.
  replace (53 + n + ex - 53 - ex) with n by lia.
  destruct (shr_locates N D _ ex n Hn Hloc) as [Hl1 He].
  destruct (shr (shr_record_of_loc mx lx) ex n) as [mrs' e'].
  cbn [fst snd] in Hl1, He. subst e'.
  pose proof (round_nearest_even_locates _ _ _ Hl1) as (Hr1 & Hr2 & Hr3).
  set (m1 := round_nearest_even (shr_m mrs') (loc_of_shr_record mrs')) in *.
  cbv zeta in Hr1, Hr2, Hr3.
  (* the integer part has 53 bits *)
  destruct Hloc as (HD & HN & Hm & _). rewrite shr_m_of_loc in Hm.
  assert (HDn : 0 < 2 ^ n * D) by (apply Z.mul_pos_pos; [apply Z.pow_pos_nonneg|]; lia).
  assert (Hq : N / (2 ^ n * D) = mx / 2 ^ n).
  { rewrite Hm. rewrite (Z.mul_comm (2 ^ n) D). rewrite Z.div_div; lia. }
  assert (Hq52 : 2 ^ 52 <= mx / 2 ^ n < 2 ^ 53).
  { assert (P : 0 < 2 ^ n) by (apply Z.pow_pos_nonneg; lia).
    rewrite !Z.pow_add_r in Hmx by lia. split.
    - apply Z.div_le_lower_bound; lia.
    - apply Z.div_lt_upper_bound; lia. }
  rewrite Hq in Hr2.
  destruct (Z.eq_dec m1 (2 ^ 53)) as [Ecarry|Ncarry].
  - (* the rounding carried into a 54th bit *)
    rewrite Ecarry.
    change (Zdigits2 (2 ^ 53)) with 54.
    rewrite fexp_normal by lia.
    replace (54 + (ex + n) - 53 - (ex + n)) with 1 by lia.
    cbn [shr_record_of_loc shr iter_pos shr_1 shr_m].
    change (2 ^ 53) with 9007199254740992. cbn [shr_1 shr_m].
    assert (Hle : (ex + n + 1 <=? 1024 - 53) = true) by (apply Z.leb_le; lia).
    rewrite Hle.
    eexists; eexists. split; [reflexivity|].
    split; [cbn; lia|]. split; [lia|].
    replace (ex + n + 1 - ex) with (n + 1) by lia.
    rewrite Z.pow_add_r by lia. change (2 ^ 1) with 2.
    rewrite Ecarry in Hr1, Hr3.
    change (Z.pos 4503599627370496) with (2 ^ 52).
    replace (2 ^ 52 * (2 ^ n * 2 * D)) with (2 ^ 53 * (2 ^ n * D))
      by (change (2 ^ 53) with (2 * 2 ^ 52); ring).
    split; [lia|].
    intros H. specialize (Hr3 H). rewrite Hq in Hr3. lia.
  - assert (Hm1 : 2 ^ 52 <= m1 < 2 ^ 53) by lia.
    assert (Hdig1 : Zdigits2 m1 = 53).
    { apply Zdigits2_of_bounds; [|lia]. exact Hm1. }
    rewrite Hdig1.
    rewrite fexp_normal by lia.
    replace (53 + (ex + n) - 53 - (ex + n)) with 0 by lia.
    cbn [shr fst snd]. rewrite shr_m_of_loc.
    destruct m1 as [|p|p]; [lia| |lia].
    assert (Hle : (ex + n <=? 1024 - 53) = true) by (apply Z.leb_le; lia).
    rewrite Hle.
    exists p, (ex + n). split; [reflexivity|]. split; [exact Hm1|].
    split; [lia|].
    replace (ex + n - ex) with n by lia. split; [exact Hr1|].
    intros H. specialize (Hr3 H). split; [reflexivity|]. exact Hr3.
Qed.

Lemma bpow_add a b : powerRZ 2 (a + b) = (powerRZ 2 a * powerRZ 2 b)%R.
Proof. apply powerRZ_add. lra. Qed.

Lemma bpow_pos e : (0 < powerRZ 2 e)%R.
Proof. apply powerRZ_lt. lra. Qed.

Lemma IZR_pow2 k : 0 <= k -> IZR (2 ^ k) = powerRZ 2 k.
Proof.
  intros H. rewrite <- (Z2Nat.id k H) at 1 2.
  rewrite <- pow_IZR. now rewrite pow_powerRZ.
Qed.

Lemma B2R_normal K f :
  normal K f -> exists m e, f = S754_finite false m e /\
    2 ^ 52 <= Zpos m < 2 ^ 53 /\ - K <= e <= K /\
    B2R f = (IZR (Zpos m) * powerRZ 2 e)%R /\ (0 < B2R f)%R.
Proof.
  intros (m & e & -> & Hm & He). exists m, e. repeat split; try lia.
  - cbn [B2R]. lra.
  - cbn [B2R]. pose proof (bpow_pos e). 
    assert (0 < IZR (Zpos m))%R by (apply IZR_lt; lia). nra.
Qed.

Lemma iter_xO_pow2 p k : Zpos (Pos.iter xO p k) = Zpos p * 2 ^ Zpos k.
Proof.
  induction k using Pos.peano_ind.
  - cbn [Pos.iter]. change (2 ^ 1) with 2. lia.
  - rewrite Pos.iter_succ. rewrite Pos2Z.inj_xO, IHk.
    rewrite Pos2Z.inj_succ, Z.pow_succ_r by lia. ring.
Qed.

Lemma of_long_finite z :
  0 < z < 2 ^ 53 ->
  exists m e, Double.of_long z = S754_finite false m e /\
    2 ^ 52 <= Zpos m < 2 ^ 53 /\ -52 <= e <= 0 /\ Zpos m = z * 2 ^ (- e).
Proof.
  intros Hz. destruct z as [|p|p]; [lia| |lia].
  unfold Double.of_long, binary_normalize, binary_round.
  pose proof (Zdigits2_bounds p) as Hd. cbn [Zdigits2] in Hd.
  set (d := Zpos (digits2_pos p)) in *.
  assert (Hd53 : 1 <= d <= 53).
  { split; [unfold d; lia|].
    destruct (Z_lt_le_dec 53 d) as [L|L]; [|lia].
    assert (2 ^ 53 <= 2 ^ (d - 1)) by (apply Z.pow_le_mono_r; lia). lia. }
  rewrite Z.add_0_r. unfold Double.prec, Double.emax.
  rewrite fexp_normal by lia.
  (* the mantissa is shifted left to 53 bits *)
  assert (Hal : exists mz, shl_align p 0 (d - 53) = (mz, d - 53) /\
                           Zpos mz = Zpos p * 2 ^ (53 - d)).
  { unfold shl_align. replace (d - 53 - 0) with (d - 53) by lia.
    destruct (d - 53) as [|q|q] eqn:E; [| lia |].
    - exists p. split; [reflexivity|]. replace (53 - d) with 0 by lia. cbn. lia.
    - eexists. split; [reflexivity|]. rewrite iter_xO_pow2. f_equal. f_equal. lia. }
  destruct Hal as (mz & -> & Hmz).
  assert (Hmz53 : 2 ^ 52 <= Zpos mz < 2 ^ 53).
  { assert (E52 : 2 ^ 52 = 2 ^ (d - 1) * 2 ^ (53 - d))
      by (rewrite <- Z.pow_add_r by lia; f_equal; lia).
    assert (E53 : 2 ^ 53 = 2 ^ d * 2 ^ (53 - d))
      by (rewrite <- Z.pow_add_r by lia; f_equal; lia).
    rewrite Hmz, E52, E53.
    assert (0 < 2 ^ (53 - d)) by (apply Z.pow_pos_nonneg; lia).
    split; [apply Z.mul_le_mono_nonneg_r; lia | apply Z.mul_lt_mono_pos_r; lia]. }
  destruct (binary_round_aux_locates (Zpos mz) 1 (Zpos mz) (d - 53) loc_Exact 0)
    as (m & e & Hr & Hm & He & Herr & Hex); try lia.
  { apply locates_exact. lia. }
  change (2 ^ 0 * 1) with 1 in Hex. rewrite Z.mod_1_r, Z.div_1_r in Hex.
  destruct (Hex eq_refl) as [-> Em].
  exists m, (d - 53 + 0). split; [exact Hr|]. split; [lia|]. split; [lia|].
  rewrite Em, Hmz. f_equal. f_equal. lia.
Qed.

Lemma of_long_normal z :
  0 < z < 2 ^ 53 ->
  normal 52 (Double.of_long z) /\ B2R (Double.of_long z) = IZR z.
Proof.
  intros Hz. destruct (of_long_finite z Hz) as (m & e & -> & Hm & He & Hv).
  split.
  - exists m, e. repeat split; lia.
  - cbn [B2R]. rewrite Hv, mult_IZR, IZR_pow2 by lia.
    rewrite Rmult_1_l, Rmult_assoc, <- bpow_add.
    replace (- e + e) with 0 by lia. cbn. lra.
Qed.

Lemma roundoff_val : (roundoff * 9007199254740992 = 1)%R.
Proof.
  unfold roundoff. change 9007199254740992%R with (IZR (2 ^ 53)).
  rewrite IZR_pow2 by lia. rewrite <- bpow_add. reflexivity.
Qed.

Lemma bpow_cancel e : (powerRZ 2 (- e) * powerRZ 2 e = 1)%R.
Proof. rewrite <- bpow_add. replace (- e + e) with 0 by lia. reflexivity. Qed.

Lemma SFdiv_core_binary_normal m1 e1 m2 e2 :
  2 ^ 52 <= Zpos m1 < 2 ^ 53 -> 2 ^ 52 <= Zpos m2 < 2 ^ 53 ->
  -1021 <= e1 - e2 ->
  SFdiv_core_binary 53 1024 (Zpos m1) e1 (Zpos m2) e2 =
  ((Zpos m1 * 2 ^ 53) / Zpos m2, e1 - e2 - 53,
   new_location (Zpos m2) ((Zpos m1 * 2 ^ 53) mod Zpos m2)).
Proof.
  intros H1 H2 He. unfold SFdiv_core_binary.
  rewrite (Zdigits2_of_bounds (Zpos m1) 53) by (try exact H1; lia).
  rewrite (Zdigits2_of_bounds (Zpos m2) 53) by (try exact H2; lia).
  rewrite fexp_normal by lia.
  replace (Z.min (53 + e1 - (53 + e2) - 53) (e1 - e2)) with (e1 - e2 - 53) by lia.
  replace (e1 - e2 - (e1 - e2 - 53)) with 53 by lia.
  cbv zeta iota. rewrite Z.shiftl_mul_pow2 by lia.
  unfold Z.div, Z.modulo.
  destruct (Z.div_eucl (Z.pos m1 * 2 ^ 53) (Z.pos m2)) as [q r]. reflexivity.
Qed.

(** Division of normal numbers: the quotient is normal and its relative
    error is at most the unit roundoff. *)
Lemma div_normal K1 K2 x y :
  normal K1 x -> normal K2 y -> K1 + K2 <= 900 ->
  normal (K1 + K2 + 53) (Double.div x y) /\
  (Rabs (B2R (Double.div x y) * B2R y - B2R x)
   <= roundoff * (B2R (Double.div x y) * B2R y))%R.
Proof.
  intros (m1 & e1 & -> & Hm1 & He1) (m2 & e2 & -> & Hm2 & He2) HK.
  unfold Double.div, SFdiv, Double.prec, Double.emax.
  rewrite SFdiv_core_binary_normal by (try assumption; lia).
  set (N := Zpos m1 * 2 ^ 53). set (D := Zpos m2).
  assert (HN : 0 <= N) by (unfold N; lia).
  assert (HD : 0 < D) by (unfold D; lia).
  (* the quotient has 53 or 54 bits *)
  assert (Hq : 2 ^ 52 <= N / D < 2 ^ 54).
  { split.
    - apply Z.div_le_lower_bound; [lia|]. unfold N, D.
      change (2 ^ 53) with (2 * 2 ^ 52) in *. nia.
    - apply Z.div_lt_upper_bound; [lia|]. unfold N, D.
      change (2 ^ 54) with (2 ^ 52 * 4). change (2 ^ 53) with (2 ^ 52 * 2) in *. nia. }
  assert (Hn : exists n, 0 <= n <= 1 /\ 2 ^ (52 + n) <= N / D < 2 ^ (53 + n)).
  { destruct (Z_lt_le_dec (N / D) (2 ^ 53)).
    - exists 0. cbn [Z.add]. lia.
    - exists 1. change (52 + 1) with 53. change (53 + 1) with 54. lia. }
  destruct Hn as (n & Hn & Hqn).
  destruct (binary_round_aux_locates N D (N / D) (e1 - e2 - 53)
              (new_location D (N mod D)) n)
    as (m & e & Hr & Hm & He & Herr & _); try lia.
  { now apply locates_new_location. }
  cbn [xorb]. rewrite Hr. split.
  - exists m, e. repeat split; lia.
  - cbn [B2R]. rewrite !Rmult_1_l.
    set (k := e - (e1 - e2 - 53)) in *.
    assert (Hk : 0 <= k <= 2) by (unfold k; lia).
    (* the bound on integers, read in the reals *)
    apply IZR_le in Herr.
    rewrite mult_IZR, abs_IZR, minus_IZR, !mult_IZR in Herr.
    rewrite (IZR_pow2 k) in Herr by lia.
    unfold N, D in Herr. rewrite mult_IZR in Herr.
    change (IZR (2 ^ 53)) with 9007199254740992%R in Herr.
    change (IZR 2) with 2%R in Herr.
    assert (Ee : powerRZ 2 e
                 = (powerRZ 2 e1 * powerRZ 2 (- e2) * roundoff * powerRZ 2 k)%R).
    { unfold roundoff. rewrite <- !bpow_add. f_equal. unfold k. lia. }
    pose proof (bpow_cancel e2) as Hc.
    pose proof roundoff_val as Hu.
    pose proof (bpow_pos e1) as P1. pose proof (bpow_pos k) as Pk.
    pose proof (bpow_pos (- e2)) as P2'. pose proof (bpow_pos e2) as P2.
    assert (Hm' : (4503599627370496 <= IZR (Zpos m))%R).
    { change 4503599627370496%R with (IZR (2 ^ 52)). apply IZR_le. lia. }
    assert (Hm2' : (0 < IZR (Zpos m2))%R) by (apply IZR_lt; lia).
    set (a := IZR (Zpos m)) in *. set (b := IZR (Zpos m2)) in *.
    set (c := IZR (Zpos m1)) in *.
    set (E1 := powerRZ 2 e1) in *. set (Pk' := powerRZ 2 k) in *.
    rewrite Ee.
    assert (Uu : (0 < roundoff)%R) by (unfold roundoff; apply bpow_pos).
    replace (a * (E1 * powerRZ 2 (- e2) * roundoff * Pk') * (b * powerRZ 2 e2) - c * E1)%R
      with (E1 * roundoff * (a * (Pk' * b)) * (powerRZ 2 (- e2) * powerRZ 2 e2)
            - c * E1 * (roundoff * 9007199254740992))%R
      by (rewrite Hu; ring).
    replace (roundoff * (a * (E1 * powerRZ 2 (- e2) * roundoff * Pk') * (b * powerRZ 2 e2)))%R
      with (E1 * roundoff * (roundoff * a * (Pk' * b)) * (powerRZ 2 (- e2) * powerRZ 2 e2))%R
      by ring.
    rewrite Hc.
    replace (E1 * roundoff * (a * (Pk' * b)) * 1 - c * E1 * (roundoff * 9007199254740992))%R
      with ((E1 * roundoff) * (a * (Pk' * b) - c * 9007199254740992))%R by ring.
    replace (E1 * roundoff * (roundoff * a * (Pk' * b)) * 1)%R
      with ((E1 * roundoff) * (roundoff * a * (Pk' * b)))%R by ring.
    rewrite Rabs_mult. rewrite (Rabs_pos_eq (E1 * roundoff)) by nra.
    apply Rmult_le_compat_l; [nra|].
    assert (Hhalf : (/ 2 <= roundoff * a)%R) by nra.
    assert (0 < Pk' * b)%R by nra.
    nra.
Qed.

(** Multiplication of normal numbers, likewise. *)
Lemma mul_normal K1 K2 x y :
  normal K1 x -> normal K2 y -> K1 + K2 <= 900 ->
  normal (K1 + K2 + 54) (Double.mul x y) /\
  (Rabs (B2R (Double.mul x y) - B2R x * B2R y)
   <= roundoff * B2R (Double.mul x y))%R.
Proof.
  intros (m1 & e1 & -> & Hm1 & He1) (m2 & e2 & -> & Hm2 & He2) HK.
  unfold Double.mul, SFmul, Double.prec, Double.emax.
  rewrite Pos2Z.inj_mul.
  set (N := Zpos m1 * Zpos m2).
  assert (HN : 2 ^ 104 <= N < 2 ^ 106).
  { unfold N. change (2 ^ 104) with (2 ^ 52 * 2 ^ 52).
    change (2 ^ 106) with (2 ^ 53 * 2 ^ 53). nia. }
  assert (Hn : exists n, 52 <= n <= 53 /\ 2 ^ (52 + n) <= N < 2 ^ (53 + n)).
  { destruct (Z_lt_le_dec N (2 ^ 105)).
    - exists 52. change (52 + 52) with 104. change (53 + 52) with 105. lia.
    - exists 53. change (52 + 53) with 105. change (53 + 53) with 106. lia. }
  destruct Hn as (n & Hn & HNn).
  destruct (binary_round_aux_locates N 1 N (e1 + e2) loc_Exact n)
    as (m & e & Hr & Hm & He & Herr & _); try lia.
  { apply locates_exact. lia. }
  cbn [xorb]. rewrite Hr. split.
  - exists m, e. repeat split; lia.
  - cbn [B2R]. rewrite !Rmult_1_l.
    set (k := e - (e1 + e2)) in *.
    assert (Hk : 0 <= k) by (unfold k; lia).
    rewrite !Z.mul_1_r in Herr.
    apply IZR_le in Herr.
    rewrite mult_IZR, abs_IZR, minus_IZR, !mult_IZR in Herr.
    rewrite (IZR_pow2 k) in Herr by lia.
    unfold N in Herr. rewrite mult_IZR in Herr.
    change (IZR 2) with 2%R in Herr.
    assert (Ee : powerRZ 2 e = (powerRZ 2 e1 * powerRZ 2 e2 * powerRZ 2 k)%R).
    { rewrite <- !bpow_add. f_equal. unfold k. lia. }
    pose proof roundoff_val as Hu.
    pose proof (bpow_pos e1) as P1. pose proof (bpow_pos k) as Pk.
    pose proof (bpow_pos e2) as P2.
    assert (Hm' : (4503599627370496 <= IZR (Zpos m))%R).
    { change 4503599627370496%R with (IZR (2 ^ 52)). apply IZR_le. lia. }
    set (a := IZR (Zpos m)) in *. set (b := IZR (Zpos m2)) in *.
    set (c := IZR (Zpos m1)) in *.
    set (E1 := powerRZ 2 e1) in *. set (E2 := powerRZ 2 e2) in *.
    set (Pk' := powerRZ 2 k) in *.
    rewrite Ee.
    assert (Uu : (0 < roundoff)%R) by (unfold roundoff; apply bpow_pos).
    replace (a * (E1 * E2 * Pk') - c * E1 * (b * E2))%R
      with ((E1 * E2) * (a * Pk' - c * b))%R by ring.
    replace (roundoff * (a * (E1 * E2 * Pk')))%R
      with ((E1 * E2) * (roundoff * a * Pk'))%R by ring.
    rewrite Rabs_mult. rewrite (Rabs_pos_eq (E1 * E2)) by nra.
    apply Rmult_le_compat_l; [nra|].
    assert (Hhalf : (/ 2 <= roundoff * a)%R) by nra.
    nra.
Qed.

(** Comparison of normal numbers is comparison of their values. *)
Lemma gt_normal K1 K2 x y :
  normal K1 x -> normal K2 y ->
  if Double.gt x y then (B2R y < B2R x)%R else (B2R x <= B2R y)%R.
Proof.
  intros (m1 & e1 & -> & Hm1 & He1) (m2 & e2 & -> & Hm2 & He2).
  unfold Double.gt, SFltb, SFcompare. cbn [B2R]. rewrite !Rmult_1_l.
  assert (Hstep : forall (ma mb : positive) ea eb,
            2 ^ 52 <= Zpos ma < 2 ^ 53 -> 2 ^ 52 <= Zpos mb < 2 ^ 53 ->
            ea < eb ->
            (IZR (Zpos ma) * powerRZ 2 ea < IZR (Zpos mb) * powerRZ 2 eb)%R).
  { intros ma mb ea eb Ha Hb Hlt.
    replace eb with (ea + (eb - ea)) by lia. rewrite bpow_add.
    rewrite <- (IZR_pow2 (eb - ea)) by lia.
    pose proof (bpow_pos ea) as Pa.
    assert (2 <= 2 ^ (eb - ea)).
    { change 2 with (2 ^ 1) at 1. apply Z.pow_le_mono_r; lia. }
    assert (A : (IZR (Zpos ma) < 9007199254740992)%R).
    { change 9007199254740992%R with (IZR (2 ^ 53)). apply IZR_lt. lia. }
    assert (B : (4503599627370496 <= IZR (Zpos mb))%R).
    { change 4503599627370496%R with (IZR (2 ^ 52)). apply IZR_le. lia. }
    assert (C : (2 <= IZR (2 ^ (eb - ea)))%R) by (apply IZR_le; lia).
    assert (0 < IZR (Zpos ma))%R by (apply IZR_lt; lia).
    assert (S1 : (IZR (Zpos ma) * powerRZ 2 ea
                  < 9007199254740992 * powerRZ 2 ea)%R)
      by (apply Rmult_lt_compat_r; lra).
    assert (S2 : (4503599627370496 * powerRZ 2 ea
                  <= IZR (Zpos mb) * powerRZ 2 ea)%R)
      by (apply Rmult_le_compat_r; lra).
    assert (S3 : (IZR (Zpos mb) * powerRZ 2 ea * 2
                  <= IZR (Zpos mb) * powerRZ 2 ea * IZR (2 ^ (eb - ea)))%R)
      by (apply Rmult_le_compat_l; nra).
    lra. }
  destruct (Z.compare_spec e2 e1) as [E|L|G].
  - subst e2. rewrite Pos.compare_cont_spec.
    pose proof (bpow_pos e1) as P1.
    destruct (Pos.compare_spec m2 m1) as [E|L|G]; cbn [Pos.switch_Eq].
    + subst. lra.
    + apply Rmult_lt_compat_r; [exact P1|]. apply IZR_lt. lia.
    + apply Rmult_le_compat_r; [lra|]. apply IZR_le. lia.
  - now apply Hstep.
  - apply Rlt_le. now apply Hstep.
Qed.

(** Conversion to [long] of a normal number below [2^31] is its floor. *)
Lemma to_long_normal K x bound :
  normal K x -> bound <= Int32.max_signed ->
  (B2R x < IZR bound + 1)%R ->
  0 <= Double.to_long x <= bound /\
  (IZR (Double.to_long x) <= B2R x < IZR (Double.to_long x) + 1)%R.
Proof.
  intros (m & e & -> & Hm & He) Hb Hlt. cbn [B2R] in *.
  rewrite Rmult_1_l in *.
  assert (Hm' : (4503599627370496 <= IZR (Zpos m))%R).
  { change 4503599627370496%R with (IZR (2 ^ 52)). apply IZR_le. lia. }
  assert (Hbr : (IZR bound <= 2147483647)%R).
  { apply IZR_le. unfold Int32.max_signed in Hb. lia. }
  destruct (Z_lt_le_dec e 0) as [Hneg|Hpos].
  2:{ (* an integer of 53 bits or more is not below 2^31 *)
      exfalso. rewrite <- (IZR_pow2 e) in Hlt by lia.
      assert (0 < 2 ^ e) by (apply Z.pow_pos_nonneg; lia).
      assert (1 <= IZR (2 ^ e))%R by (apply IZR_le; lia). nra. }
  set (j := - e). assert (Hj : 0 < j) by (unfold j; lia).
  assert (Et : Z.shiftl (Zpos m) e = Zpos m / 2 ^ j).
  { replace e with (- j) by (unfold j; lia).
    rewrite Z.shiftl_opp_r. apply Z.shiftr_div_pow2. lia. }
  set (t := Zpos m / 2 ^ j) in *.
  assert (P : 0 < 2 ^ j) by (apply Z.pow_pos_nonneg; lia).
  pose proof (Z.div_mod (Zpos m) (2 ^ j) ltac:(lia)) as Hdm.
  pose proof (Z.mod_pos_bound (Zpos m) (2 ^ j) P) as Hmb.
  fold t in Hdm.
  assert (Ht0 : 0 <= t) by (apply Z.div_pos; lia).
  (* the value lies between [t] and [t + 1] *)
  assert (Hval : (IZR t <= IZR (Zpos m) * powerRZ 2 e
                  < IZR t + 1)%R).
  { pose proof (bpow_cancel j) as Hc. fold j in Hc.
    replace e with (- j) by (unfold j; lia).
    pose proof (bpow_pos (- j)) as Pj.
    assert (L : (IZR t * powerRZ 2 j <= IZR (Zpos m))%R).
    { rewrite <- IZR_pow2 by lia. rewrite <- mult_IZR. apply IZR_le. lia. }
    assert (U : (IZR (Zpos m) < (IZR t + 1) * powerRZ 2 j)%R).
    { rewrite <- IZR_pow2 by lia. change 1%R with (IZR 1).
      rewrite <- plus_IZR, <- mult_IZR. apply IZR_lt. lia. }
    split.
    - replace (IZR t) with (IZR t * powerRZ 2 j * powerRZ 2 (- j))%R
        by (rewrite Rmult_assoc, (Rmult_comm (powerRZ 2 j)), Hc; ring).
      apply Rmult_le_compat_r; lra.
    - replace (IZR t + 1)%R with ((IZR t + 1) * powerRZ 2 j * powerRZ 2 (- j))%R
        by (rewrite Rmult_assoc, (Rmult_comm (powerRZ 2 j)), Hc; ring).
      apply Rmult_lt_compat_r; lra. }
  assert (Htb : t <= bound).
  { assert (IZR t < IZR bound + 1)%R by lra.
    change 1%R with (IZR 1) in H. rewrite <- plus_IZR in H.
    apply lt_IZR in H. lia. }
  unfold Double.to_long, Double.trunc. rewrite Et.
  assert (Hr : (Int32.min_signed <=? t) && (t <=? Int32.max_signed) = true).
  { apply andb_true_iff. split; apply Z.leb_le; unfold Int32.min_signed in *; lia. }
  rewrite Hr. split; [lia|exact Hval].
Qed.

Lemma roundoff_eq : roundoff = (/ 9007199254740992)%R.
Proof.
  pose proof roundoff_val. apply Rmult_eq_reg_r with 9007199254740992%R; [|lra].
  rewrite H. field.
Qed.

Lemma Rabs_le_both a b : (Rabs a <= b)%R -> (- b <= a <= b)%R.
Proof. intros H. unfold Rabs in H. destruct (Rcase_abs a); lra. Qed.

Lemma IZR_small z : 0 < z <= 2 ^ 24 -> (0 < IZR z <= 16777216)%R.
Proof.
  intros [H1 H2]. split.
  - apply IZR_lt in H1. exact H1.
  - apply IZR_le in H2. exact H2.
Qed.

Ltac fits_53 :=
  change (2 ^ 53) with 9007199254740992;
  change (2 ^ 24) with 16777216 in *; lia.

(** The scaled side is the exact proportional length rounded down, or one
    less, and does not exceed the side it replaces. *)
Lemma letterbox_size_spec c_w c_h n_w n_h :
  0 < c_w <= 2 ^ 24 -> 0 < c_h <= 2 ^ 24 ->
  0 < n_w <= 2 ^ 24 -> 0 < n_h <= 2 ^ 24 ->
  let '(w', h') := letterbox_size c_w c_h n_w n_h in
  (w' = n_w /\ 0 <= h' <= n_h /\ 0 <= n_w * c_h - h' * c_w <= c_w) \/
  (h' = n_h /\ 0 <= w' <= n_w /\ 0 <= n_h * c_w - w' * c_h <= c_h).
Proof.
  intros Hw Hh Hnw Hnh. unfold letterbox_size.
  destruct (of_long_normal c_w) as [Nw Vw]; [fits_53|].
  destruct (of_long_normal c_h) as [Nh Vh]; [fits_53|].
  destruct (of_long_normal n_w) as [Nnw Vnw]; [fits_53|].
  destruct (of_long_normal n_h) as [Nnh Vnh]; [fits_53|].
  destruct (div_normal 52 52 _ _ Nw Nh ltac:(lia)) as [NA HA].
  destruct (div_normal 52 52 _ _ Nnw Nnh ltac:(lia)) as [NS HS].
  set (asp := Double.div (Double.of_long c_w) (Double.of_long c_h)) in *.
  set (s_asp := Double.div (Double.of_long n_w) (Double.of_long n_h)) in *.
  pose proof (gt_normal _ _ _ _ NA NS) as Hgt.
  rewrite Vw, Vh in HA. rewrite Vnw, Vnh in HS.
  apply Rabs_le_both in HA. apply Rabs_le_both in HS.
  destruct (B2R_normal _ _ NA) as (_ & _ & _ & _ & _ & _ & PA).
  destruct (B2R_normal _ _ NS) as (_ & _ & _ & _ & _ & _ & PS).
  pose proof (IZR_small _ Hw) as Rw. pose proof (IZR_small _ Hh) as Rh.
  pose proof (IZR_small _ Hnw) as Rnw. pose proof (IZR_small _ Hnh) as Rnh.
  rewrite roundoff_eq in HA, HS.
  set (A := B2R asp) in *. set (S := B2R s_asp) in *.
  set (w := IZR c_w) in *. set (h := IZR c_h) in *.
  set (nw := IZR n_w) in *. set (nh := IZR n_h) in *.
  destruct (Double.gt asp s_asp).
  - (* the height is scaled *)
    left.
    destruct (div_normal 52 (52 + 52 + 53) _ _ Nnw NA ltac:(lia)) as [NX HX].
    set (Xf := Double.div (Double.of_long n_w) asp) in *.
    destruct (B2R_normal _ _ NX) as (_ & _ & _ & _ & _ & _ & PX).
    rewrite Vnw in HX. apply Rabs_le_both in HX. rewrite roundoff_eq in HX.
    fold A nw in HX. set (X := B2R Xf) in *.
    assert (PXA : (0 < X * A)%R) by nra.
    assert (PAh : (0 < A * h)%R) by nra.
    assert (PSn : (0 < S * nh)%R) by nra.
    (* X stays below nh + 1 *)
    assert (B1 : (X * A * (1 - / 9007199254740992) < A * nh * (1 + / 9007199254740992))%R).
    { assert (S * nh < A * nh)%R by (apply Rmult_lt_compat_r; lra). lra. }
    assert (B2 : (X * (1 - / 9007199254740992) < nh * (1 + / 9007199254740992))%R).
    { apply Rmult_lt_reg_l with A; [exact PA|]. lra. }
    assert (B3 : (X < nh + 1)%R) by lra.
    destruct (to_long_normal _ Xf n_h NX) as [Hn Hfl].
    { unfold Int32.max_signed. change (2 ^ 24) with 16777216 in *. lia. }
    { exact B3. }
    fold X in Hfl. set (n := Double.to_long Xf) in *.
    split; [reflexivity|]. split; [exact Hn|].
    (* the aspect, up to the rounding of the floor *)
    assert (PXw : (0 <= X * w)%R) by nra.
    assert (D1 : (nw * h <= X * (A * h) * (1 + / 9007199254740992))%R).
    { assert (nw * h <= (X * A * (1 + / 9007199254740992)) * h)%R
        by (apply Rmult_le_compat_r; lra). lra. }
    assert (D2 : (X * (A * h) * (1 - / 9007199254740992) <= nw * h)%R).
    { assert ((X * A * (1 - / 9007199254740992)) * h <= nw * h)%R
        by (apply Rmult_le_compat_r; lra). lra. }
    assert (D3 : (X * (A * h * (1 - / 9007199254740992)) <= X * w)%R)
      by (apply Rmult_le_compat_l; lra).
    assert (D4 : (X * w <= X * (A * h * (1 + / 9007199254740992)))%R)
      by (apply Rmult_le_compat_l; lra).
    assert (D5 : (X * w <= (nh + 1) * 16777216)%R).
    { apply Rmult_le_compat; lra. }
    assert (D6 : (X * (A * h) <= 2 * (X * w))%R) by lra.
    assert (Dn : (IZR n * w <= X * w < (IZR n + 1) * w)%R).
    { split; [apply Rmult_le_compat_r; lra | apply Rmult_lt_compat_r; lra]. }
    assert (R1 : (-1 < nw * h - IZR n * w < w + 1)%R) by lra.
    unfold nw, h, w in R1.
    rewrite <- !mult_IZR, <- minus_IZR in R1.
    destruct R1 as [R1 R2].
    change (-1)%R with (IZR (-1)) in R1. apply lt_IZR in R1.
    change 1%R with (IZR 1) in R2. rewrite <- plus_IZR in R2.
    apply lt_IZR in R2. lia.
  - (* the width is scaled *)
    right.
    destruct (mul_normal 52 (52 + 52 + 53) _ _ Nnh NA ltac:(lia)) as [NY HY].
    set (Yf := Double.mul (Double.of_long n_h) asp) in *.
    destruct (B2R_normal _ _ NY) as (_ & _ & _ & _ & _ & _ & PY).
    rewrite Vnh in HY. apply Rabs_le_both in HY. rewrite roundoff_eq in HY.
    fold A nh in HY. set (Y := B2R Yf) in *.
    assert (PAh : (0 < A * h)%R) by nra.
    assert (PSn : (0 < S * nh)%R) by nra.
    assert (PnA : (0 < nh * A)%R) by nra.
    (* Y stays below nw + 1 *)
    assert (B1 : (nh * A <= nh * S)%R) by (apply Rmult_le_compat_l; lra).
    assert (B3 : (Y < nw + 1)%R) by lra.
    destruct (to_long_normal _ Yf n_w NY) as [Hn Hfl].
    { unfold Int32.max_signed. change (2 ^ 24) with 16777216 in *. lia. }
    { exact B3. }
    fold Y in Hfl. set (n := Double.to_long Yf) in *.
    split; [reflexivity|]. split; [exact Hn|].
    assert (D1 : (nh * w <= nh * (A * h * (1 + / 9007199254740992)))%R)
      by (apply Rmult_le_compat_l; lra).
    assert (D2 : (nh * (A * h * (1 - / 9007199254740992)) <= nh * w)%R)
      by (apply Rmult_le_compat_l; lra).
    assert (D3 : (nh * A * h <= Y * (1 + / 9007199254740992) * h)%R)
      by (apply Rmult_le_compat_r; lra).
    assert (D4 : (Y * (1 - / 9007199254740992) * h <= nh * A * h)%R)
      by (apply Rmult_le_compat_r; lra).
    assert (D5 : (Y * h <= (nw + 1) * 16777216)%R).
    { apply Rmult_le_compat; lra. }
    assert (PYh : (0 <= Y * h)%R) by nra.
    assert (Dn : (IZR n * h <= Y * h < (IZR n + 1) * h)%R).
    { split; [apply Rmult_le_compat_r; lra | apply Rmult_lt_compat_r; lra]. }
    assert (D6 : (nh * w <= Y * h * (1 + / 9007199254740992) * (1 + / 9007199254740992))%R).
    { assert (nh * A * h * (1 + / 9007199254740992)
              <= Y * (1 + / 9007199254740992) * h * (1 + / 9007199254740992))%R
        by (apply Rmult_le_compat_r; lra). lra. }
    assert (D7 : (Y * h * (1 - / 9007199254740992) * (1 - / 9007199254740992) <= nh * w)%R).
    { assert (Y * (1 - / 9007199254740992) * h * (1 - / 9007199254740992)
              <= nh * A * h * (1 - / 9007199254740992))%R
        by (apply Rmult_le_compat_r; lra). lra. }
    assert (R1 : (-1 < nh * w - IZR n * h < h + 1)%R) by lra.
    unfold nh, h, w in R1.
    rewrite <- !mult_IZR, <- minus_IZR in R1.
    destruct R1 as [R1 R2].
    change (-1)%R with (IZR (-1)) in R1. apply lt_IZR in R1.
    change 1%R with (IZR 1) in R2. rewrite <- plus_IZR in R2.
    apply lt_IZR in R2. lia.
Qed.

(** ** The window larger than the screen *)

Lemma Int32_div_small a b : Int32.in_range (Z.quot a b) -> Int32.div a b = Z.quot a b.
Proof. apply Int32_wrap_small. Qed.

Ltac in_int_range :=
  unfold Int32.in_range, Int32.min_signed, Int32.max_signed;
  Z.to_euclidean_division_equations; lia.

(** Arithmetic that stays in range is the arithmetic of [Z]. *)
Ltac no_wrap :=
  repeat match goal with
    | |- context [Int32.add ?a ?b] =>
        rewrite (Int32_add_small a b) by in_int_range
    | |- context [Int32.sub ?a ?b] =>
        rewrite (Int32_sub_small a b) by in_int_range
    | |- context [Int32.div ?a ?b] =>
        rewrite (Int32_div_small a b) by in_int_range
    end.

(** The branch for a window larger than the screen, with every quantity
    small enough not to overflow: the client size is the letterboxed one,
    the window rectangle is that size plus the frame, placed so that its
    centre is the centre of the rectangle it replaces. *)
Lemma letterbox_spec os s cr r sw sh :
  frame_additive os ->
  r = add_window_borders os s cr ->
  let b := AdjustWindowRect os (hwnd_style s) (mkRECT 0 0 0 0) in
  let n_w := if fit_border (opts (w32 s)) then sw - rect_width b else sw in
  let n_h := if fit_border (opts (w32 s)) then sh - rect_height b else sh in
  - 2 ^ 24 <= left cr <= 2 ^ 24 -> - 2 ^ 24 <= top cr <= 2 ^ 24 ->
  0 < rect_width cr <= 2 ^ 24 -> 0 < rect_height cr <= 2 ^ 24 ->
  - 2 ^ 16 <= left b <= 2 ^ 16 -> - 2 ^ 16 <= top b <= 2 ^ 16 ->
  - 2 ^ 16 <= right b <= 2 ^ 16 -> - 2 ^ 16 <= bottom b <= 2 ^ 16 ->
  0 < n_w <= 2 ^ 24 -> 0 < n_h <= 2 ^ 24 ->
  forall w' h',
    letterbox_size (rect_width cr) (rect_height cr) n_w n_h = (w', h') ->
    0 <= w' <= n_w -> 0 <= h' <= n_h ->
    let s2 := fst (letterbox os s cr r sw sh) in
    let r2 := snd (letterbox os s cr r sw sh) in
    dw (w32 s2) = w' /\ dh (w32 s2) = h' /\
    rect_width r2 = w' + rect_width b /\
    rect_height r2 = h' + rect_height b /\
    rect_center r2 = rect_center r /\
    window_x (w32 s2) = left r2 - left b /\
    window_y (w32 s2) = top r2 - top b /\
    - 2 ^ 26 <= left r2 <= 2 ^ 26 /\ - 2 ^ 26 <= top r2 <= 2 ^ 26.
Proof.
  intros Hadd Hr b n_w n_h Hl Ht Hw Hh Hbl Hbt Hbr Hbb Hnw Hnh w' h' Hsz Hw' Hh'.
  unfold add_window_borders in Hr. rewrite (Hadd (hwnd_style s) cr) in Hr.
  fold b in Hr. cbv zeta in Hr.
  unfold letterbox.
  cbn [MP_VERBOSE emit w32 opts fit_border hwnd_style].
  unfold add_window_borders.
  cbn [upd hwnd_style emit MP_VERBOSE].
  set (fit := fit_border (opts (w32 s))) in *.
  destruct cr as [cl ct crr cb]. unfold rect_width, rect_height in *.
  cbn [left top right bottom] in *.
  destruct b as [bl bt br bb] eqn:Eb. cbn [left top right bottom] in *.
  subst r. cbn [left top right bottom].
  (* the sizes handed to the letterbox *)
  assert (En_w : (if fit
                  then Int32.sub (Int32.sub sw (Int32.sub (Int32.add crr br) crr))
                                 (Int32.sub cl (Int32.add cl bl))
                  else sw) = n_w).
  { unfold n_w. destruct fit; [|reflexivity]. no_wrap. lia. }
  assert (En_h : (if fit
                  then Int32.sub (Int32.sub sh (Int32.sub (Int32.add cb bb) cb))
                                 (Int32.sub ct (Int32.add ct bt))
                  else sh) = n_h).
  { unfold n_h. destruct fit; [|reflexivity]. no_wrap. lia. }
  rewrite En_w, En_h.
  rewrite (Int32_sub_small crr cl) by in_int_range.
  rewrite (Int32_sub_small cb ct) by in_int_range.
  rewrite Hsz. cbn [fst snd upd w32 hwnd_style dw dh window_x window_y
                    with_dw with_dh with_window_x with_window_y].
  rewrite (Hadd (hwnd_style s) (mkRECT 0 0 w' h')). fold b. rewrite Eb.
  cbv zeta. cbn [left top right bottom].
  unfold rect_center, rect_width, rect_height. cbn [left top right bottom].
  no_wrap.
  repeat split; try (Z.to_euclidean_division_equations; lia).
  apply f_equal2; Z.to_euclidean_division_equations; lia.
Qed.

Lemma reinit_bounds_rect os s s1 layer cr r sw sh :
  reinit_bounds os s = (s1, layer, cr, r, sw, sh) ->
  r = add_window_borders os s1 cr /\
  cr = mkRECT (window_x (w32 s1)) (window_y (w32 s1))
              (Int32.add (window_x (w32 s1)) (dw (w32 s1)))
              (Int32.add (window_y (w32 s1)) (dh (w32 s1))).
Proof.
  unfold reinit_bounds. intros H. injection H as <- _ <- <- _ _.
  split; reflexivity.
Qed.

(** C6 (as the code has it).  When [reinit_window_state] finds the windowed
    rectangle it checks (the window rectangle with its borders under
    --fit-border, the client rectangle otherwise) larger than the screen on
    either axis, then, for positive sizes below [2^24] and a screen larger
    than the frame: the rectangle of that kind is afterwards no larger than
    the screen on either axis; one side of the client area is the full
    available length and the other the proportional length of the original
    client aspect, rounded down (or one less); and the new window rectangle
    has the centre of the old one. *)
Theorem C6_larger_than_screen_letterboxed :
  forall (os : desktop) (VO_EVENT_RESIZE : Z) (s s1 : gui) (layer : HWND)
         (cr r : RECT) (screen_w screen_h : Z),
    frame_additive os ->
    parent (w32 s) = 0 ->
    reinit_bounds os s = (s1, layer, cr, r, screen_w, screen_h) ->
    larger_than_screen s1 cr r screen_w screen_h = true ->
    let b := AdjustWindowRect os (hwnd_style s1) (mkRECT 0 0 0 0) in
    let fit := fit_border (opts (w32 s1)) in
    let n_w := if fit then screen_w - rect_width b else screen_w in
    let n_h := if fit then screen_h - rect_height b else screen_h in
    let c_w := rect_width cr in
    let c_h := rect_height cr in
    - 2 ^ 24 <= left cr <= 2 ^ 24 -> - 2 ^ 24 <= top cr <= 2 ^ 24 ->
    0 < c_w <= 2 ^ 24 -> 0 < c_h <= 2 ^ 24 ->
    - 2 ^ 16 <= left b <= 2 ^ 16 -> - 2 ^ 16 <= top b <= 2 ^ 16 ->
    - 2 ^ 16 <= right b <= 2 ^ 16 -> - 2 ^ 16 <= bottom b <= 2 ^ 16 ->
    0 < n_w <= 2 ^ 24 -> 0 < n_h <= 2 ^ 24 ->
    let s' := reinit_window_state os VO_EVENT_RESIZE s in
    (* the native window is the new client area with the frame around it *)
    (left (hwnd_rect s') = window_x (w32 s') + left b /\
     top (hwnd_rect s') = window_y (w32 s') + top b /\
     rect_width (hwnd_rect s') = dw (w32 s') + rect_width b /\
     rect_height (hwnd_rect s') = dh (w32 s') + rect_height b) /\
    (* the rectangle that was checked is no larger than the screen *)
    (if fit
     then rect_width (hwnd_rect s') <= screen_w /\
          rect_height (hwnd_rect s') <= screen_h
     else dw (w32 s') <= screen_w /\ dh (w32 s') <= screen_h) /\
    (* the client aspect is kept, within the rounding of one side *)
    ((dw (w32 s') = n_w /\ 0 <= dh (w32 s') <= n_h /\
      0 <= n_w * c_h - dh (w32 s') * c_w <= c_w) \/
     (dh (w32 s') = n_h /\ 0 <= dw (w32 s') <= n_w /\
      0 <= n_h * c_w - dw (w32 s') * c_h <= c_h)) /\
    (* centred on the old window rectangle *)
    rect_center (hwnd_rect s') = rect_center r.
Proof.
  intros os ev s s1 layer cr r sw sh Hadd Hp Hrb Hlarge b fit n_w n_h c_w c_h
         Hl Ht Hw Hh Hbl Hbt Hbr Hbb Hnw Hnh s'.
  destruct (reinit_bounds_rect _ _ _ _ _ _ _ _ Hrb) as [Hr _].
  (* the letterboxed size *)
  pose proof (letterbox_size_spec c_w c_h n_w n_h Hw Hh Hnw Hnh) as Hsize.
  destruct (letterbox_size c_w c_h n_w n_h) as [w' h'] eqn:Hsz.
  assert (Hw' : 0 <= w' <= n_w) by (destruct Hsize as [(-> & _ & _)|(_ & ? & _)]; lia).
  assert (Hh' : 0 <= h' <= n_h) by (destruct Hsize as [(_ & ? & _)|(-> & _ & _)]; lia).
  destruct (letterbox_spec os s1 cr r sw sh Hadd Hr Hl Ht Hw Hh Hbl Hbt Hbr Hbb
              Hnw Hnh w' h' Hsz Hw' Hh')
    as (Edw & Edh & Ewid & Ehei & Ecen & Ex & Ey & Hl2 & Ht2).
  (* the rest of the reconfiguration *)
  assert (Es' : s' = let '(s2, r2) := letterbox os s1 cr r sw sh in
                     signal_events ev
                       (set_window_pos layer r2
                          (Z.lor Win32.SWP_FRAMECHANGED Win32.SWP_SHOWWINDOW)
                          (MP_VERBOSE "reset window bounds: %d:%d:%d:%d\n"
                             [left r2; top r2; Int32.sub (right r2) (left r2);
                              Int32.sub (bottom r2) (top r2)] s2))).
  { subst s'. unfold reinit_window_state. rewrite Hp. cbn [Z.eqb negb].
    rewrite Hrb, Hlarge. reflexivity. }
  destruct (letterbox os s1 cr r sw sh) as [s2 r2]. cbn [fst snd] in *.
  fold b in Ewid, Ehei, Ex, Ey.
  assert (Hbw : - 2 ^ 17 <= rect_width b <= 2 ^ 17) by (unfold rect_width; lia).
  assert (Hbh : - 2 ^ 17 <= rect_height b <= 2 ^ 17) by (unfold rect_height; lia).
  assert (Ew32 : w32 s' = with_event_flags
                            (Z.lor (event_flags (w32 s2)) (Int32.uwrap ev)) (w32 s2))
    by (rewrite Es'; reflexivity).
  assert (Erect : hwnd_rect s' = r2).
  { rewrite Es'. unfold signal_events, set_window_pos.
    cbn [emit upd hwnd_rect MP_VERBOSE w32 hwnd_style trace].
    unfold rect_width, rect_height in *. destruct r2 as [l2 t2 r2' b2].
    cbn [left top right bottom] in *. no_wrap. f_equal; lia. }
  rewrite Erect, Ew32. cbn [dw dh window_x window_y with_event_flags].
  repeat split; try lia.
  - destruct fit; unfold n_w, n_h in *; lia.
  - exact Ecen.
Qed.

Lemma C6_witness :
  rect_width (hwnd_rect (reinit_window_state Sample.os Sample.VO_EVENT_RESIZE
                           (Sample.windowed true 0 0 3000 2000))) <= 1920 /\
  rect_height (hwnd_rect (reinit_window_state Sample.os Sample.VO_EVENT_RESIZE
                            (Sample.windowed true 0 0 3000 2000))) <= 1080 /\
  rect_center (hwnd_rect (reinit_window_state Sample.os Sample.VO_EVENT_RESIZE
                            (Sample.windowed true 0 0 3000 2000)))
  = (1500, 988).
Proof.
  edestruct (C6_larger_than_screen_letterboxed Sample.os Sample.VO_EVENT_RESIZE
               (Sample.windowed true 0 0 3000 2000))
    as (_ & Hfit & _ & Hcen).
  - exact sample_frame_additive.
  - reflexivity.
  - vm_compute. reflexivity.
  - vm_compute. reflexivity.
  - vm_compute. split; discriminate.
  - vm_compute. split; discriminate.
  - vm_compute. split; [reflexivity | discriminate].
  - vm_compute. split; [reflexivity | discriminate].
  - vm_compute. split; discriminate.
  - vm_compute. split; discriminate.
  - vm_compute. split; discriminate.
  - vm_compute. split; discriminate.
  - vm_compute. split; [reflexivity | discriminate].
  - vm_compute. split; [reflexivity | discriminate].
  - destruct Hfit as [Hw Hh]. split; [exact Hw|]. split; [exact Hh|].
    rewrite Hcen. reflexivity.
Defined.

(** With --fit-border=no a window of 2016x1039 (client area 2000x1000) on
    the 1920x1080 monitor is found too large; its client area is letterboxed
    to 1920x960, which with the frame makes a window 1936 wide: wider than
    the screen. *)
Lemma C6_counterexample :
  snd (fst (fst (reinit_bounds Sample.os (Sample.windowed false 0 0 2000 1000))))
    = mkRECT (-8) (-31) 2008 1008 /\
  finds_larger_than_screen Sample.os (Sample.windowed false 0 0 2000 1000)
    = true /\
  screenrc (w32 (reinit_window_state Sample.os Sample.VO_EVENT_RESIZE
                   (Sample.windowed false 0 0 2000 1000)))
    = mk_mp_rect 0 0 1920 1080 /\
  hwnd_rect (reinit_window_state Sample.os Sample.VO_EVENT_RESIZE
               (Sample.windowed false 0 0 2000 1000))
    = mkRECT 32 (-11) 1968 988 /\
  rect_width (hwnd_rect (reinit_window_state Sample.os Sample.VO_EVENT_RESIZE
                           (Sample.windowed false 0 0 2000 1000))) > 1920.
Proof. vm_compute. repeat split. Qed.

(** ** UTF-16 decoding, on any input *)

Lemma lor_shiftl_small q r n :
  0 <= n -> 0 <= r < 2 ^ n -> Z.lor (Z.shiftl q n) r = q * 2 ^ n + r.
Proof.
  intros Hn Hr.
  assert (Hland : Z.land (Z.shiftl q n) r = 0).
  { apply Z.bits_inj'. intros i Hi. rewrite Z.land_spec, Z.bits_0.
    destruct (Z_lt_le_dec i n) as [L|L].
    - rewrite Z.shiftl_spec_low by lia. reflexivity.
    - destruct (Z.eq_dec r 0) as [->|Hr0].
      + rewrite Z.bits_0. apply andb_false_r.
      + rewrite (Z.bits_above_log2 r i); [apply andb_false_r|lia|].
        apply Z.log2_lt_pow2; [lia|].
        apply Z.lt_le_trans with (2 ^ n); [lia|].
        apply Z.pow_le_mono_r; lia. }
  rewrite <- Z.lxor_lor by exact Hland.
  rewrite <- Z.add_nocarry_lxor by exact Hland.
  now rewrite Z.shiftl_mul_pow2.
Qed.

Lemma decode_surrogate_pair_value lead trail :
  decode_surrogate_pair lead trail
  = 0x10000 + (Win32.wchar lead mod 1024) * 1024 + Win32.wchar trail mod 1024.
Proof.
  unfold decode_surrogate_pair.
  change 0x3ff with (Z.ones 10). rewrite !Z.land_ones by lia.
  change (2 ^ 10) with 1024.
  set (a := Win32.wchar lead mod 1024). set (b := Win32.wchar trail mod 1024).
  assert (Ha : 0 <= a < 1024) by (apply Z.mod_pos_bound; lia).
  assert (Hb : 0 <= b < 1024) by (apply Z.mod_pos_bound; lia).
  assert (Es : Z.shiftl a 10 = a * 1024)
    by (rewrite Z.shiftl_mul_pow2 by lia; reflexivity).
  rewrite Int32_wrap_small
    by (rewrite Es; unfold Int32.in_range, Int32.min_signed, Int32.max_signed; lia).
  rewrite lor_shiftl_small by (change (2 ^ 10) with 1024; lia).
  change (2 ^ 10) with 1024.
  rewrite Int32_add_small
    by (unfold Int32.in_range, Int32.min_signed, Int32.max_signed; lia).
  lia.
Qed.

Lemma surrogates_of_range cp :
  0x10000 <= cp <= 0x10FFFF ->
  0xD800 <= high_surrogate_of cp <= 0xDBFF /\
  0xDC00 <= low_surrogate_of cp <= 0xDFFF.
Proof.
  intros H. unfold high_surrogate_of, low_surrogate_of.
  pose proof (Z.mod_pos_bound (cp - 65536) 1024 ltac:(lia)).
  assert (0 <= (cp - 65536) / 1024 <= 1023).
  { split; [apply Z.div_pos; lia|].
    apply Z.lt_succ_r. apply Z.div_lt_upper_bound; lia. }
  lia.
Qed.

Lemma wchar_small c : 0 <= c < 2 ^ 16 -> Win32.wchar c = c.
Proof. intros H. unfold Win32.wchar. now apply Z.mod_small. Qed.

(** The two surrogates of a code point above the basic plane, decoded one
    after the other, give the code point back and leave nothing pending. *)
Lemma decode_utf16_pair s cp :
  0x10000 <= cp <= 0x10FFFF ->
  let '(c1, s1) := decode_utf16 s (high_surrogate_of cp) in
  let '(c2, s2) := decode_utf16 s1 (low_surrogate_of cp) in
  c1 = 0 /\ c2 = cp /\ high_surrogate (w32 s2) = 0 /\ trace s2 = trace s /\
  (high_surrogate (w32 s) = 0 -> s2 = s).
Proof.
  intros Hcp.
  destruct (surrogates_of_range cp Hcp) as [Hh Hl].
  assert (Wh : Win32.wchar (high_surrogate_of cp) = high_surrogate_of cp)
    by (apply wchar_small; change (2 ^ 16) with 65536; lia).
  assert (Wl : Win32.wchar (low_surrogate_of cp) = low_surrogate_of cp)
    by (apply wchar_small; change (2 ^ 16) with 65536; lia).
  rewrite decode_utf16_high.
  2:{ rewrite Wh. unfold Win32.IS_HIGH_SURROGATE.
      apply andb_true_iff; split; apply Z.leb_le; lia. }
  unfold decode_utf16 at 1. rewrite Wh, Wl.
  assert (E1 : Win32.IS_HIGH_SURROGATE (low_surrogate_of cp) = false).
  { unfold Win32.IS_HIGH_SURROGATE. apply andb_false_iff. right.
    apply Z.leb_gt. lia. }
  assert (E2 : Win32.IS_LOW_SURROGATE (low_surrogate_of cp) = true).
  { unfold Win32.IS_LOW_SURROGATE.
    apply andb_true_iff; split; apply Z.leb_le; lia. }
  rewrite E1, E2.
  cbn [upd w32 high_surrogate with_high_surrogate].
  assert (E3 : (high_surrogate_of cp =? 0) = false) by (apply Z.eqb_neq; lia).
  rewrite E3.
  rewrite decode_surrogate_pair_value, Wh, Wl.
  cbn [upd w32 high_surrogate with_high_surrogate trace].
  repeat split.
  2:{ intros Hp. destruct s as [w st hr tr].
      destruct w as [o tm win par scr pw ph px py de wbi cfs wx wy w_ h_ dss cv ef hs tl].
      cbn in Hp. subst. reflexivity. }
  unfold high_surrogate_of, low_surrogate_of.
  pose proof (Z.div_mod (cp - 65536) 1024 ltac:(lia)) as Hdm.
  pose proof (Z.mod_pos_bound (cp - 65536) 1024 ltac:(lia)) as Hm.
  assert (Hq : 0 <= (cp - 65536) / 1024 <= 1023).
  { split; [apply Z.div_pos; lia|].
    apply Z.lt_succ_r. apply Z.div_lt_upper_bound; lia. }
  replace (55296 + (cp - 65536) / 1024) with ((cp - 65536) / 1024 + 54 * 1024) by lia.
  rewrite Z.mod_add by lia.
  replace (56320 + (cp - 65536) mod 1024) with ((cp - 65536) mod 1024 + 55 * 1024) by lia.
  rewrite Z.mod_add by lia.
  rewrite (Z.mod_small ((cp - 65536) / 1024)) by lia.
  rewrite Zmod_mod. lia.
Qed.

Lemma decode_surrogate_pair_range lead trail :
  0x10000 <= decode_surrogate_pair lead trail <= 0x10FFFF.
Proof.
  rewrite decode_surrogate_pair_value.
  pose proof (Z.mod_pos_bound (Win32.wchar lead) 1024 ltac:(lia)).
  pose proof (Z.mod_pos_bound (Win32.wchar trail) 1024 ltac:(lia)).
  lia.
Qed.

(** What one call can return, and what it can leave pending. *)
Lemma decode_utf16_result s c :
  let '(r, s') := decode_utf16 s c in
  (r = 0 \/
   (r = Win32.wchar c /\ is_surrogate r = false /\ s' = s /\
    high_surrogate (w32 s) = 0) \/
   0x10000 <= r <= 0x10FFFF) /\
  (high_surrogate (w32 s') = 0 \/
   Win32.IS_HIGH_SURROGATE (high_surrogate (w32 s')) = true).
Proof.
  unfold decode_utf16.
  destruct (Win32.IS_HIGH_SURROGATE (Win32.wchar c)) eqn:Eh.
  - split; [left; reflexivity|]. right. exact Eh.
  - destruct (Win32.IS_LOW_SURROGATE (Win32.wchar c)) eqn:El.
    + destruct (Z.eqb_spec (high_surrogate (w32 s)) 0) as [E0|N0].
      * split; [left; reflexivity|]. left. exact E0.
      * split; [|left; reflexivity].
        right. right. apply decode_surrogate_pair_range.
    + destruct (Z.eqb_spec (high_surrogate (w32 s)) 0) as [E0|N0];
        cbn [negb].
      * split; [|left; exact E0].
        right. left. unfold is_surrogate. rewrite Eh, El.
        repeat split. exact E0.
      * split; [left; reflexivity|]. left. reflexivity.
Qed.

Lemma decode_utf16_scalar s c :
  fst (decode_utf16 s c) <> 0 -> scalar_value (fst (decode_utf16 s c)).
Proof.
  pose proof (decode_utf16_result s c) as H.
  destruct (decode_utf16 s c) as [r s1]. cbn [fst]. intros N.
  destruct H as [[H|[(Hr & Hs & _)|H]] _]; [contradiction| |].
  - split; [|exact Hs].
    subst r. unfold Win32.wchar in *.
    pose proof (Z.mod_pos_bound c (2 ^ 16) ltac:(lia)) as Hb.
    change (2 ^ 16) with 65536 in *. lia.
  - split; [lia|].
    unfold is_surrogate, Win32.IS_HIGH_SURROGATE, Win32.IS_LOW_SURROGATE.
    apply orb_false_iff; split; apply andb_false_iff; right; apply Z.leb_gt; lia.
Qed.

Lemma decode_utf16_plain s c :
  high_surrogate (w32 s) = 0 -> 0 <= c < 0x10000 -> is_surrogate c = false ->
  decode_utf16 s c = (c, s).
Proof.
  intros Hp Hc Hs. unfold is_surrogate in Hs.
  apply orb_false_iff in Hs as [Eh El].
  unfold decode_utf16. rewrite (wchar_small c) by (change (2 ^ 16) with 65536; lia).
  now rewrite Eh, El, Hp.
Qed.

(** A call that returns a character has logged nothing; any call logs at
    most the one error line. *)
Lemma decode_utf16_trace s c :
  let '(r, s1) := decode_utf16 s c in
  (r <> 0 -> trace s1 = trace s) /\
  (trace s1 = trace s \/
   trace s1 = trace s ++ [mp_msg MSGL_ERR "Invalid UTF-16 input\n" []]).
Proof.
  unfold decode_utf16.
  destruct (Win32.IS_HIGH_SURROGATE _); [split; [reflexivity|left; reflexivity]|].
  destruct (Win32.IS_LOW_SURROGATE _).
  - destruct (_ =? 0); split; try reflexivity; try (intros H; now elim H);
      [right|left]; reflexivity.
  - destruct (_ =? 0); cbn [negb]; split; try reflexivity;
      try (intros H; now elim H); [left|right]; reflexivity.
Qed.

(** X1.  Decoding is the inverse of UTF-16 encoding: the code units of any
    text of Unicode scalar values other than NUL, fed to [decode_utf16] one
    after the other while no surrogate is pending, give back exactly the
    text, and leave the state as it was (nothing pending, nothing
    logged). *)
Theorem X1_decode_units_utf16_encode :
  forall (cps : list Z) (s : gui),
    Forall scalar_value cps ->
    high_surrogate (w32 s) = 0 ->
    decode_units s (utf16_encode cps) = (cps, s).
Proof.
  induction cps as [|cp rest IH]; intros s Hall Hp; [reflexivity|].
  inversion Hall as [|? ? [Hcp Hns] Hrest]; subst.
  cbn [utf16_encode].
  destruct (Z.ltb_spec cp 0x10000) as [Hlt|Hge].
  - cbn [decode_units]. rewrite decode_utf16_plain by (assumption || lia).
    rewrite IH by assumption.
    destruct (Z.eqb_spec cp 0); [lia|reflexivity].
  - cbn [decode_units].
    pose proof (decode_utf16_pair s cp ltac:(lia)) as H.
    destruct (decode_utf16 s (high_surrogate_of cp)) as [c1 s1].
    destruct (decode_utf16 s1 (low_surrogate_of cp)) as [c2 s2].
    destruct H as (-> & -> & _ & _ & Hs2). rewrite (Hs2 Hp).
    rewrite IH by assumption. cbn [Z.eqb].
    destruct (Z.eqb_spec cp 0); [lia|reflexivity].
Qed.

Lemma X1_witness :
  decode_units (Sample.windowed true 0 0 640 480) (utf16_encode [0x41; 0x1F600])
  = ([0x41; 0x1F600], Sample.windowed true 0 0 640 480).
Proof.
  apply (X1_decode_units_utf16_encode [0x41; 0x1F600]
           (Sample.windowed true 0 0 640 480)).
  - repeat constructor; try lia; reflexivity.
  - reflexivity.
Defined.

(** X2.  Whatever code units arrive and whatever is pending, every
    character that comes out of the decoder is a Unicode scalar value: never
    a surrogate, never above U+10FFFF, never NUL. *)
Theorem X2_decode_units_scalar_values :
  forall (units : list Z) (s : gui),
    Forall scalar_value (fst (decode_units s units)).
Proof.
  induction units as [|c rest IH]; intros s; [constructor|].
  cbn [decode_units].
  pose proof (decode_utf16_scalar s c) as H.
  destruct (decode_utf16 s c) as [r s1]. cbn [fst] in H.
  specialize (IH s1). destruct (decode_units s1 rest) as [out s2].
  cbn [fst] in *.
  destruct (Z.eqb_spec r 0) as [E|N]; [exact IH|].
  constructor; [now apply H|exact IH].
Qed.

(** ** Character messages *)

(** X3.  The two character messages of a surrogate pair put exactly one key
    into the input context, the code point with the modifier bits, whatever
    was pending before; both messages are reported as handled. *)
Theorem X3_handle_char_surrogate_pair :
  forall (GetKeyState : Z -> Z) (use_alt_gr : bool) (CTRL SHIFT ALT : Z)
         (s : gui) (cp : Z),
    0x10000 <= cp <= 0x10FFFF ->
    let '(b1, s1) :=
      handle_char GetKeyState use_alt_gr CTRL SHIFT ALT s (high_surrogate_of cp) in
    let '(b2, s2) :=
      handle_char GetKeyState use_alt_gr CTRL SHIFT ALT s1 (low_surrogate_of cp) in
    b1 = true /\ b2 = true /\
    trace s2 = trace s ++
      [mp_input_put_key
         (Z.lor cp (mod_state GetKeyState use_alt_gr CTRL SHIFT ALT))] /\
    high_surrogate (w32 s2) = 0.
Proof.
  intros GetKeyState use_alt_gr CTRL SHIFT ALT s cp Hcp. unfold handle_char.
  pose proof (decode_utf16_pair s cp Hcp) as H.
  destruct (decode_utf16 s (high_surrogate_of cp)) as [c1 s1].
  destruct (decode_utf16 s1 (low_surrogate_of cp)) as [c2 s2] eqn:E2.
  destruct H as (-> & -> & Hp & Ht & _).
  cbn [Z.eqb]. rewrite E2.
  destruct (Z.eqb_spec cp 0); [lia|].
  destruct (Z.ltb_spec cp 32); [lia|].
  cbn [emit trace w32]. rewrite Ht. repeat split. exact Hp.
Qed.

Lemma X3_witness :
  trace (snd (handle_char Sample2.GetKeyState true Sample2.MP_KEY_MODIFIER_CTRL
                Sample2.MP_KEY_MODIFIER_SHIFT Sample2.MP_KEY_MODIFIER_ALT
                (snd (handle_char Sample2.GetKeyState true
                        Sample2.MP_KEY_MODIFIER_CTRL Sample2.MP_KEY_MODIFIER_SHIFT
                        Sample2.MP_KEY_MODIFIER_ALT
                        (Sample.windowed true 0 0 640 480) 0xD83D))
                0xDE00))
  = [mp_input_put_key 0x1F600].
Proof.
  pose proof (X3_handle_char_surrogate_pair Sample2.GetKeyState true
                Sample2.MP_KEY_MODIFIER_CTRL Sample2.MP_KEY_MODIFIER_SHIFT
                Sample2.MP_KEY_MODIFIER_ALT
                (Sample.windowed true 0 0 640 480) 0x1F600 ltac:(lia)) as H.
  change (high_surrogate_of 0x1F600) with 0xD83D in H.
  change (low_surrogate_of 0x1F600) with 0xDE00 in H.
  destruct (handle_char _ _ _ _ _ (Sample.windowed true 0 0 640 480) 0xD83D)
    as [b1 s1].
  cbn [snd].
  destruct (handle_char _ _ _ _ _ s1 0xDE00) as [b2 s2].
  destruct H as (_ & _ & Ht & _). cbn [snd]. rewrite Ht. reflexivity.
Defined.

(** X4.  A character message logs at most the one error line, or puts one
    key, which then is a scalar value from U+0020 on with the modifier
    bits: control characters and surrogates are never put.  The message is
    reported as not handled only for a control character U+0001..U+001F
    that arrives while nothing is pending, and then nothing has changed. *)
Theorem X4_handle_char_keys :
  forall (GetKeyState : Z -> Z) (use_alt_gr : bool) (CTRL SHIFT ALT : Z)
         (s : gui) (wc : Z),
    let '(b, s') := handle_char GetKeyState use_alt_gr CTRL SHIFT ALT s wc in
    (trace s' = trace s \/
     trace s' = trace s ++ [mp_msg MSGL_ERR "Invalid UTF-16 input\n" []] \/
     exists c, 0x20 <= c /\ scalar_value c /\
       trace s' = trace s ++
         [mp_input_put_key
            (Z.lor c (mod_state GetKeyState use_alt_gr CTRL SHIFT ALT))]) /\
    (b = false ->
     s' = s /\ 0 < Win32.wchar wc < 0x20 /\ high_surrogate (w32 s) = 0).
Proof.
  intros GetKeyState use_alt_gr CTRL SHIFT ALT s wc. unfold handle_char.
  pose proof (decode_utf16_scalar s wc) as Hsc.
  pose proof (decode_utf16_trace s wc) as Htr.
  pose proof (decode_utf16_result s wc) as Hres.
  destruct (decode_utf16 s wc) as [c s1].
  cbn [fst] in Hsc. destruct Hres as [Hres _]. destruct Htr as [Hnz Htr].
  destruct (Z.eqb_spec c 0) as [E0|N0].
  - split; [|discriminate]. destruct Htr as [T|T]; [left|right; left]; exact T.
  - specialize (Hsc N0).
    destruct (Z.ltb_spec c 32) as [Hlt|Hge].
    + destruct Hres as [H|[(Hr & _ & Hs & Hp)|H]]; [contradiction| |lia].
      subst s1. split; [left; reflexivity|]. intros _.
      split; [reflexivity|]. split; [|exact Hp].
      rewrite <- Hr. destruct Hsc. lia.
    + split; [|discriminate]. right. right. exists c.
      split; [lia|]. split; [exact Hsc|].
      cbn [emit trace]. now rewrite (Hnz N0).
Qed.

(** X5.  AltGr is not Ctrl+Alt: with right Alt and left Ctrl down, right
    Ctrl and left Alt up, and AltGr enabled in the input context, a printable
    character of the basic plane is put with no modifier but Shift; with
    AltGr disabled the same keys give it the Ctrl and Alt bits. *)
Theorem X5_handle_char_alt_gr :
  forall (GetKeyState : Z -> Z) (CTRL SHIFT ALT : Z) (s : gui) (wc : Z),
    let down := key_state GetKeyState in
    let shift := if down Win32.VK_SHIFT then SHIFT else 0 in
    down Win32Ext.VK_RMENU = true -> down Win32Ext.VK_LCONTROL = true ->
    down Win32Ext.VK_RCONTROL = false -> down Win32Ext.VK_LMENU = false ->
    high_surrogate (w32 s) = 0 ->
    0x20 <= wc < 0x10000 -> is_surrogate wc = false ->
    handle_char GetKeyState true CTRL SHIFT ALT s wc
      = (true, emit (mp_input_put_key (Z.lor wc shift)) s) /\
    handle_char GetKeyState false CTRL SHIFT ALT s wc
      = (true, emit (mp_input_put_key (Z.lor wc (Z.lor (Z.lor CTRL shift) ALT))) s).
Proof.
  intros GetKeyState CTRL SHIFT ALT s wc down shift Hrm Hlc Hrc Hlm Hp Hwc Hs.
  unfold handle_char. rewrite decode_utf16_plain by (assumption || lia).
  destruct (Z.eqb_spec wc 0); [lia|].
  destruct (Z.ltb_spec wc 32); [lia|].
  unfold mod_state. fold down. rewrite Hrm, Hlc, Hrc, Hlm. cbn [andb orb negb].
  subst shift. rewrite Z.lor_0_l.
  destruct (down Win32.VK_SHIFT); rewrite ?Z.lor_0_r; split; reflexivity.
Qed.

Lemma X5_witness :
  handle_char Sample2.GetKeyState true Sample2.MP_KEY_MODIFIER_CTRL
    Sample2.MP_KEY_MODIFIER_SHIFT Sample2.MP_KEY_MODIFIER_ALT
    (Sample.windowed true 0 0 640 480) 0x40
  = (true, emit (mp_input_put_key 0x40) (Sample.windowed true 0 0 640 480)).
Proof.
  apply (X5_handle_char_alt_gr Sample2.GetKeyState Sample2.MP_KEY_MODIFIER_CTRL
           Sample2.MP_KEY_MODIFIER_SHIFT Sample2.MP_KEY_MODIFIER_ALT
           (Sample.windowed true 0 0 640 480) 0x40);
    try reflexivity; lia.
Defined.
(** ** Borders, the other way round *)

Lemma Int32_add_sub_cancel_r a b :
  Int32.in_range a -> Int32.add (Int32.sub a b) b = a.
Proof.
  unfold Int32.in_range, Int32.min_signed, Int32.max_signed,
    Int32.add, Int32.sub, Int32.wrap, Int32.modulus.
  intros H. Z.to_euclidean_division_equations. lia.
Qed.

Lemma Int32_add_sub_cancel a b :
  Int32.in_range b -> Int32.add a (Int32.sub b a) = b.
Proof.
  unfold Int32.in_range, Int32.min_signed, Int32.max_signed,
    Int32.add, Int32.sub, Int32.wrap, Int32.modulus.
  intros H. Z.to_euclidean_division_equations. lia.
Qed.

(** X6.  Adding the borders to a rectangle from which they were subtracted
    gives the rectangle back, whatever its size: the intermediate overflow,
    if any, cancels. *)
Theorem X6_add_subtract_window_borders :
  forall (os : desktop) (s : gui) (rc : RECT),
    frame_additive os ->
    RECT_in_range rc ->
    add_window_borders os s (subtract_window_borders os s rc) = rc.
Proof.
  intros os s rc Hadd (H1 & H2 & H3 & H4).
  unfold add_window_borders, subtract_window_borders.
  rewrite Hadd. cbv zeta. unfold add_window_borders. cbn [left top right bottom].
  rewrite !Int32_add_sub_cancel_r by assumption.
  now destruct rc.
Qed.

Lemma X6_witness :
  add_window_borders Sample.os (Sample.windowed true 100 100 800 600)
    (subtract_window_borders Sample.os (Sample.windowed true 100 100 800 600)
       (mkRECT (-2147483648) 69 908 2147483647))
  = mkRECT (-2147483648) 69 908 2147483647.
Proof.
  apply (X6_add_subtract_window_borders Sample.os
           (Sample.windowed true 100 100 800 600)
           (mkRECT (-2147483648) 69 908 2147483647)).
  - exact sample_frame_additive.
  - vm_compute. repeat split; discriminate.
Defined.

(** ** Hit test of a borderless window *)

(** X7.  A point of a borderless window is reported as client area exactly
    when the window is maximized or the point lies at least a frame width
    inside all four edges of the client area; everywhere else the window
    offers a sizing handle: the result is always HTCLIENT or one of the
    eight handles for an edge or a corner. *)
Theorem X7_borderless_nchittest_client :
  forall (os : desktop) (ScreenToClient : Z * Z -> Z * Z)
         (IsMaximized : bool) (s : gui) (x y : Z),
    let frame := GetSystemMetrics os Win32Ext.SM_CXFRAME
                 + GetSystemMetrics os Win32Ext.SM_CXPADDEDBORDER in
    let mouse := ScreenToClient (x, y) in
    let hit := borderless_nchittest os IsMaximized ScreenToClient s x y in
    0 <= GetSystemMetrics os Win32Ext.SM_CXFRAME <= 2 ^ 16 ->
    0 <= GetSystemMetrics os Win32Ext.SM_CXPADDEDBORDER <= 2 ^ 16 ->
    0 <= GetSystemMetrics os Win32Ext.SM_CXBORDER <= 2 ^ 16 ->
    Z.abs (dw (w32 s)) <= 2 ^ 30 ->
    Z.abs (dh (w32 s)) <= 2 ^ 30 ->
    (hit = Win32Ext.HTCLIENT
     <-> IsMaximized = true \/
         (frame <= fst mouse < dw (w32 s) - frame /\
          frame <= snd mouse < dh (w32 s) - frame)) /\
    (hit <> Win32Ext.HTCLIENT ->
     In hit [Win32Ext.HTLEFT; Win32Ext.HTRIGHT; Win32Ext.HTTOP;
             Win32Ext.HTTOPLEFT; Win32Ext.HTTOPRIGHT; Win32Ext.HTBOTTOM;
             Win32Ext.HTBOTTOMLEFT; Win32Ext.HTBOTTOMRIGHT]).
Proof.
  intros os ScreenToClient IsMaximized s x y frame mouse hit Hf Hp Hb Hw Hh.
  split.
  - subst hit. unfold borderless_nchittest. subst mouse.
    destruct IsMaximized; [split; [now left|reflexivity]|].
    destruct (ScreenToClient (x, y)) as [mx my]. cbn [fst snd].
    rewrite (Int32_add_small (GetSystemMetrics os Win32Ext.SM_CXFRAME))
      by in_int_range.
    fold frame.
    assert (Hfr : 0 <= frame <= 2 ^ 17) by (subst frame; lia).
    rewrite (Int32_wrap_small (frame * 2)) by in_int_range.
    rewrite (Int32_add_small (frame * 2)) by in_int_range.
    set (diag := frame * 2 + GetSystemMetrics os Win32Ext.SM_CXBORDER).
    assert (Hd : frame * 2 <= diag <= 2 ^ 19) by (subst diag; lia).
    rewrite !Int32_sub_small by in_int_range.
    unfold Win32Ext.HTCLIENT, Win32Ext.HTTOPLEFT, Win32Ext.HTTOPRIGHT,
      Win32Ext.HTTOP, Win32Ext.HTBOTTOMLEFT, Win32Ext.HTBOTTOMRIGHT,
      Win32Ext.HTBOTTOM, Win32Ext.HTLEFT, Win32Ext.HTRIGHT.
    destruct (Z.ltb_spec my frame);
      [destruct (Z.ltb_spec mx diag);
       [|destruct (Z.geb_spec mx (dw (w32 s) - diag))]|];
      try (split; [discriminate|intros [?|?]; [discriminate|lia]]).
    destruct (Z.geb_spec my (dh (w32 s) - frame));
      [destruct (Z.ltb_spec mx diag);
       [|destruct (Z.geb_spec mx (dw (w32 s) - diag))]|];
      try (split; [discriminate|intros [?|?]; [discriminate|lia]]).
    destruct (Z.ltb_spec mx frame);
      try (split; [discriminate|intros [?|?]; [discriminate|lia]]).
    destruct (Z.geb_spec mx (dw (w32 s) - frame));
      try (split; [discriminate|intros [?|?]; [discriminate|lia]]).
    split; [intros _; right; lia|reflexivity].
  - subst hit. unfold borderless_nchittest.
    destruct IsMaximized; [intros N; now elim N|].
    destruct (ScreenToClient (x, y)) as [mx my].
    repeat match goal with
    | |- context [if ?c then _ else _] => destruct c
    end; intros N; cbn [In]; try (now elim N); auto 10.
Qed.

Lemma X7_witness :
  borderless_nchittest Sample2.os false (fun p => p)
    (Sample.windowed true 0 0 640 480) 8 471 = Win32Ext.HTCLIENT.
Proof.
  destruct (X7_borderless_nchittest_client Sample2.os (fun p => p) false
              (Sample.windowed true 0 0 640 480) 8 471) as [[_ H] _].
  - vm_compute. split; discriminate.
  - vm_compute. split; discriminate.
  - vm_compute. split; discriminate.
  - vm_compute. discriminate.
  - vm_compute. discriminate.
  - apply H. right. vm_compute. repeat split; discriminate.
Defined.

(** ** Interactive resize *)

Lemma get_resize_border_cases v :
  (1 <= v <= 8 /\
   (get_resize_border v = 1 \/ get_resize_border v = 2 \/
    get_resize_border v = 3)) \/
  (~ 1 <= v <= 8 /\ get_resize_border v = -1).
Proof.
  unfold get_resize_border, Win32Ext.WMSZ_LEFT, Win32Ext.WMSZ_TOP,
    Win32Ext.WMSZ_RIGHT, Win32Ext.WMSZ_BOTTOM, Win32Ext.WMSZ_TOPLEFT,
    Win32Ext.WMSZ_TOPRIGHT, Win32Ext.WMSZ_BOTTOMLEFT, Win32Ext.WMSZ_BOTTOMRIGHT.
  repeat match goal with
  | |- context [?a =? ?b] => destruct (Z.eqb_spec a b); [left; split; [lia|tauto]|]
  end.
  right. split; [lia|reflexivity].
Qed.

(** X8.  When the aspect is kept during an interactive resize, the
    rectangle handed back differs from the one proposed in at most one edge,
    and never in the left one, whichever edge or corner is dragged; for a
    [wParam] that names no edge it is the rectangle proposed. *)
Theorem X8_WM_SIZING_case_edges :
  forall (os : desktop) (keepaspect keepaspect_window : bool)
         (o_dwidth o_dheight : Z) (s : gui) (wParam : Z) (rc rc' : RECT),
    WM_SIZING_case os keepaspect keepaspect_window o_dwidth o_dheight s wParam rc
      = Some rc' ->
    left rc' = left rc /\
    ((top rc' = top rc /\ right rc' = right rc) \/
     (top rc' = top rc /\ bottom rc' = bottom rc) \/
     (right rc' = right rc /\ bottom rc' = bottom rc)) /\
    (~ 1 <= Int32.wrap wParam <= 8 -> rc' = rc).
Proof.
  intros os ka kw ow oh s wParam rc rc'. unfold WM_SIZING_case.
  destruct (ka && kw && negb (current_fs (w32 s)) && (parent (w32 s) =? 0));
    [|discriminate].
  cbv zeta.
  generalize (Single.to_int
    (Single.sub
       (Single.mul
          (Single.of_int
             (Int32.sub (bottom (subtract_window_borders os s rc))
                (top (subtract_window_borders os s rc))))
          (Single.div (Single.of_int ow) (Single.of_int (MPMAX oh 1))))
       (Single.of_int
          (Int32.sub (right (subtract_window_borders os s rc))
             (left (subtract_window_borders os s rc)))))).
  generalize (Single.to_int
    (Single.sub
       (Single.div
          (Single.of_int
             (Int32.sub (right (subtract_window_borders os s rc))
                (left (subtract_window_borders os s rc))))
          (Single.div (Single.of_int ow) (Single.of_int (MPMAX oh 1))))
       (Single.of_int
          (Int32.sub (bottom (subtract_window_borders os s rc))
             (top (subtract_window_borders os s rc)))))).
  intros d_h d_w.
  destruct (get_resize_border_cases (Int32.wrap wParam))
    as [[Hin [E|[E|E]]]|[Hout E]]; rewrite E;
    cbn [Z.geb Z.compare Z.to_nat Pos.to_nat Pos.iter_op Init.Nat.add
         array_sub_at nth];
    intros H; injection H as <-; cbn [left top right bottom];
    (split; [reflexivity|]); (split; [tauto|]); intros Hn;
    [contradiction..|now destruct rc].
Qed.

Lemma X8_witness :
  WM_SIZING_case Sample.os true true 1920 1080
    (Sample.windowed true 100 100 800 600) Win32Ext.WMSZ_BOTTOMRIGHT
    (mkRECT 92 69 1108 708) = Some (mkRECT 92 69 1108 671) /\
  left (mkRECT 92 69 1108 671) = left (mkRECT 92 69 1108 708).
Proof.
  assert (E : WM_SIZING_case Sample.os true true 1920 1080
                (Sample.windowed true 100 100 800 600) Win32Ext.WMSZ_BOTTOMRIGHT
                (mkRECT 92 69 1108 708) = Some (mkRECT 92 69 1108 671))
    by (vm_compute; reflexivity).
  split; [exact E|].
  exact (proj1 (X8_WM_SIZING_case_edges Sample.os true true 1920 1080
                  (Sample.windowed true 100 100 800 600) Win32Ext.WMSZ_BOTTOMRIGHT
                  (mkRECT 92 69 1108 708) (mkRECT 92 69 1108 671) E)).
Defined.

(** ** Monitors *)

Lemma get_monitor_proc_nth mons : forall i target,
  0 <= i <= target ->
  i + Z.of_nat (List.length mons) <= Int32.max_signed ->
  get_monitor_proc mons i target = nth (Z.to_nat (target - i)) mons 0.
Proof.
  induction mons as [|mon rest IH]; intros i target Hi Hlen.
  - cbn. now destruct (Z.to_nat (target - i)).
  - cbn [get_monitor_proc]. cbn [List.length] in Hlen.
    destruct (Z.eqb_spec i target) as [E|N].
    + subst. now rewrite Z.sub_diag.
    + rewrite Int32_add_small
        by (unfold Int32.in_range, Int32.min_signed, Int32.max_signed in *; lia).
      rewrite IH by lia.
      replace (Z.to_nat (target - i)) with (S (Z.to_nat (target - (i + 1)))) by lia.
      reflexivity.
Qed.

Lemma get_monitor_proc_none mons : forall i target,
  target < i -> 0 <= i ->
  i + Z.of_nat (List.length mons) <= Int32.max_signed ->
  get_monitor_proc mons i target = 0.
Proof.
  induction mons as [|mon rest IH]; intros i target Hi H0 Hlen; [reflexivity|].
  cbn [get_monitor_proc]. cbn [List.length] in Hlen.
  destruct (Z.eqb_spec i target) as [E|N]; [lia|].
  rewrite Int32_add_small
    by (unfold Int32.in_range, Int32.min_signed, Int32.max_signed in *; lia).
  apply IH; lia.
Qed.

Lemma get_monitor_index os id :
  Z.of_nat (List.length (EnumDisplayMonitors os)) <= Int32.max_signed ->
  get_monitor os id =
  if 0 <=? id then nth (Z.to_nat id) (EnumDisplayMonitors os) 0 else 0.
Proof.
  intros Hlen. unfold get_monitor.
  destruct (Z.leb_spec 0 id) as [H0|H0].
  - rewrite get_monitor_proc_nth by lia. now rewrite Z.sub_0_r.
  - apply get_monitor_proc_none; lia.
Qed.

(** X9.  [get_monitor] gives the monitor with the index asked for, counting
    from 0 in the order of enumeration, and [NULL] for an index that is
    negative or not below the number of monitors. *)
Theorem X9_get_monitor_nth :
  forall (os : desktop) (id : Z),
    Z.of_nat (List.length (EnumDisplayMonitors os)) <= Int32.max_signed ->
    (0 <= id < Z.of_nat (List.length (EnumDisplayMonitors os)) ->
     nth_error (EnumDisplayMonitors os) (Z.to_nat id) = Some (get_monitor os id)) /\
    (~ 0 <= id < Z.of_nat (List.length (EnumDisplayMonitors os)) ->
     get_monitor os id = 0).
Proof.
  intros os id Hlen. rewrite get_monitor_index by exact Hlen. split.
  - intros [H0 H1]. destruct (Z.leb_spec 0 id); [|lia].
    apply nth_error_nth'. lia.
  - intros H. destruct (Z.leb_spec 0 id); [|reflexivity].
    apply nth_overflow. lia.
Qed.

Lemma X9_witness :
  nth_error (EnumDisplayMonitors Sample2.os) (Z.to_nat 1)
  = Some (get_monitor Sample2.os 1).
Proof.
  apply (X9_get_monitor_nth Sample2.os 1).
  - vm_compute. discriminate.
  - vm_compute. split; [discriminate|reflexivity].
Defined.

(** X10.  With a screen chosen by index (--screen, or --fs-screen in
    fullscreen), the screen rectangle becomes that of the monitor with this
    index, silently; if there is no such monitor, it becomes that of the
    primary monitor and one line at info level says so. *)
Theorem X10_update_screen_rect_monitor :
  forall (os : desktop) (s : gui),
    let screen := if current_fs (w32 s) then fsscreen_id (opts (w32 s))
                  else screen_id (opts (w32 s)) in
    let mon := if 0 <=? screen
               then nth (Z.to_nat screen) (EnumDisplayMonitors os) 0 else 0 in
    let s' := update_screen_rect os s in
    Z.of_nat (List.length (EnumDisplayMonitors os)) <= Int32.max_signed ->
    screen <> -1 ->
    (current_fs (w32 s) = true -> screen <> -2) ->
    if mon =? 0
    then screenrc (w32 s') = mp_rect_of (rcMonitor os (primary_monitor os)) /\
         trace s' = trace s ++
           [mp_msg MSGL_INFO "Screen %d does not exist, falling back to primary\n"
              [screen]]
    else screenrc (w32 s') = mp_rect_of (rcMonitor os mon) /\
         trace s' = trace s.
Proof.
  intros os s screen mon s' Hlen H1 H2.
  assert (Hmon : get_monitor os screen = mon)
    by (now rewrite get_monitor_index by exact Hlen).
  subst s'. unfold update_screen_rect. fold screen.
  assert (E2 : current_fs (w32 s) && (screen =? -2) = false).
  { destruct (current_fs (w32 s)); [|reflexivity].
    cbn [andb]. apply Z.eqb_neq. now apply H2. }
  rewrite E2.
  destruct (Z.eqb_spec screen (-1)) as [E|_]; [contradiction|].
  rewrite Hmon. destruct (mon =? 0); split; reflexivity.
Qed.

Lemma X10_witness :
  screenrc (w32 (update_screen_rect Sample2.os
                   (upd (with_opts (mk_opts false true false true 5 (-1)))
                      (Sample.windowed true 0 0 640 480))))
    = mk_mp_rect 0 0 1920 1080 /\
  trace (update_screen_rect Sample2.os
           (upd (with_opts (mk_opts false true false true 5 (-1)))
              (Sample.windowed true 0 0 640 480)))
    = [mp_msg MSGL_INFO "Screen %d does not exist, falling back to primary\n" [5]].
Proof.
  apply (X10_update_screen_rect_monitor Sample2.os
           (upd (with_opts (mk_opts false true false true 5 (-1)))
              (Sample.windowed true 0 0 640 480))).
  - vm_compute. discriminate.
  - vm_compute. discriminate.
  - vm_compute. discriminate.
Defined.

(** ** Window style *)

Lemma below_pow2 z k :
  0 <= k -> (forall n, k <= n -> Z.testbit z n = false) -> 0 <= z < 2 ^ k.
Proof.
  intros Hk H.
  assert (E : z = z mod 2 ^ k).
  { apply Z.bits_inj'. intros n Hn.
    destruct (Z_lt_le_dec n k) as [L|G].
    - now rewrite Z.mod_pow2_bits_low.
    - rewrite Z.mod_pow2_bits_high by lia. now apply H. }
  rewrite E. apply Z.mod_pos_bound. apply Z.pow_pos_nonneg; lia.
Qed.

Lemma above_pow2 z k n :
  0 <= z < 2 ^ k -> k <= n -> Z.testbit z n = false.
Proof.
  intros Hz Hn. destruct (Z_lt_le_dec k 0) as [L|G].
  - rewrite Z.pow_neg_r in Hz by lia. lia.
  - rewrite <- (Z.mod_small z (2 ^ k)) by exact Hz.
    apply Z.mod_pow2_bits_high. lia.
Qed.

Lemma update_style_ldiff w style :
  0 <= style < 2 ^ 32 ->
  update_style w style =
  Z.lor (Z.ldiff style FRAME)
        (if border (opts w) && negb (current_fs w) then FRAME else 0).
Proof.
  intros Hs. unfold update_style, Int32.unot, Int32.uwrap, Int32.modulus.
  change Win32.WS_OVERLAPPED with 0. rewrite Z.lor_0_l.
  fold FRAME. f_equal.
  rewrite <- (Z.land_ones (Z.lnot FRAME) 32) by lia.
  rewrite Z.land_assoc, (Z.land_comm style), <- Z.land_assoc.
  rewrite (Z.land_ones style 32) by lia.
  rewrite Z.mod_small by exact Hs.
  rewrite Z.land_comm. symmetry. apply Z.ldiff_land.
Qed.

Lemma update_style_range w style :
  0 <= style < 2 ^ 32 -> 0 <= update_style w style < 2 ^ 32.
Proof.
  intros Hs. rewrite update_style_ldiff by exact Hs.
  apply below_pow2; [lia|]. intros n Hn.
  rewrite Z.lor_spec, Z.ldiff_spec, (above_pow2 style 32 n Hs Hn).
  cbn [andb orb].
  destruct (_ && _); [|apply Z.testbit_0_l].
  apply (above_pow2 FRAME 32); [unfold FRAME; cbn; lia|exact Hn].
Qed.

Lemma update_style_frame w style :
  0 <= style < 2 ^ 32 ->
  Z.land (update_style w style) FRAME =
  (if border (opts w) && negb (current_fs w) then FRAME else 0) /\
  Z.ldiff (update_style w style) FRAME = Z.ldiff style FRAME.
Proof.
  intros Hs. rewrite update_style_ldiff by exact Hs.
  split; apply Z.bits_inj'; intros n Hn;
    destruct (border (opts w) && negb (current_fs w));
    repeat rewrite ?Z.land_spec, ?Z.lor_spec, ?Z.ldiff_spec, ?Z.testbit_0_l;
    destruct (Z.testbit style n), (Z.testbit FRAME n); reflexivity.
Qed.

(** ** Reconfiguration: style, bounds and native window *)

Lemma letterbox_frame os s cr r sw sh :
  let s' := fst (letterbox os s cr r sw sh) in
  hwnd_style s' = hwnd_style s /\
  event_flags (w32 s') = event_flags (w32 s) /\
  current_fs (w32 s') = current_fs (w32 s) /\
  window_bounds_initialized (w32 s') = window_bounds_initialized (w32 s) /\
  disable_screensaver (w32 s') = disable_screensaver (w32 s) /\
  exists t, trace s' =
    trace s ++ mp_msg MSGL_V "requested window size larger than the screen\n" []
            :: t.
Proof.
  unfold letterbox. destruct (letterbox_size _ _ _ _); cbn; repeat split.
  all: exists []; reflexivity.
Qed.

(** The first part of the reconfiguration: mode, style, bounds, and what it
    leaves alone. *)
Lemma reinit_bounds_mode os s :
  let s1 := fst (fst (fst (fst (fst (reinit_bounds os s))))) in
  let rc := screenrc (w32 s1) in
  current_fs (w32 s1) = fullscreen (opts (w32 s)) /\
  bounds (w32 s1) =
    (if fullscreen (opts (w32 s))
     then (x0 rc, y0 rc, Int32.sub (x1 rc) (x0 rc), Int32.sub (y1 rc) (y0 rc))
     else if current_fs (w32 s) then prev_bounds (w32 s) else bounds (w32 s)) /\
  event_flags (w32 s1) = event_flags (w32 s) /\
  window_bounds_initialized (w32 s1) = window_bounds_initialized (w32 s) /\
  disable_screensaver (w32 s1) = disable_screensaver (w32 s) /\
  hwnd_style s1 =
    update_style (with_current_fs (fullscreen (opts (w32 s))) (w32 s))
                 (hwnd_style s) /\
  In (SetWindowLong_GWL_STYLE (window (w32 s)) (hwnd_style s1)) (trace s1).
Proof.
  unfold reinit_bounds.
  match goal with |- context [update_screen_rect os ?x] =>
    destruct (update_screen_rect_frame os x) as (rc & t & ->) end.
  unfold switch_fs_bounds.
  destruct s as [w st hr tr];
    destruct w as [o tm win par scr pw ph px py de wbi cfs wx wy w_ h_ dss cv ef hs tl];
    cbn.
  destruct (tl =? 0), cfs, (fullscreen o); cbn; repeat split;
    apply in_or_app; right; left; reflexivity.
Qed.

(** What the whole reconfiguration does to the fields the first part and
    the letterbox leave alone. *)
Lemma reinit_window_state_frame os ev s :
  let s' := reinit_window_state os ev s in
  window_bounds_initialized (w32 s') = window_bounds_initialized (w32 s) /\
  disable_screensaver (w32 s') = disable_screensaver (w32 s) /\
  event_flags (w32 s') =
    (if parent (w32 s) =? 0
     then Z.lor (event_flags (w32 s)) (Int32.uwrap ev)
     else event_flags (w32 s)).
Proof.
  unfold reinit_window_state.
  destruct (parent (w32 s) =? 0); [|repeat split]. cbn [negb].
  pose proof (reinit_bounds_mode os s) as H. cbv zeta in H.
  destruct (reinit_bounds os s) as [[[[[s1 layer] cr] r] sw] sh].
  cbn [fst] in H. destruct H as (_ & _ & He & Hi & Hd & _).
  destruct (larger_than_screen s1 cr r sw sh).
  - pose proof (letterbox_frame os s1 cr r sw sh) as L. cbv zeta in L.
    destruct (letterbox os s1 cr r sw sh) as [s2 r2]. cbn [fst] in L.
    destruct L as (_ & Le & _ & Li & Ld & _). cbn. repeat split; congruence.
  - cbn. repeat split; congruence.
Qed.

(** X11.  After a reconfiguration of a window of its own, the frame bits of
    the native window's style are all set if a border is wanted and
    fullscreen is not, and all clear otherwise; every other bit of the style
    is as it was, and the style has been handed to the window. *)
Theorem X11_reinit_window_state_style :
  forall (os : desktop) (VO_EVENT_RESIZE : Z) (s : gui),
    let s' := reinit_window_state os VO_EVENT_RESIZE s in
    parent (w32 s) = 0 ->
    0 <= hwnd_style s < 2 ^ 32 ->
    Z.land (hwnd_style s') FRAME =
      (if border (opts (w32 s)) && negb (fullscreen (opts (w32 s)))
       then FRAME else 0) /\
    Z.ldiff (hwnd_style s') FRAME = Z.ldiff (hwnd_style s) FRAME /\
    0 <= hwnd_style s' < 2 ^ 32 /\
    In (SetWindowLong_GWL_STYLE (window (w32 s)) (hwnd_style s')) (trace s').
Proof.
  intros os ev s s' Hp Hs.
  pose proof (reinit_bounds_mode os s) as H. cbv zeta in H.
  subst s'. unfold reinit_window_state. rewrite Hp. cbn [Z.eqb negb].
  destruct (reinit_bounds os s) as [[[[[s1 layer] cr] r] sw] sh].
  cbn [fst] in H. destruct H as (_ & _ & _ & _ & _ & Hst & Hin).
  assert (E : forall s2 r2,
    (s2, r2) = (if larger_than_screen s1 cr r sw sh
                then letterbox os s1 cr r sw sh else (s1, r)) ->
    hwnd_style s2 = hwnd_style s1 /\
    exists t, trace s2 = trace s1 ++ t).
  { intros s2 r2 E. destruct (larger_than_screen s1 cr r sw sh).
    - pose proof (letterbox_frame os s1 cr r sw sh) as L. cbv zeta in L.
      rewrite <- E in L. cbn [fst] in L.
      destruct L as (L1 & _ & _ & _ & _ & t & Lt). split; [exact L1|eauto].
    - injection E as -> ->. split; [reflexivity|exists []; now rewrite app_nil_r]. }
  destruct (if larger_than_screen s1 cr r sw sh
            then letterbox os s1 cr r sw sh else (s1, r)) as [s2 r2].
  destruct (E s2 r2 eq_refl) as (Hst2 & t & Ht).
  cbn [signal_events set_window_pos MP_VERBOSE emit upd hwnd_style trace w32].
  rewrite Hst2, Hst.
  pose proof (update_style_frame
                (with_current_fs (fullscreen (opts (w32 s))) (w32 s))
                (hwnd_style s) Hs) as [F1 F2].
  cbn [with_current_fs opts border current_fs] in F1.
  repeat split.
  - exact F1.
  - exact F2.
  - now apply update_style_range.
  - now apply update_style_range.
  - rewrite Ht, <- Hst. repeat (apply in_or_app; left). exact Hin.
Qed.

Lemma X11_witness :
  Z.land (hwnd_style (reinit_window_state Sample.os Sample.VO_EVENT_RESIZE
                        (request_fullscreen true
                           (Sample.windowed true 100 100 800 600)))) FRAME
  = 0.
Proof.
  destruct (X11_reinit_window_state_style Sample.os Sample.VO_EVENT_RESIZE
              (request_fullscreen true (Sample.windowed true 100 100 800 600)))
    as (H & _).
  - reflexivity.
  - vm_compute. split; [discriminate|reflexivity].
  - rewrite H. reflexivity.
Defined.

(** A reconfiguration that does not find the window larger than the screen
    keeps the struct of the first part but for the event flags, and hands
    the bordered client rectangle to the native window. *)
Lemma reinit_window_state_fits os ev s :
  parent (w32 s) = 0 ->
  finds_larger_than_screen os s = false ->
  let s1 := fst (fst (fst (fst (fst (reinit_bounds os s))))) in
  let s' := reinit_window_state os ev s in
  let r := add_window_borders os s1 (client_rect (w32 s1)) in
  w32 s' = with_event_flags (Z.lor (event_flags (w32 s1)) (Int32.uwrap ev)) (w32 s1) /\
  hwnd_style s' = hwnd_style s1 /\
  (RECT_in_range r -> hwnd_rect s' = r).
Proof.
  intros Hp Hfit. unfold finds_larger_than_screen in Hfit.
  unfold reinit_window_state. rewrite Hp. cbn [Z.eqb negb].
  pose proof (reinit_bounds_rect os s) as Hr.
  destruct (reinit_bounds os s) as [[[[[s1 layer] cr] r] sw] sh].
  destruct (Hr _ _ _ _ _ _ eq_refl) as [-> ->].
  rewrite Hfit. cbn [fst]. split; [reflexivity|]. split; [reflexivity|].
  intros (H1 & H2 & H3 & H4).
  cbn [signal_events set_window_pos MP_VERBOSE emit upd hwnd_rect w32 hwnd_style].
  fold (client_rect (w32 s1)).
  rewrite !Int32_add_sub_cancel by assumption.
  now destruct (add_window_borders os s1 (client_rect (w32 s1))).
Qed.

Lemma fullscreen_fits os s :
  fullscreen (opts (w32 s)) = true -> finds_larger_than_screen os s = false.
Proof.
  intros Hfs. unfold finds_larger_than_screen.
  pose proof (reinit_bounds_mode os s) as H. cbv zeta in H.
  destruct (reinit_bounds os s) as [[[[[s1 layer] cr] r] sw] sh].
  cbn [fst] in H. destruct H as (H & _).
  unfold larger_than_screen. now rewrite H, Hfs.
Qed.

(** X12.  With fullscreen requested, a reconfiguration always ends with the
    client area exactly on the screen rectangle it has chosen: the window is
    never treated as larger than the screen, and the native window gets this
    rectangle with the borders of its style. *)
Theorem X12_reinit_window_state_fullscreen :
  forall (os : desktop) (VO_EVENT_RESIZE : Z) (s : gui),
    let s' := reinit_window_state os VO_EVENT_RESIZE s in
    let rc := screenrc (w32 s') in
    let screen := mkRECT (x0 rc) (y0 rc)
                    (Int32.add (x0 rc) (Int32.sub (x1 rc) (x0 rc)))
                    (Int32.add (y0 rc) (Int32.sub (y1 rc) (y0 rc))) in
    parent (w32 s) = 0 ->
    fullscreen (opts (w32 s)) = true ->
    current_fs (w32 s') = true /\
    bounds (w32 s') =
      (x0 rc, y0 rc, Int32.sub (x1 rc) (x0 rc), Int32.sub (y1 rc) (y0 rc)) /\
    (RECT_in_range (AdjustWindowRect os (hwnd_style s') screen) ->
     hwnd_rect s' = AdjustWindowRect os (hwnd_style s') screen).
Proof.
  intros os ev s s' rc screen Hp Hfs.
  pose proof (reinit_window_state_fits os ev s Hp (fullscreen_fits os s Hfs)) as H.
  pose proof (reinit_bounds_mode os s) as M.
  cbv zeta in H, M. fold s' in H.
  set (s1 := fst (fst (fst (fst (fst (reinit_bounds os s)))))) in *.
  clearbody s1 s'.
  destruct H as (Hw & Hst & Hrect). destruct M as (Mfs & Mb & _).
  rewrite Hfs in Mb, Mfs.
  assert (Erc : rc = screenrc (w32 s1)) by (subst rc; now rewrite Hw).
  assert (Eb : bounds (w32 s') = bounds (w32 s1)) by now rewrite Hw.
  rewrite <- Erc in Mb.
  split; [now rewrite Hw|]. split; [congruence|].
  intros Hin.
  assert (Ec : client_rect (w32 s1) = screen).
  { unfold client_rect, screen. unfold bounds in Mb.
    injection Mb as -> -> -> ->. reflexivity. }
  unfold add_window_borders in Hrect. rewrite Ec, <- Hst in Hrect.
  now apply Hrect.
Qed.

Lemma X12_witness :
  bounds (w32 (reinit_window_state Sample.os Sample.VO_EVENT_RESIZE
                 (request_fullscreen true (Sample.windowed true 0 0 3000 2000))))
  = (0, 0, 1920, 1080).
Proof.
  destruct (X12_reinit_window_state_fullscreen Sample.os Sample.VO_EVENT_RESIZE
              (request_fullscreen true (Sample.windowed true 0 0 3000 2000)))
    as (_ & Hb & _).
  - reflexivity.
  - reflexivity.
  - rewrite Hb. vm_compute. reflexivity.
Defined.

(** A windowed window that stays windowed and is not found larger than the
    screen keeps its bounds. *)
Lemma reinit_window_state_keeps_bounds os ev s :
  parent (w32 s) = 0 ->
  current_fs (w32 s) = false ->
  fullscreen (opts (w32 s)) = false ->
  finds_larger_than_screen os s = false ->
  let s1 := fst (fst (fst (fst (fst (reinit_bounds os s))))) in
  bounds (w32 (reinit_window_state os ev s)) = bounds (w32 s) /\
  bounds (w32 s1) = bounds (w32 s).
Proof.
  intros Hp Hcur Hfs Hfit.
  pose proof (reinit_window_state_fits os ev s Hp Hfit) as H.
  pose proof (reinit_bounds_mode os s) as M.
  cbv zeta in H, M |- *.
  set (s1 := fst (fst (fst (fst (fst (reinit_bounds os s)))))) in *.
  clearbody s1.
  destruct H as (Hw & _). destruct M as (_ & Mb & _).
  rewrite Hfs, Hcur in Mb. rewrite Hw. split; exact Mb.
Qed.

(** X13.  Reconfiguring a windowed window that stays windowed and is not
    found larger than the screen (as --ontop and --border do) moves nothing:
    the bounds and the saved bounds are as before, and the native window
    gets the same client rectangle with the borders of its new style. *)
Theorem X13_reinit_window_state_windowed :
  forall (os : desktop) (VO_EVENT_RESIZE : Z) (s : gui),
    let s' := reinit_window_state os VO_EVENT_RESIZE s in
    parent (w32 s) = 0 ->
    current_fs (w32 s) = false ->
    fullscreen (opts (w32 s)) = false ->
    finds_larger_than_screen os s = false ->
    bounds (w32 s') = bounds (w32 s) /\
    prev_bounds (w32 s') = prev_bounds (w32 s) /\
    current_fs (w32 s') = false /\
    (RECT_in_range (add_window_borders os s' (client_rect (w32 s))) ->
     hwnd_rect s' = add_window_borders os s' (client_rect (w32 s))).
Proof.
  intros os ev s s' Hp Hcur Hfs Hfit.
  pose proof (reinit_window_state_fits os ev s Hp Hfit) as H.
  pose proof (reinit_window_state_keeps_bounds os ev s Hp Hcur Hfs Hfit) as B.
  pose proof (reinit_window_state_prev_bounds os ev s) as P.
  pose proof (reinit_window_state_current_fs os ev s Hp) as K.
  cbv zeta in H, B. fold s' in H, P, B, K.
  set (s1 := fst (fst (fst (fst (fst (reinit_bounds os s)))))) in *.
  clearbody s1 s'.
  destruct H as (Hw & Hst & Hrect). destruct B as (B1 & B2).
  rewrite Hfs, andb_false_r in P.
  split; [exact B1|]. split; [exact P|]. split; [congruence|].
  assert (Ec : client_rect (w32 s1) = client_rect (w32 s)).
  { unfold client_rect. unfold bounds in B2. now injection B2 as -> -> -> ->. }
  unfold add_window_borders in *. rewrite Ec, <- Hst in Hrect. exact Hrect.
Qed.

Lemma X13_witness :
  bounds (w32 (reinit_window_state Sample.os Sample.VO_EVENT_RESIZE
                 (upd (with_opts (mk_opts false false true true (-1) (-1)))
                    (Sample.windowed true 100 100 800 600))))
  = (100, 100, 800, 600).
Proof.
  apply (X13_reinit_window_state_windowed Sample.os Sample.VO_EVENT_RESIZE
           (upd (with_opts (mk_opts false false true true (-1) (-1)))
              (Sample.windowed true 100 100 800 600)));
    vm_compute; reflexivity.
Defined.

(** ** Control requests *)

Lemma reinit_window_state_keeps_fs os ev s :
  current_fs (w32 s) = fullscreen (opts (w32 s)) ->
  current_fs (w32 (reinit_window_state os ev s)) = current_fs (w32 s).
Proof.
  intros H. destruct (Z.eqb_spec (parent (w32 s)) 0) as [E|N].
  - rewrite reinit_window_state_current_fs by exact E. now symmetry.
  - unfold reinit_window_state.
    destruct (Z.eqb_spec (parent (w32 s)) 0); [contradiction|reflexivity].
Qed.

(** X14.  While fullscreen, VOCTRL_SET_UNFS_WINDOW_SIZE changes only the
    saved bounds: VOCTRL_GET_UNFS_WINDOW_SIZE then returns the size just
    set, the window stays fullscreen, and the saved position has moved so
    that the centre of the saved bounds is where it was. *)
Theorem X14_set_unfs_window_size_fullscreen :
  forall (os : desktop) (VO_EVENT_RESIZE : Z) (s : gui) (w h : Z) (arg : Z * Z),
    window_bounds_initialized (w32 s) = true ->
    current_fs (w32 s) = true ->
    fullscreen (opts (w32 s)) = true ->
    let '(ret, _, s1) :=
      gui_thread_control os VO_EVENT_RESIZE s VOCTRL_SET_UNFS_WINDOW_SIZE (w, h) in
    ret = VO_TRUE /\
    gui_thread_control os VO_EVENT_RESIZE s1 VOCTRL_GET_UNFS_WINDOW_SIZE arg
      = (VO_TRUE, (w, h), s1) /\
    current_fs (w32 s1) = true /\
    (Z.abs (prev_x (w32 s)) <= 2 ^ 29 -> Z.abs (prev_width (w32 s)) <= 2 ^ 29 ->
     Z.abs w <= 2 ^ 29 ->
     prev_x (w32 s1) + Z.quot w 2
       = prev_x (w32 s) + Z.quot (prev_width (w32 s)) 2) /\
    (Z.abs (prev_y (w32 s)) <= 2 ^ 29 -> Z.abs (prev_height (w32 s)) <= 2 ^ 29 ->
     Z.abs h <= 2 ^ 29 ->
     prev_y (w32 s1) + Z.quot h 2
       = prev_y (w32 s) + Z.quot (prev_height (w32 s)) 2).
Proof.
  intros os ev s w h arg Hinit Hcur Hfs.
  cbn [gui_thread_control]. rewrite Hinit, Hcur. cbn [negb].
  match goal with |- context [reinit_window_state os ev ?x] => set (s0 := x) end.
  assert (Hcur0 : current_fs (w32 s0) = true) by exact Hcur.
  assert (Hfs0 : fullscreen (opts (w32 s0)) = true) by exact Hfs.
  assert (Hinit0 : window_bounds_initialized (w32 s0) = true) by exact Hinit.
  pose proof (reinit_window_state_prev_bounds os ev s0) as P.
  rewrite Hcur0 in P. cbn [negb] in P. rewrite andb_false_r in P. cbn [andb] in P.
  pose proof (reinit_window_state_keeps_fs os ev s0 ltac:(congruence)) as K.
  pose proof (reinit_window_state_frame os ev s0) as (I & _).
  rewrite Hcur0 in K. rewrite Hinit0 in I.
  unfold prev_bounds in P. injection P as Px Py Pw Ph.
  split; [reflexivity|].
  split; [rewrite I, K; cbn [negb]; now rewrite Pw, Ph|].
  split; [exact K|].
  rewrite Px, Py. subst s0. cbn [w32 upd prev_x prev_y with_prev_x with_prev_y
    with_prev_width with_prev_height prev_width prev_height].
  split; intros A B C; no_wrap; lia.
Qed.

Lemma X14_witness :
  gui_thread_control Sample2.os Sample.VO_EVENT_RESIZE
    (snd (gui_thread_control Sample2.os Sample.VO_EVENT_RESIZE
            Sample2.fullscreen_window VOCTRL_SET_UNFS_WINDOW_SIZE (1280, 720)))
    VOCTRL_GET_UNFS_WINDOW_SIZE (0, 0)
  = (VO_TRUE, (1280, 720),
     snd (gui_thread_control Sample2.os Sample.VO_EVENT_RESIZE
            Sample2.fullscreen_window VOCTRL_SET_UNFS_WINDOW_SIZE (1280, 720))).
Proof.
  pose proof (X14_set_unfs_window_size_fullscreen Sample2.os
                Sample.VO_EVENT_RESIZE Sample2.fullscreen_window 1280 720 (0, 0)
                eq_refl eq_refl eq_refl) as H.
  destruct (gui_thread_control Sample2.os Sample.VO_EVENT_RESIZE
              Sample2.fullscreen_window VOCTRL_SET_UNFS_WINDOW_SIZE (1280, 720))
    as [[ret a] s1].
  destruct H as (_ & H & _). exact H.
Defined.

Lemma reinit_window_state_logs_larger os ev s :
  parent (w32 s) = 0 ->
  finds_larger_than_screen os s = true ->
  In (mp_msg MSGL_V "requested window size larger than the screen\n" [])
     (trace (reinit_window_state os ev s)).
Proof.
  intros Hp Hl. unfold finds_larger_than_screen in Hl.
  unfold reinit_window_state. rewrite Hp. cbn [Z.eqb negb].
  destruct (reinit_bounds os s) as [[[[[s1 layer] cr] r] sw] sh].
  rewrite Hl.
  pose proof (letterbox_frame os s1 cr r sw sh) as L. cbv zeta in L.
  destruct (letterbox os s1 cr r sw sh) as [s2 r2]. cbn [fst] in L.
  destruct L as (_ & _ & _ & _ & _ & t & T).
  cbn [signal_events set_window_pos MP_VERBOSE emit upd trace].
  rewrite T. repeat rewrite in_app_iff. cbn [In]. auto 10.
Qed.

(** X15.  VOCTRL_SET_UNFS_WINDOW_SIZE on a windowed window of its own
    either gives the client area exactly the size asked for, moving it so
    that its centre stays where it was, or logs that the requested size is
    larger than the screen. *)
Theorem X15_set_unfs_window_size_windowed :
  forall (os : desktop) (VO_EVENT_RESIZE : Z) (s : gui) (w h : Z),
    window_bounds_initialized (w32 s) = true ->
    current_fs (w32 s) = false ->
    fullscreen (opts (w32 s)) = false ->
    parent (w32 s) = 0 ->
    let '(ret, _, s1) :=
      gui_thread_control os VO_EVENT_RESIZE s VOCTRL_SET_UNFS_WINDOW_SIZE (w, h) in
    ret = VO_TRUE /\
    (In (mp_msg MSGL_V "requested window size larger than the screen\n" [])
        (trace s1) \/
     (dw (w32 s1) = w /\ dh (w32 s1) = h /\
      (Z.abs (window_x (w32 s)) <= 2 ^ 29 -> Z.abs (dw (w32 s)) <= 2 ^ 29 ->
       Z.abs w <= 2 ^ 29 ->
       window_x (w32 s1) + Z.quot w 2 = window_x (w32 s) + Z.quot (dw (w32 s)) 2) /\
      (Z.abs (window_y (w32 s)) <= 2 ^ 29 -> Z.abs (dh (w32 s)) <= 2 ^ 29 ->
       Z.abs h <= 2 ^ 29 ->
       window_y (w32 s1) + Z.quot h 2 = window_y (w32 s) + Z.quot (dh (w32 s)) 2))).
Proof.
  intros os ev s w h Hinit Hcur Hfs Hp.
  cbn [gui_thread_control]. rewrite Hinit, Hcur. cbn [negb].
  match goal with |- context [reinit_window_state os ev ?x] => set (s0 := x) end.
  split; [reflexivity|].
  destruct (finds_larger_than_screen os s0) eqn:Hl.
  - left. apply reinit_window_state_logs_larger; [exact Hp|exact Hl].
  - right.
    pose proof (reinit_window_state_keeps_bounds os ev s0 Hp Hcur Hfs Hl) as (Hb & _).
    unfold bounds in Hb. injection Hb as Hx Hy Hw Hh.
    rewrite Hx, Hy, Hw, Hh. subst s0.
    cbn [w32 upd window_x window_y with_window_x with_window_y with_dw with_dh dw dh].
    split; [reflexivity|]. split; [reflexivity|].
    split; intros A B C; no_wrap; lia.
Qed.

Lemma X15_witness :
  fst (fst (gui_thread_control Sample.os Sample.VO_EVENT_RESIZE
              (Sample.windowed true 100 100 800 600)
              VOCTRL_SET_UNFS_WINDOW_SIZE (1280, 720)))
  = VO_TRUE.
Proof.
  pose proof (X15_set_unfs_window_size_windowed Sample.os Sample.VO_EVENT_RESIZE
                (Sample.windowed true 100 100 800 600) 1280 720
                eq_refl eq_refl eq_refl eq_refl) as H.
  destruct (gui_thread_control Sample.os Sample.VO_EVENT_RESIZE
              (Sample.windowed true 100 100 800 600)
              VOCTRL_SET_UNFS_WINDOW_SIZE (1280, 720)) as [[ret a] s1].
  exact (proj1 H).
Defined.

(** X16.  After a windowed window has entered fullscreen,
    VOCTRL_GET_UNFS_WINDOW_SIZE returns the size the client area had before:
    the size it will have again when fullscreen is left. *)
Theorem X16_unfs_window_size_after_entering_fullscreen :
  forall (os : desktop) (VO_EVENT_RESIZE : Z) (s : gui) (arg : Z * Z),
    window_bounds_initialized (w32 s) = true ->
    current_fs (w32 s) = false ->
    parent (w32 s) = 0 ->
    let s1 := set_fullscreen os VO_EVENT_RESIZE true s in
    current_fs (w32 s1) = true /\
    gui_thread_control os VO_EVENT_RESIZE s1 VOCTRL_GET_UNFS_WINDOW_SIZE arg
      = (VO_TRUE, (dw (w32 s), dh (w32 s)), s1).
Proof.
  intros os ev s arg Hinit Hcur Hp s1.
  set (s0 := request_fullscreen true s).
  assert (Hcur0 : current_fs (w32 s0) = false) by exact Hcur.
  assert (Hfs0 : fullscreen (opts (w32 s0)) = true) by reflexivity.
  assert (Hp0 : parent (w32 s0) = 0) by exact Hp.
  assert (Hinit0 : window_bounds_initialized (w32 s0) = true) by exact Hinit.
  assert (E : s1 = reinit_window_state os ev s0).
  { subst s1. unfold set_fullscreen. fold s0. cbn [gui_thread_control snd].
    now rewrite Hfs0, Hcur0. }
  pose proof (reinit_window_state_prev_bounds os ev s0) as P.
  rewrite Hp0, Hcur0, Hfs0 in P. cbn [Z.eqb negb andb] in P.
  pose proof (reinit_window_state_current_fs os ev s0 Hp0) as K.
  pose proof (reinit_window_state_frame os ev s0) as (I & _).
  rewrite Hfs0 in K. rewrite Hinit0 in I.
  rewrite <- E in P, K, I. clearbody s1.
  split; [exact K|].
  cbn [gui_thread_control]. rewrite I, K. cbn [negb].
  unfold prev_bounds, bounds in P. injection P as _ _ Pw Ph.
  rewrite Pw, Ph. reflexivity.
Qed.

Lemma X16_witness :
  fst (gui_thread_control Sample.os Sample.VO_EVENT_RESIZE
         (set_fullscreen Sample.os Sample.VO_EVENT_RESIZE true
            (Sample.windowed true 100 100 800 600))
         VOCTRL_GET_UNFS_WINDOW_SIZE (0, 0))
  = (VO_TRUE, (800, 600)).
Proof.
  destruct (X16_unfs_window_size_after_entering_fullscreen Sample.os
              Sample.VO_EVENT_RESIZE (Sample.windowed true 100 100 800 600) (0, 0)
              eq_refl eq_refl eq_refl) as (_ & H).
  rewrite H. reflexivity.
Defined.

(** ** Events handed to the caller *)

Lemma gui_thread_control_event_flags os ev s request arg :
  modelled_request request ->
  let s' := snd (gui_thread_control os ev s request arg) in
  event_flags (w32 s') = event_flags (w32 s) \/
  event_flags (w32 s') = Z.lor (event_flags (w32 s)) (Int32.uwrap ev).
Proof.
  intros Hm.
  assert (R : forall s0, event_flags (w32 s0) = event_flags (w32 s) ->
    event_flags (w32 (reinit_window_state os ev s0)) = event_flags (w32 s) \/
    event_flags (w32 (reinit_window_state os ev s0))
      = Z.lor (event_flags (w32 s)) (Int32.uwrap ev)).
  { intros s0 H0.
    destruct (reinit_window_state_frame os ev s0) as (_ & _ & ->). rewrite H0.
    destruct (parent (w32 s0) =? 0); [right|left]; reflexivity. }
  destruct request; cbn [gui_thread_control snd]; try (left; reflexivity).
  - destruct (negb (Bool.eqb _ _)); [now apply R|left; reflexivity].
  - now apply R.
  - now apply R.
  - destruct (negb (window_bounds_initialized (w32 s)));
      [|destruct (current_fs (w32 s))]; left; reflexivity.
  - destruct arg as [a0 a1].
    destruct (negb (window_bounds_initialized (w32 s))); [left; reflexivity|].
    cbn [snd]. apply R. destruct (current_fs (w32 s)); reflexivity.
Qed.

Lemma testbit_wrap z n : 0 <= n < 32 -> Z.testbit (Int32.wrap z) n = Z.testbit z n.
Proof.
  intros Hn.
  rewrite <- (Z.mod_pow2_bits_low (Int32.wrap z) 32 n) by lia.
  rewrite <- (Z.mod_pow2_bits_low z 32 n) by lia.
  f_equal. unfold Int32.wrap, Int32.modulus.
  Z.to_euclidean_division_equations. lia.
Qed.

Lemma testbit_uwrap z n : 0 <= n < 32 -> Z.testbit (Int32.uwrap z) n = Z.testbit z n.
Proof.
  intros Hn. unfold Int32.uwrap, Int32.modulus.
  apply Z.mod_pow2_bits_low. lia.
Qed.

(** [do_control] empties the event flags into [*events]. *)
Lemma do_control_events os ev v events request arg :
  modelled_request request ->
  let '(_, _, events', v') := do_control os ev v events request arg in
  event_flags (w32 (vo_w32 v')) = 0 /\
  Int32.in_range events' /\
  (forall n, 0 <= n < 32 ->
     Z.testbit events n = true \/
     Z.testbit (event_flags (w32 (vo_w32 v))) n = true ->
     Z.testbit events' n = true) /\
  (Z.land events' ev <> 0 ->
   dwidth v' = dw (w32 (vo_w32 v')) /\ dheight v' = dh (w32 (vo_w32 v'))).
Proof.
  intros Hm. unfold do_control.
  pose proof (gui_thread_control_event_flags os ev (vo_w32 v) request arg Hm) as F.
  cbv zeta in F.
  destruct (gui_thread_control os ev (vo_w32 v) request arg) as [[ret arg'] s1].
  cbn [snd] in F. cbn [fetch_and_clear_event_flags].
  set (ev' := Int32.wrap (Z.lor (Int32.uwrap events) (event_flags (w32 s1)))).
  assert (Hbits : forall n, 0 <= n < 32 ->
            Z.testbit events n = true \/
            Z.testbit (event_flags (w32 (vo_w32 v))) n = true ->
            Z.testbit ev' n = true).
  { intros n Hn H. subst ev'.
    rewrite testbit_wrap, Z.lor_spec, testbit_uwrap by exact Hn.
    destruct H as [H|H]; [now rewrite H|].
    destruct F as [-> | ->]; [|rewrite Z.lor_spec]; rewrite H;
      now rewrite ?orb_true_r. }
  destruct (Z.eqb_spec (Z.land ev' ev) 0) as [E|N]; cbn [negb];
    (split; [reflexivity|]); (split; [apply Int32_wrap_range|]);
    (split; [exact Hbits|]); intros H; [contradiction|split; reflexivity].
Qed.

(** X17.  For VOCTRL_CHECK_EVENTS and for each request whose case is
    modelled (fullscreen, ontop, border, getting and setting the windowed
    size, killing and restoring the screensaver), [vo_w32_control] hands
    every event pending in the GUI thread to the caller and leaves none
    behind: each bit set in the event flags, and each bit already set in
    [*events], is set in [*events] afterwards, and the flags are then zero.
    If the resize bit is among them, the size in the [vo] is the size of the
    client area. *)
Theorem X17_vo_w32_control_reports_pending_events :
  forall (os : desktop) (VO_EVENT_RESIZE VOCTRL_CHECK_EVENTS : Z)
         (v : vo) (events : Z) (request : voctrl) (arg : Z * Z),
    modelled_request request \/ request = VOCTRL_other VOCTRL_CHECK_EVENTS ->
    let '(_, _, events', v') :=
      vo_w32_control os VO_EVENT_RESIZE VOCTRL_CHECK_EVENTS v events request arg in
    event_flags (w32 (vo_w32 v')) = 0 /\
    Int32.in_range events' /\
    (forall n, 0 <= n < 32 ->
       Z.testbit events n = true \/
       Z.testbit (event_flags (w32 (vo_w32 v))) n = true ->
       Z.testbit events' n = true) /\
    (Z.land events' VO_EVENT_RESIZE <> 0 ->
     dwidth v' = dw (w32 (vo_w32 v')) /\ dheight v' = dh (w32 (vo_w32 v'))).
Proof.
  intros os ev chk v events request arg Hreq. unfold vo_w32_control.
  destruct Hreq as [Hm | ->].
  - assert (E : match request with VOCTRL_other r => r =? chk | _ => false end
                = false) by (destruct request; try reflexivity; contradiction).
    rewrite E. now apply do_control_events.
  - rewrite Z.eqb_refl. cbn [fetch_and_clear_event_flags].
    set (ev' := Int32.wrap
                  (Z.lor (Int32.uwrap events) (event_flags (w32 (vo_w32 v))))).
    assert (Hbits : forall n, 0 <= n < 32 ->
              Z.testbit events n = true \/
              Z.testbit (event_flags (w32 (vo_w32 v))) n = true ->
              Z.testbit ev' n = true).
    { intros n Hn H. subst ev'.
      rewrite testbit_wrap, Z.lor_spec, testbit_uwrap by exact Hn.
      destruct H as [H|H]; rewrite H; now rewrite ?orb_true_r. }
    destruct (Z.eqb_spec (Z.land ev' ev) 0) as [E|N]; cbn [negb];
      (split; [reflexivity|]); (split; [apply Int32_wrap_range|]);
      (split; [exact Hbits|]); intros H; [contradiction|split; reflexivity].
Qed.

Lemma X17_witness :
  event_flags
    (w32 (vo_w32 (snd (vo_w32_control Sample.os Sample.VO_EVENT_RESIZE
                         Sample2.VOCTRL_CHECK_EVENTS
                         (mk_vo (signal_events 6
                                   (Sample.windowed true 100 100 800 600)) 0 0)
                         1 (VOCTRL_other Sample2.VOCTRL_CHECK_EVENTS) (0, 0)))))
  = 0 /\
  snd (fst (vo_w32_control Sample.os Sample.VO_EVENT_RESIZE
              Sample2.VOCTRL_CHECK_EVENTS
              (mk_vo (signal_events 6
                        (Sample.windowed true 100 100 800 600)) 0 0)
              1 (VOCTRL_other Sample2.VOCTRL_CHECK_EVENTS) (0, 0)))
  = 7.
Proof.
  pose proof (X17_vo_w32_control_reports_pending_events Sample.os
                Sample.VO_EVENT_RESIZE Sample2.VOCTRL_CHECK_EVENTS
                (mk_vo (signal_events 6
                          (Sample.windowed true 100 100 800 600)) 0 0)
                1 (VOCTRL_other Sample2.VOCTRL_CHECK_EVENTS) (0, 0)
                (or_intror eq_refl)) as H.
  destruct (vo_w32_control Sample.os Sample.VO_EVENT_RESIZE
              Sample2.VOCTRL_CHECK_EVENTS
              (mk_vo (signal_events 6
                        (Sample.windowed true 100 100 800 600)) 0 0)
              1 (VOCTRL_other Sample2.VOCTRL_CHECK_EVENTS) (0, 0))
    as [[[ret a] e] v'] eqn:E.
  cbn [fst snd]. split; [exact (proj1 H)|].
  apply (f_equal (fun r => snd (fst r))) in E. cbn [fst snd] in E.
  rewrite <- E. vm_compute. reflexivity.
Defined.

(** X18.  VOCTRL_ONTOP and VOCTRL_BORDER on a window of its own always
    report a resize to the caller, and the size in the [vo] is then the size
    of the client area. *)
Theorem X18_vo_w32_control_resize :
  forall (os : desktop) (VO_EVENT_RESIZE VOCTRL_CHECK_EVENTS : Z)
         (v : vo) (events : Z) (request : voctrl) (arg : Z * Z),
    parent (w32 (vo_w32 v)) = 0 ->
    0 < VO_EVENT_RESIZE < 2 ^ 31 ->
    request = VOCTRL_ONTOP \/ request = VOCTRL_BORDER ->
    let '(ret, _, events', v') :=
      vo_w32_control os VO_EVENT_RESIZE VOCTRL_CHECK_EVENTS v events request arg in
    ret = VO_TRUE /\
    Z.land events' VO_EVENT_RESIZE = VO_EVENT_RESIZE /\
    dwidth v' = dw (w32 (vo_w32 v')) /\ dheight v' = dh (w32 (vo_w32 v')).
Proof.
  intros os ev chk v events request arg Hp Hev Hreq.
  assert (E : vo_w32_control os ev chk v events request arg
              = do_control os ev v events request arg)
    by (destruct Hreq; subst; reflexivity).
  rewrite E. unfold do_control.
  assert (E' : gui_thread_control os ev (vo_w32 v) request arg
               = (VO_TRUE, arg, reinit_window_state os ev (vo_w32 v)))
    by (destruct Hreq; subst; reflexivity).
  rewrite E'. cbn [fetch_and_clear_event_flags].
  destruct (reinit_window_state_frame os ev (vo_w32 v)) as (_ & _ & ->).
  rewrite Hp. cbn [Z.eqb].
  set (ev' := Int32.wrap _).
  assert (L : Z.land ev' ev = ev).
  { apply Z.bits_inj'. intros n Hn. rewrite Z.land_spec.
    destruct (Z_lt_le_dec n 32) as [Lt|Ge].
    - subst ev'. rewrite testbit_wrap, !Z.lor_spec, !testbit_uwrap by lia.
      destruct (Z.testbit ev n); [|apply andb_false_r].
      now rewrite !orb_true_r.
    - rewrite (above_pow2 ev 32 n) by lia. apply andb_false_r. }
  rewrite L.
  destruct (Z.eqb_spec ev 0) as [E0|N0]; [lia|].
  cbn [negb]. repeat split. exact L.
Qed.

Lemma X18_witness :
  fst (fst (fst (vo_w32_control Sample.os Sample.VO_EVENT_RESIZE
                   Sample2.VOCTRL_CHECK_EVENTS
                   (mk_vo (Sample.windowed true 100 100 800 600) 0 0) 0
                   VOCTRL_ONTOP (0, 0))))
  = VO_TRUE.
Proof.
  pose proof (X18_vo_w32_control_resize Sample.os Sample.VO_EVENT_RESIZE
                Sample2.VOCTRL_CHECK_EVENTS
                (mk_vo (Sample.windowed true 100 100 800 600) 0 0) 0
                VOCTRL_ONTOP (0, 0) eq_refl
                ltac:(unfold Sample.VO_EVENT_RESIZE; lia)
                (or_introl eq_refl)) as H.
  destruct (vo_w32_control Sample.os Sample.VO_EVENT_RESIZE
              Sample2.VOCTRL_CHECK_EVENTS
              (mk_vo (Sample.windowed true 100 100 800 600) 0 0) 0
              VOCTRL_ONTOP (0, 0)) as [[[ret a] e] v'].
  exact (proj1 H).
Defined.

(** ** Embedded windows *)

(** X19.  None of the requests whose case is modelled (fullscreen, ontop,
    border, getting and setting the windowed size, killing and restoring the
    screensaver) makes the code restyle or move a window that is embedded in
    another (--wid): the style and rectangle of the native window, the mode
    and the event flags are as before, and the only call that can have been
    made is the one that sets the thread execution state. *)
Theorem X19_embedded_window_left_alone :
  forall (os : desktop) (VO_EVENT_RESIZE : Z) (s : gui) (request : voctrl)
         (arg : Z * Z),
    modelled_request request ->
    parent (w32 s) <> 0 ->
    let s' := snd (gui_thread_control os VO_EVENT_RESIZE s request arg) in
    hwnd_style s' = hwnd_style s /\ hwnd_rect s' = hwnd_rect s /\
    current_fs (w32 s') = current_fs (w32 s) /\
    event_flags (w32 s') = event_flags (w32 s) /\
    forall e, In e (trace s') -> In e (trace s) \/
      exists a b c, e = SetThreadExecutionState a b c.
Proof.
  intros os ev s request arg Hm Hp.
  assert (R : forall s0, parent (w32 s0) = parent (w32 s) ->
                reinit_window_state os ev s0 = s0).
  { intros s0 H0. unfold reinit_window_state. rewrite H0.
    destruct (Z.eqb_spec (parent (w32 s)) 0); [contradiction|reflexivity]. }
  destruct request; cbn [gui_thread_control snd]; cbv zeta.
  - destruct (negb (Bool.eqb _ _)); rewrite ?R by reflexivity; repeat split; auto.
  - rewrite R by reflexivity. repeat split; auto.
  - rewrite R by reflexivity. repeat split; auto.
  - destruct (negb (window_bounds_initialized (w32 s))); cbn [snd];
      repeat split; auto.
  - destruct arg as [a0 a1].
    destruct (negb (window_bounds_initialized (w32 s))); [repeat split; auto|].
    cbn [snd]. rewrite R by (destruct (current_fs (w32 s)); reflexivity).
    destruct (current_fs (w32 s)) eqn:Ec; cbn; rewrite ?Ec; repeat split; auto.
  - repeat split. cbn. intros e He. apply in_app_or in He as [He|[<-|[]]]; eauto.
  - repeat split. cbn. intros e He. apply in_app_or in He as [He|[<-|[]]]; eauto.
  - contradiction.
Qed.

Lemma X19_witness :
  hwnd_rect (snd (gui_thread_control Sample.os Sample.VO_EVENT_RESIZE
                    Sample2.embedded VOCTRL_BORDER (0, 0)))
  = hwnd_rect Sample2.embedded.
Proof.
  apply (X19_embedded_window_left_alone Sample.os Sample.VO_EVENT_RESIZE
           Sample2.embedded VOCTRL_BORDER (0, 0)).
  - exact I.
  - vm_compute. discriminate.
Defined.

(** ** The screensaver *)

Lemma gui_thread_control_disable_screensaver os ev s request arg :
  modelled_request request ->
  disable_screensaver (w32 (snd (gui_thread_control os ev s request arg)))
  = screensaver_disabled (disable_screensaver (w32 s)) [(request, arg)].
Proof.
  intros Hm.
  assert (R : forall s0,
    disable_screensaver (w32 (reinit_window_state os ev s0))
    = disable_screensaver (w32 s0))
    by (intros s0; apply (reinit_window_state_frame os ev s0)).
  destruct request; cbn [gui_thread_control snd screensaver_disabled];
    rewrite ?R; try reflexivity.
  - destruct (negb (Bool.eqb _ _)); rewrite ?R; reflexivity.
  - destruct (negb (window_bounds_initialized (w32 s))); reflexivity.
  - destruct arg as [a0 a1].
    destruct (negb (window_bounds_initialized (w32 s))); [reflexivity|].
    cbn [snd]. rewrite R.
    destruct (current_fs (w32 s)); reflexivity.
Qed.

(** X20.  After any sequence of the requests whose case is modelled
    (fullscreen, ontop, border, getting and setting the windowed size,
    killing and restoring the screensaver), the window swallows the system's
    screensaver and monitor-power commands exactly when the last screensaver
    request among them was VOCTRL_KILL_SCREENSAVER (or, if there was none,
    when it did so before); none of the other five has a say. *)
Theorem X20_screensaver_held_off_after_last_request :
  forall (os : desktop) (VO_EVENT_RESIZE : Z) (s : gui)
         (reqs : list (voctrl * (Z * Z))) (wParam : Z),
    let s' := controls os VO_EVENT_RESIZE s reqs in
    Forall (fun q => modelled_request (fst q)) reqs ->
    wParam = Win32Ext.SC_SCREENSAVE \/ wParam = Win32Ext.SC_MONITORPOWER ->
    snd (WM_SYSCOMMAND_case s' wParam) =
      if screensaver_disabled (disable_screensaver (w32 s)) reqs
      then Some 0 else None.
Proof.
  intros os ev s reqs wParam s' Hall Hw.
  assert (D : disable_screensaver (w32 s')
              = screensaver_disabled (disable_screensaver (w32 s)) reqs).
  { subst s'. revert s.
    induction Hall as [|[request arg] rest Hm Hall IH]; intros s;
      [reflexivity|].
    cbn [controls]. cbn [fst] in Hm.
    rewrite IH, gui_thread_control_disable_screensaver by exact Hm.
    destruct request; reflexivity. }
  unfold WM_SYSCOMMAND_case. rewrite D.
  destruct Hw as [-> | ->]; cbn [Z.eqb orb];
    destruct (screensaver_disabled _ _); reflexivity.
Qed.

Lemma X20_witness :
  snd (WM_SYSCOMMAND_case
         (controls Sample.os Sample.VO_EVENT_RESIZE
            (Sample.windowed true 100 100 800 600)
            [(VOCTRL_KILL_SCREENSAVER, (0, 0)); (VOCTRL_ONTOP, (0, 0))])
         Win32Ext.SC_SCREENSAVE)
  = Some 0.
Proof.
  apply (X20_screensaver_held_off_after_last_request Sample.os
           Sample.VO_EVENT_RESIZE (Sample.windowed true 100 100 800 600)
           [(VOCTRL_KILL_SCREENSAVER, (0, 0)); (VOCTRL_ONTOP, (0, 0))]
           Win32Ext.SC_SCREENSAVE).
  - repeat constructor.
  - left. reflexivity.
Defined.

(** ** Refresh rate *)

Lemma trunc_of_long z : 0 <= z < 2 ^ 53 -> Double.trunc (Double.of_long z) = Some z.
Proof.
  intros Hz. destruct (Z.eq_dec z 0) as [->|N]; [reflexivity|].
  destruct (of_long_finite z ltac:(lia)) as (m & e & -> & Hm & He & Hv).
  cbn [Double.trunc]. f_equal.
  rewrite Hv, Z.shiftl_div_pow2 by lia.
  apply Z.div_mul. apply Z.pow_nonzero; lia.
Qed.

(** X21.  The integer part of the refresh rate that
    [get_refresh_rate_from_gdi] returns is the frequency the system
    reported, also for the frequencies it takes for NTSC rates and raises
    (23 to 24/1.001, and so on); only the frequency 1 is turned into 0, so
    that the result is never in the range from 1 up to 2. *)
Theorem X21_get_refresh_rate_from_gdi_floor :
  forall (freq : Z),
    0 <= freq < 2 ^ 32 ->
    Double.trunc (get_refresh_rate_from_gdi (Some freq))
      = Some (if freq =? 1 then 0 else freq).
Proof.
  intros freq Hf. unfold get_refresh_rate_from_gdi.
  destruct (Z.eqb_spec freq 1) as [E|N]; [reflexivity|].
  destruct (existsb (Z.eqb freq) [23; 29; 47; 59; 71; 89; 95; 119; 143]) eqn:Ex.
  - apply existsb_exists in Ex as (x & Hin & Hx).
    apply Z.eqb_eq in Hx. subst x.
    cbn [In] in Hin.
    repeat (destruct Hin as [<-|Hin]; [vm_compute; reflexivity|]).
    contradiction.
  - apply trunc_of_long. lia.
Qed.

Lemma X21_witness :
  Double.trunc (get_refresh_rate_from_gdi (Some 59)) = Some 59.
Proof.
  apply (X21_get_refresh_rate_from_gdi_floor 59). lia.
Defined.

(** ** Mouse messages *)

Lemma mouse_positions_app a b :
  mouse_positions (a ++ b) = mouse_positions a ++ mouse_positions b.
Proof.
  induction a as [|[e|[ | x y | h | n]] a IH]; cbn; rewrite ?IH; reflexivity.
Qed.

Lemma last_cons {A} (l : list A) b d : last (b :: l) d = last l b.
Proof.
  revert b d. induction l as [|c l IH]; intros b d; [reflexivity|].
  change (last (b :: c :: l) d) with (last (c :: l) d).
  rewrite (IH c d), (IH c b). reflexivity.
Qed.

Lemma no_repeat_snoc l a p0 :
  no_repeat (p0 :: l) -> last l p0 <> a -> no_repeat (p0 :: l ++ [a]).
Proof.
  revert p0. induction l as [|b l IH]; intros p0 H N.
  - cbn in *. tauto.
  - destruct H as [H1 H2]. split; [exact H1|].
    apply IH; [exact H2|].
    now rewrite <- (last_cons l b p0).
Qed.

(** Taking the handle changes nothing but the handle. *)
Lemma adopt_window_frame hWnd st :
  calls (adopt_window hWnd st) = calls st /\
  mouse_x (adopt_window hWnd st) = mouse_x st /\
  mouse_y (adopt_window hWnd st) = mouse_y st /\
  destroyed (wnd_w32 (adopt_window hWnd st)) = destroyed (wnd_w32 st) /\
  window (wnd_w32 (adopt_window hWnd st))
    = (if window (wnd_w32 st) =? 0 then hWnd else window (wnd_w32 st)).
Proof.
  unfold adopt_window.
  destruct (window (wnd_w32 st) =? 0) eqn:E; repeat split.
Qed.

(** The positions reported never repeat, and the last one is the one the
    struct remembers: one message keeps this so. *)
Lemma WndProc_switch_mouse_positions ENTER LEAVE CLOSE p0 st m :
  no_repeat (p0 :: mouse_positions (calls st)) /\
  last (mouse_positions (calls st)) p0 = (mouse_x st, mouse_y st) ->
  no_repeat (p0 :: mouse_positions (calls (WndProc_switch ENTER LEAVE CLOSE st m))) /\
  last (mouse_positions (calls (WndProc_switch ENTER LEAVE CLOSE st m))) p0
    = (mouse_x (WndProc_switch ENTER LEAVE CLOSE st m),
       mouse_y (WndProc_switch ENTER LEAVE CLOSE st m)).
Proof.
  intros [H1 H2]. destruct m as [lParam tracked| | |]; cbn [WndProc_switch].
  - unfold WM_MOUSEMOVE_case.
    set (x := GET_X_LPARAM lParam). set (y := GET_Y_LPARAM lParam).
    assert (E : forall b : bool,
      mouse_positions (calls (if b then
         call (inl (mp_input_put_key ENTER))
           (mk_wnd (wnd_w32 (call (inr TrackMouseEvent) st)) tracked
              (mouse_x (call (inr TrackMouseEvent) st))
              (mouse_y (call (inr TrackMouseEvent) st))
              (calls (call (inr TrackMouseEvent) st))) else st))
      = mouse_positions (calls st) /\
      mouse_x (if b then
         call (inl (mp_input_put_key ENTER))
           (mk_wnd (wnd_w32 (call (inr TrackMouseEvent) st)) tracked
              (mouse_x (call (inr TrackMouseEvent) st))
              (mouse_y (call (inr TrackMouseEvent) st))
              (calls (call (inr TrackMouseEvent) st))) else st) = mouse_x st /\
      mouse_y (if b then
         call (inl (mp_input_put_key ENTER))
           (mk_wnd (wnd_w32 (call (inr TrackMouseEvent) st)) tracked
              (mouse_x (call (inr TrackMouseEvent) st))
              (mouse_y (call (inr TrackMouseEvent) st))
              (calls (call (inr TrackMouseEvent) st))) else st) = mouse_y st).
    { intros [|]; [|repeat split].
      cbn [call calls mouse_x mouse_y wnd_w32 tracking].
      rewrite !mouse_positions_app. cbn [mouse_positions].
      rewrite !app_nil_r. repeat split. }
    cbv zeta. destruct (E (negb (tracking st))) as (E1 & E2 & E3).
    set (st1 := if negb (tracking st) then _ else st) in *. clearbody st1.
    rewrite E2, E3.
    destruct (Z.eqb_spec x (mouse_x st)) as [Ex|Nx];
      destruct (Z.eqb_spec y (mouse_y st)) as [Ey|Ny]; cbn [negb orb];
      try (split; [rewrite E1; exact H1|rewrite E1, E2, E3; exact H2]);
      cbn [call calls mouse_x mouse_y]; rewrite mouse_positions_app, E1;
      cbn [mouse_positions];
      (split; [apply no_repeat_snoc; [exact H1|rewrite H2; congruence]
              |apply last_last]).
  - unfold WM_MOUSELEAVE_case.
    cbn [call calls mouse_x mouse_y wnd_w32 tracking].
    rewrite mouse_positions_app. cbn [mouse_positions].
    rewrite app_nil_r. split; assumption.
  - unfold WM_DESTROY_case.
    destruct (destroyed (wnd_w32 st)); [split; assumption|].
    destruct (terminate (wnd_w32 st));
      cbn [negb call calls mouse_x mouse_y wnd_w32 tracking];
      rewrite !mouse_positions_app; cbn [mouse_positions];
      rewrite !app_nil_r; split; assumption.
  - unfold WM_DESTROY_case.
    destruct (destroyed (wnd_w32 st)); [split; assumption|].
    destruct (terminate (wnd_w32 st));
      cbn [negb call calls mouse_x mouse_y wnd_w32 tracking];
      rewrite !mouse_positions_app; cbn [mouse_positions];
      rewrite !app_nil_r; split; assumption.
Qed.

Lemma WndProc_mouse_positions ENTER LEAVE CLOSE hWnd p0 st m :
  no_repeat (p0 :: mouse_positions (calls st)) /\
  last (mouse_positions (calls st)) p0 = (mouse_x st, mouse_y st) ->
  no_repeat (p0 :: mouse_positions (calls (WndProc ENTER LEAVE CLOSE hWnd st m))) /\
  last (mouse_positions (calls (WndProc ENTER LEAVE CLOSE hWnd st m))) p0
    = (mouse_x (WndProc ENTER LEAVE CLOSE hWnd st m),
       mouse_y (WndProc ENTER LEAVE CLOSE hWnd st m)).
Proof.
  intros H. unfold WndProc. apply WndProc_switch_mouse_positions.
  destruct (adopt_window_frame hWnd st) as (-> & -> & -> & _). exact H.
Qed.

(** X22.  Spurious mouse moves are filtered out: over any sequence of
    messages, no position is handed to the input context twice in a row,
    the first one handed over differs from the position the struct started
    with, and the struct remembers the last one handed over. *)
Theorem X22_deliver_mouse_positions :
  forall (MP_KEY_MOUSE_ENTER MP_KEY_MOUSE_LEAVE MP_KEY_CLOSE_WIN : Z)
         (hWnd : HWND) (st : wnd) (ms : list message),
    let st' := deliver MP_KEY_MOUSE_ENTER MP_KEY_MOUSE_LEAVE MP_KEY_CLOSE_WIN
                 hWnd st ms in
    calls st = [] ->
    no_repeat ((mouse_x st, mouse_y st) :: mouse_positions (calls st')) /\
    last (mouse_positions (calls st')) (mouse_x st, mouse_y st)
      = (mouse_x st', mouse_y st').
Proof.
  intros ENTER LEAVE CLOSE hWnd st ms st' Hc.
  assert (G : forall ms0 st0,
            no_repeat ((mouse_x st, mouse_y st) :: mouse_positions (calls st0)) /\
            last (mouse_positions (calls st0)) (mouse_x st, mouse_y st)
              = (mouse_x st0, mouse_y st0) ->
            no_repeat ((mouse_x st, mouse_y st)
                         :: mouse_positions
                              (calls (deliver ENTER LEAVE CLOSE hWnd st0 ms0))) /\
            last (mouse_positions (calls (deliver ENTER LEAVE CLOSE hWnd st0 ms0)))
                 (mouse_x st, mouse_y st)
              = (mouse_x (deliver ENTER LEAVE CLOSE hWnd st0 ms0),
                 mouse_y (deliver ENTER LEAVE CLOSE hWnd st0 ms0))).
  { induction ms0 as [|m ms' IH]; intros st0 H; [exact H|].
    cbn. apply IH. now apply WndProc_mouse_positions. }
  apply (G ms st). rewrite Hc. cbn. split; [exact I|reflexivity].
Qed.

Lemma X22_witness :
  mouse_positions
    (calls (deliver Sample2.MP_KEY_MOUSE_ENTER Sample2.MP_KEY_MOUSE_LEAVE
              Sample2.MP_KEY_CLOSE_WIN 0x1234 Sample2.pointer
              [WM_MOUSEMOVE 0 true; WM_MOUSEMOVE 0x00140010 true;
               WM_MOUSEMOVE 0x00140010 true; WM_MOUSELEAVE;
               WM_MOUSEMOVE 0x00140010 true; WM_MOUSEMOVE 0xFFFF0010 true]))
  = [(16, 20); (16, -1)] /\
  no_repeat ((0, 0) :: [(16, 20); (16, -1)]).
Proof.
  assert (E : mouse_positions
    (calls (deliver Sample2.MP_KEY_MOUSE_ENTER Sample2.MP_KEY_MOUSE_LEAVE
              Sample2.MP_KEY_CLOSE_WIN 0x1234 Sample2.pointer
              [WM_MOUSEMOVE 0 true; WM_MOUSEMOVE 0x00140010 true;
               WM_MOUSEMOVE 0x00140010 true; WM_MOUSELEAVE;
               WM_MOUSEMOVE 0x00140010 true; WM_MOUSEMOVE 0xFFFF0010 true]))
    = [(16, 20); (16, -1)]) by (vm_compute; reflexivity).
  split; [exact E|]. rewrite <- E.
  apply (X22_deliver_mouse_positions Sample2.MP_KEY_MOUSE_ENTER
           Sample2.MP_KEY_MOUSE_LEAVE Sample2.MP_KEY_CLOSE_WIN 0x1234
           Sample2.pointer).
  reflexivity.
Defined.

(** ** The end of the window *)

Lemma quits_app a b : quits (a ++ b) = (quits a + quits b)%nat.
Proof. unfold quits. now rewrite filter_app, length_app. Qed.

Lemma WndProc_switch_destroy ENTER LEAVE CLOSE st m :
  let st' := WndProc_switch ENTER LEAVE CLOSE st m in
  destroyed (wnd_w32 st') = destroyed (wnd_w32 st) || is_destroy m /\
  quits (calls st') =
    (quits (calls st)
     + if negb (destroyed (wnd_w32 st)) && is_destroy m then 1 else 0)%nat /\
  (destroyed (wnd_w32 st) = true -> st' = st \/ is_destroy m = false) /\
  (destroyed (wnd_w32 st) = false -> is_destroy m = true ->
   window (wnd_w32 st') = 0 /\
   In (inr (RevokeDragDrop (window (wnd_w32 st)))) (calls st')) /\
  (is_destroy m = false -> wnd_w32 st' = wnd_w32 st).
Proof.
  cbv zeta. destruct m as [lParam tracked| | |]; cbn [WndProc_switch is_destroy].
  - unfold WM_MOUSEMOVE_case. cbv zeta.
    destruct (negb (tracking st)); cbn [call calls mouse_x mouse_y wnd_w32 tracking];
      match goal with |- context [if ?c then _ else _] => destruct c end;
      cbn [call calls mouse_x mouse_y wnd_w32 tracking];
      rewrite ?quits_app, ?orb_false_r, ?andb_false_r; cbn [quits filter
        is_PostQuitMessage List.length]; repeat split; auto; try lia; try discriminate.
  - unfold WM_MOUSELEAVE_case. cbn [call calls mouse_x mouse_y wnd_w32 tracking].
    rewrite ?quits_app, ?orb_false_r, ?andb_false_r; cbn [quits filter
        is_PostQuitMessage List.length]; repeat split; auto; try lia; try discriminate.
  - unfold WM_DESTROY_case.
    destruct (destroyed (wnd_w32 st)) eqn:Ed; cbn [negb andb orb].
    + rewrite Ed. repeat split; auto; try lia; try discriminate.
    + destruct (terminate (wnd_w32 st));
        cbn [negb call calls mouse_x mouse_y wnd_w32 tracking with_destroyed
             with_window destroyed window];
        rewrite ?quits_app; cbn [quits filter is_PostQuitMessage List.length];
        repeat split; auto; try lia; try discriminate;
        intros; repeat (apply in_or_app; (right; now left) || left).
  - unfold WM_DESTROY_case.
    destruct (destroyed (wnd_w32 st)) eqn:Ed; cbn [negb andb orb].
    + rewrite Ed. repeat split; auto; try lia; try discriminate.
    + destruct (terminate (wnd_w32 st));
        cbn [negb call calls mouse_x mouse_y wnd_w32 tracking with_destroyed
             with_window destroyed window];
        rewrite ?quits_app; cbn [quits filter is_PostQuitMessage List.length];
        repeat split; auto; try lia; try discriminate;
        intros; repeat (apply in_or_app; (right; now left) || left).
Qed.

Lemma WndProc_switch_calls ENTER LEAVE CLOSE st m :
  exists t, calls (WndProc_switch ENTER LEAVE CLOSE st m) = calls st ++ t.
Proof.
  destruct m as [lParam tracked| | |]; cbn [WndProc_switch].
  - unfold WM_MOUSEMOVE_case. cbv zeta.
    destruct (negb (tracking st)); cbn [call calls mouse_x mouse_y wnd_w32 tracking];
      match goal with |- context [if ?c then _ else _] => destruct c end;
      cbn [call calls]; rewrite <- ?app_assoc; eauto.
    exists []. now rewrite app_nil_r.
  - unfold WM_MOUSELEAVE_case. cbn [call calls]. eauto.
  - unfold WM_DESTROY_case.
    destruct (destroyed (wnd_w32 st)); [exists []; now rewrite app_nil_r|].
    destruct (terminate (wnd_w32 st)); cbn [negb call calls wnd_w32];
      rewrite <- ?app_assoc; eauto.
  - unfold WM_DESTROY_case.
    destruct (destroyed (wnd_w32 st)); [exists []; now rewrite app_nil_r|].
    destruct (terminate (wnd_w32 st)); cbn [negb call calls wnd_w32];
      rewrite <- ?app_assoc; eauto.
Qed.

(** One message: whether the window is now destroyed, how often the loop
    was told to quit, and the handle the struct holds. *)
Lemma WndProc_destroy ENTER LEAVE CLOSE hWnd st m :
  let st' := WndProc ENTER LEAVE CLOSE hWnd st m in
  let h := if window (wnd_w32 st) =? 0 then hWnd else window (wnd_w32 st) in
  destroyed (wnd_w32 st') = destroyed (wnd_w32 st) || is_destroy m /\
  quits (calls st') =
    (quits (calls st)
     + if negb (destroyed (wnd_w32 st)) && is_destroy m then 1 else 0)%nat /\
  (exists t, calls st' = calls st ++ t) /\
  (destroyed (wnd_w32 st) = true -> window (wnd_w32 st') = h) /\
  (destroyed (wnd_w32 st) = false -> is_destroy m = true ->
   window (wnd_w32 st') = 0 /\ In (inr (RevokeDragDrop h)) (calls st')) /\
  (is_destroy m = false -> window (wnd_w32 st') = h).
Proof.
  cbv zeta. unfold WndProc.
  destruct (adopt_window_frame hWnd st) as (Ac & _ & _ & Ad & Aw).
  destruct (WndProc_switch_destroy ENTER LEAVE CLOSE (adopt_window hWnd st) m)
    as (S1 & S2 & S3 & S4 & S5).
  destruct (WndProc_switch_calls ENTER LEAVE CLOSE (adopt_window hWnd st) m)
    as (t & S6).
  rewrite Ad in S1, S2, S3, S4. rewrite Ac in S2, S6. rewrite Aw in S4.
  split; [exact S1|]. split; [exact S2|]. split; [eauto|].
  split; [|split; [exact S4|]].
  - intros Hd. destruct (S3 Hd) as [E|E]; [now rewrite E|].
    now rewrite (S5 E).
  - intros E. now rewrite (S5 E).
Qed.

Lemma adopted_twice (hWnd w : Z) :
  (if (if w =? 0 then hWnd else w) =? 0 then hWnd
   else (if w =? 0 then hWnd else w))
  = (if w =? 0 then hWnd else w).
Proof.
  destruct (Z.eqb_spec w 0) as [E|N].
  - destruct (Z.eqb_spec hWnd 0); congruence.
  - destruct (Z.eqb_spec w 0); [contradiction|reflexivity].
Qed.

(** Once the window is destroyed, further messages only give the struct
    the handle again. *)
Lemma deliver_destroyed ENTER LEAVE CLOSE hWnd ms : forall st,
  destroyed (wnd_w32 st) = true ->
  window (wnd_w32 (deliver ENTER LEAVE CLOSE hWnd st ms))
  = match ms with
    | [] => window (wnd_w32 st)
    | _ :: _ => if window (wnd_w32 st) =? 0 then hWnd else window (wnd_w32 st)
    end.
Proof.
  induction ms as [|m ms IH]; intros st Hd; [reflexivity|].
  change (deliver ENTER LEAVE CLOSE hWnd st (m :: ms))
    with (deliver ENTER LEAVE CLOSE hWnd (WndProc ENTER LEAVE CLOSE hWnd st m) ms).
  destruct (WndProc_destroy ENTER LEAVE CLOSE hWnd st m) as (S1 & _ & _ & S4 & _).
  rewrite IH by (rewrite S1, Hd; reflexivity).
  rewrite (S4 Hd). destruct ms; [reflexivity|apply adopted_twice].
Qed.

Lemma deliver_destroy ENTER LEAVE CLOSE hWnd ms : forall st,
  let st' := deliver ENTER LEAVE CLOSE hWnd st ms in
  let h := if window (wnd_w32 st) =? 0 then hWnd else window (wnd_w32 st) in
  destroyed (wnd_w32 st') = destroyed (wnd_w32 st) || existsb is_destroy ms /\
  quits (calls st') =
    (quits (calls st)
     + if negb (destroyed (wnd_w32 st)) && existsb is_destroy ms then 1 else 0)%nat /\
  (exists t, calls st' = calls st ++ t) /\
  (destroyed (wnd_w32 st) = false -> existsb is_destroy ms = true ->
   In (inr (RevokeDragDrop h)) (calls st')).
Proof.
  cbv zeta. induction ms as [|m ms IH]; intros st.
  - cbn. rewrite orb_false_r, andb_false_r, Nat.add_0_r.
    repeat split; auto; try discriminate. exists []. now rewrite app_nil_r.
  - change (deliver ENTER LEAVE CLOSE hWnd st (m :: ms))
      with (deliver ENTER LEAVE CLOSE hWnd (WndProc ENTER LEAVE CLOSE hWnd st m) ms).
    destruct (IH (WndProc ENTER LEAVE CLOSE hWnd st m)) as (I1 & I2 & (t2 & I3) & I5).
    destruct (WndProc_destroy ENTER LEAVE CLOSE hWnd st m)
      as (S1 & S2 & (t1 & S3) & _ & S5 & S6).
    cbn [existsb].
    split; [rewrite I1, S1; now rewrite orb_assoc|].
    split.
    { rewrite I2, S2, S1.
      destruct (destroyed (wnd_w32 st)), (is_destroy m), (existsb is_destroy ms);
        cbn; lia. }
    split; [exists (t1 ++ t2); rewrite I3, S3; now rewrite app_assoc|].
    intros Hd He.
    destruct (is_destroy m) eqn:Em.
    + destruct (S5 Hd eq_refl) as [_ R].
      rewrite I3. apply in_or_app. now left.
    + cbn [orb] in He. rewrite orb_false_r in S1.
      pose proof (I5 ltac:(congruence) He) as R.
      rewrite (S6 eq_refl), adopted_twice in R. exact R.
Qed.

(** A struct that holds no handle or the handle [hWnd] stays so, which is
    what the assertion of [WndProc] needs. *)
Lemma deliver_window ENTER LEAVE CLOSE hWnd ms : forall st,
  window (wnd_w32 st) = 0 \/ window (wnd_w32 st) = hWnd ->
  window (wnd_w32 (deliver ENTER LEAVE CLOSE hWnd st ms)) = 0 \/
  window (wnd_w32 (deliver ENTER LEAVE CLOSE hWnd st ms)) = hWnd.
Proof.
  induction ms as [|m ms IH]; intros st H; [exact H|].
  change (deliver ENTER LEAVE CLOSE hWnd st (m :: ms))
    with (deliver ENTER LEAVE CLOSE hWnd (WndProc ENTER LEAVE CLOSE hWnd st m) ms).
  apply IH.
  destruct (WndProc_destroy ENTER LEAVE CLOSE hWnd st m)
    as (_ & _ & _ & S4 & S5 & S6).
  assert (E : (if window (wnd_w32 st) =? 0 then hWnd else window (wnd_w32 st))
              = hWnd).
  { destruct H as [H|H]; rewrite H; [reflexivity|].
    destruct (hWnd =? 0); reflexivity. }
  rewrite E in S4, S6.
  destruct (destroyed (wnd_w32 st)) eqn:Ed; [right; now apply S4|].
  destruct (is_destroy m) eqn:Em; [left; now apply S5|right; now apply S6].
Qed.

Lemma WndProc_assert_holds hWnd st :
  window (wnd_w32 st) = 0 \/ window (wnd_w32 st) = hWnd ->
  WndProc_assert hWnd st = true.
Proof.
  intros H. unfold WndProc_assert.
  destruct (adopt_window_frame hWnd st) as (_ & _ & _ & _ & ->).
  destruct H as [H|H]; rewrite H; cbn [Z.eqb]; [apply Z.eqb_refl|].
  destruct (hWnd =? 0); apply Z.eqb_refl.
Qed.

(** X23.  For a struct that holds no window handle or the handle [hWnd] of
    the window the messages are for: the assertion of [WndProc] holds at
    every message, and however many WM_DESTROY and WM_NCDESTROY messages
    arrive, in whatever order with mouse messages, the window is shut down
    once: [PostQuitMessage] is called exactly once if there is any such
    message and never otherwise, and the drop target is revoked on [hWnd].
    The first such message leaves the struct without a handle when it is
    the last message; any message after it gives the struct the handle
    [hWnd] again. *)
Theorem X23_deliver_destroy_once :
  forall (MP_KEY_MOUSE_ENTER MP_KEY_MOUSE_LEAVE MP_KEY_CLOSE_WIN : Z)
         (hWnd : HWND) (st : wnd) (ms : list message),
    let run := deliver MP_KEY_MOUSE_ENTER MP_KEY_MOUSE_LEAVE MP_KEY_CLOSE_WIN
                 hWnd st in
    window (wnd_w32 st) = 0 \/ window (wnd_w32 st) = hWnd ->
    destroyed (wnd_w32 st) = false ->
    calls st = [] ->
    (forall pre m post,
       ms = pre ++ m :: post -> WndProc_assert hWnd (run pre) = true) /\
    destroyed (wnd_w32 (run ms)) = existsb is_destroy ms /\
    quits (calls (run ms)) = (if existsb is_destroy ms then 1 else 0)%nat /\
    (existsb is_destroy ms = true ->
     In (inr (RevokeDragDrop hWnd)) (calls (run ms))) /\
    (forall pre d post,
       ms = pre ++ d :: post ->
       existsb is_destroy pre = false -> is_destroy d = true ->
       window (wnd_w32 (run ms))
       = match post with [] => 0 | _ :: _ => hWnd end).
Proof.
  intros ENTER LEAVE CLOSE hWnd st ms run Hw Hd Hc. subst run.
  assert (E : (if window (wnd_w32 st) =? 0 then hWnd else window (wnd_w32 st))
              = hWnd).
  { destruct Hw as [H|H]; rewrite H; [reflexivity|].
    destruct (hWnd =? 0); reflexivity. }
  destruct (deliver_destroy ENTER LEAVE CLOSE hWnd ms st) as (I1 & I2 & _ & I5).
  rewrite E in I5.
  rewrite Hd in I1, I2. rewrite Hc in I2. cbn in I1, I2.
  split.
  { intros pre m post _. apply WndProc_assert_holds.
    now apply deliver_window. }
  split; [exact I1|]. split; [exact I2|]. split; [now apply I5|].
  intros pre d post -> Hpre Hdm.
  unfold deliver. rewrite fold_left_app. cbn [fold_left].
  fold (deliver ENTER LEAVE CLOSE hWnd st pre).
  set (s2 := deliver ENTER LEAVE CLOSE hWnd st pre).
  destruct (deliver_destroy ENTER LEAVE CLOSE hWnd pre st) as (P1 & _).
  fold s2 in P1. rewrite Hd, Hpre in P1. cbn in P1.
  destruct (WndProc_destroy ENTER LEAVE CLOSE hWnd s2 d) as (S1 & _ & _ & _ & S5 & _).
  destruct (S5 P1 Hdm) as [W _].
  fold (deliver ENTER LEAVE CLOSE hWnd (WndProc ENTER LEAVE CLOSE hWnd s2 d) post).
  rewrite deliver_destroyed by (rewrite S1, P1, Hdm; reflexivity).
  rewrite W. destruct post; reflexivity.
Qed.

Lemma X23_witness :
  quits (calls (deliver Sample2.MP_KEY_MOUSE_ENTER Sample2.MP_KEY_MOUSE_LEAVE
                  Sample2.MP_KEY_CLOSE_WIN 0x1234 Sample2.pointer
                  [WM_DESTROY; WM_MOUSEMOVE 0x00140010 true; WM_NCDESTROY]))
  = 1%nat /\
  window (wnd_w32 (deliver Sample2.MP_KEY_MOUSE_ENTER Sample2.MP_KEY_MOUSE_LEAVE
                     Sample2.MP_KEY_CLOSE_WIN 0x1234 Sample2.pointer
                     [WM_DESTROY; WM_MOUSEMOVE 0x00140010 true; WM_NCDESTROY]))
  = 0x1234.
Proof.
  destruct (X23_deliver_destroy_once Sample2.MP_KEY_MOUSE_ENTER
              Sample2.MP_KEY_MOUSE_LEAVE Sample2.MP_KEY_CLOSE_WIN 0x1234
              Sample2.pointer
              [WM_DESTROY; WM_MOUSEMOVE 0x00140010 true; WM_NCDESTROY])
    as (_ & _ & Q & _ & W).
  - right. reflexivity.
  - reflexivity.
  - reflexivity.
  - split; [exact Q|].
    exact (W [] WM_DESTROY [WM_MOUSEMOVE 0x00140010 true; WM_NCDESTROY]
             eq_refl eq_refl eq_refl).
Defined.

(** ** The drop target *)

(** X24.  [DropTarget_QueryInterface] never hands out the interface: its
    test asks for an identifier that equals both IID_IUnknown and
    IID_IDataObject, which no identifier does, so that every call returns
    E_NOINTERFACE with a [NULL] pointer and leaves the reference count
    alone. *)
Theorem X24_DropTarget_QueryInterface_never_succeeds :
  forall (This : DropTarget) (riid : GUID),
    DropTarget_QueryInterface This riid = (E_NOINTERFACE, false, This).
Proof.
  intros This riid. unfold DropTarget_QueryInterface.
  destruct (IsEqualGUID riid IID_IUnknown) eqn:E1; [|reflexivity].
  destruct (IsEqualGUID riid IID_IDataObject) eqn:E2; [|reflexivity].
  exfalso. unfold IsEqualGUID in E1, E2.
  apply andb_true_iff in E1 as [E1 _]. apply andb_true_iff in E1 as [E1 _].
  apply andb_true_iff in E1 as [E1 _].
  apply andb_true_iff in E2 as [E2 _]. apply andb_true_iff in E2 as [E2 _].
  apply andb_true_iff in E2 as [E2 _].
  apply Z.eqb_eq in E1, E2. cbn in E1, E2. congruence.
Qed.

Lemma uwrap_zero z : Int32.in_range z -> (Int32.uwrap z =? 0) = (z =? 0).
Proof.
  unfold Int32.in_range, Int32.min_signed, Int32.max_signed, Int32.uwrap,
    Int32.modulus. intros H.
  destruct (Z.eqb_spec z 0) as [->|N]; [reflexivity|].
  apply Z.eqb_neq. Z.to_euclidean_division_equations. lia.
Qed.

(** X25.  [DropTarget_Release] undoes [DropTarget_AddRef]: it returns the
    count the target had before the pair and leaves the target as it was,
    unless that count was zero, in which case the target is destroyed: the
    data object it holds, if any, is released and its table pointer
    cleared, and after that, as the last call, the target is freed. *)
Theorem X25_DropTarget_Release_AddRef :
  forall (This : DropTarget),
    Int32.in_range (refCnt This) ->
    let '(_, t1) := DropTarget_AddRef This in
    let '(cRef, t2, c) := DropTarget_Release t1 in
    cRef = Int32.uwrap (refCnt This) /\
    (refCnt This <> 0 -> t2 = Some This /\ c = []) /\
    (refCnt This = 0 ->
     t2 = None /\
     c = (if dataObj This =? 0 then []
          else [IDataObject_Release (dataObj This);
                IDataObject_clear_lpVtbl (dataObj This)])
         ++ [talloc_free_This]).
Proof.
  intros This Hr. unfold DropTarget_AddRef, DropTarget_Release.
  cbn [refCnt lastEffect dataObj].
  rewrite Int32_sub_add_cancel by exact Hr.
  rewrite uwrap_zero by exact Hr.
  destruct (Z.eqb_spec (refCnt This) 0) as [E|N].
  - split; [reflexivity|]. split; [contradiction|]. intros _.
    split; [reflexivity|]. unfold DropTarget_Destroy. cbn [dataObj].
    destruct (dataObj This =? 0); reflexivity.
  - split; [reflexivity|]. split; [|contradiction]. intros _.
    split; [|reflexivity]. now destruct This.
Qed.

Lemma X25_witness :
  snd (DropTarget_Release (snd (DropTarget_AddRef (mk_DropTarget 0 0 7))))
  = [IDataObject_Release 7; IDataObject_clear_lpVtbl 7; talloc_free_This].
Proof.
  pose proof (X25_DropTarget_Release_AddRef (mk_DropTarget 0 0 7)
                ltac:(vm_compute; split; discriminate)) as H.
  destruct (DropTarget_AddRef (mk_DropTarget 0 0 7)) as [n t1]. cbn [snd].
  destruct (DropTarget_Release t1) as [[cRef t2] c].
  destruct H as (_ & _ & H). cbn [snd].
  destruct (H eq_refl) as [_ ->]. reflexivity.
Defined.

Lemma references_app obj a b :
  references obj (a ++ b) = references obj a + references obj b.
Proof.
  induction a as [|c a IH]; [reflexivity|].
  destruct c; cbn; rewrite ?IH; lia.
Qed.

Lemma received_files_references obj entries :
  references obj (snd (received_files entries)) = 0.
Proof.
  induction entries as [|[f|] rest IH]; cbn; [reflexivity| |];
    destruct (received_files rest); cbn in *; exact IH.
Qed.

Lemma drag_references object result This d obj :
  passes_object d -> obj <> 0 ->
  let '(t, c) := drag object result This d in
  references obj c =
    (if dataObj t =? obj then 1 else 0) - (if dataObj This =? obj then 1 else 0).
Proof.
  intros Hp Ho.
  destruct d as [p e|e| |p k e]; cbn [drag passes_object] in *.
  - unfold DropTarget_DragEnter. cbn [dataObj].
    destruct (Z.eqb_spec (dataObj This) 0) as [E0|N0]; cbn [negb].
    + rewrite E0. destruct (Z.eqb_spec 0 obj); [lia|].
      cbn [references dataObj refCnt lastEffect app fst snd].
      destruct (p =? obj); cbv iota; lia.
    + rewrite references_app.
      cbn [references dataObj refCnt lastEffect app fst snd].
      destruct (p =? obj), (dataObj This =? obj); cbv iota; lia.
  - unfold DropTarget_DragOver. cbn [references]. lia.
  - unfold DropTarget_DragLeave.
    destruct (Z.eqb_spec (dataObj This) 0) as [E0|N0]; cbn [negb].
    + cbn [references dataObj refCnt lastEffect app fst snd]. lia.
    + cbn [references dataObj refCnt lastEffect app fst snd].
      destruct (Z.eqb_spec 0 obj); [lia|].
      destruct (dataObj This =? obj); cbv iota; lia.
  - unfold DropTarget_Drop.
    assert (R : forall (t0 : DropTarget) c0,
      (t0, c0) = (if negb (dataObj This =? 0)
                  then (mk_DropTarget (refCnt This) (lastEffect This) 0,
                        [IDataObject_Release (dataObj This)])
                  else (This, [])) ->
      dataObj t0 = 0 /\ references obj c0 = - (if dataObj This =? obj then 1 else 0)).
    { intros t0 c0 E. destruct (Z.eqb_spec (dataObj This) 0) as [E0|N0];
        cbn [negb] in E; injection E as -> ->;
        cbn [references dataObj refCnt lastEffect app fst snd].
      - split; [exact E0|]. rewrite E0.
        destruct (Z.eqb_spec 0 obj); [lia|reflexivity].
      - split; [reflexivity|]. destruct (dataObj This =? obj); cbv iota; lia. }
    destruct (if negb (dataObj This =? 0) then _ else _) as [t0 c0].
    destruct (R t0 c0 eq_refl) as [D0 R0].
    assert (Z0 : (dataObj t0 =? obj) = false)
      by (rewrite D0; apply Z.eqb_neq; lia).
    destruct (GetData_file (object p)) as [[entries|]|].
    + pose proof (received_files_references obj entries) as RF.
      destruct (received_files entries) as [files log]. cbn [snd] in RF.
      rewrite !references_app, RF, R0.
      cbn [references dataObj refCnt lastEffect app fst snd]. rewrite Z0.
      destruct (p =? obj); cbv iota; lia.
    + rewrite !references_app, R0.
      cbn [references dataObj refCnt lastEffect app fst snd]. rewrite Z0.
      destruct (p =? obj); cbv iota; lia.
    + destruct (GetData_url (object p)) as [[url|]|].
      * destruct (_ >? 0); rewrite !references_app, R0;
          cbn [references dataObj refCnt lastEffect app fst snd]; rewrite Z0;
          destruct (p =? obj); cbv iota; lia.
      * rewrite !references_app, R0.
        cbn [references dataObj refCnt lastEffect app fst snd]. rewrite Z0.
        destruct (p =? obj); cbv iota; lia.
      * rewrite !references_app, R0.
        cbn [references dataObj refCnt lastEffect app fst snd]. rewrite Z0.
        destruct (p =? obj); cbv iota; lia.
Qed.

(** X26.  The drop target keeps its references to data objects balanced:
    over any sequence of DragEnter, DragOver, DragLeave and Drop calls, the
    references it has taken on an object less those it has released are one
    if it now holds the object and did not before, minus one in the opposite
    case, and zero otherwise.  So it holds exactly one reference to the
    object it stores and none to any other. *)
Theorem X26_drags_references :
  forall (object : Z -> IDataObject)
         (drop_mime_data_result : string -> string -> mp_dnd_action -> Z)
         (This : DropTarget) (ds : list drag_call) (obj : Z),
    Forall passes_object ds ->
    obj <> 0 ->
    let '(t, c) := drags object drop_mime_data_result This ds in
    references obj c =
      (if dataObj t =? obj then 1 else 0) - (if dataObj This =? obj then 1 else 0).
Proof.
  intros object result This ds obj Hall Ho. revert This.
  induction Hall as [|d ds Hd Hall IH]; intros This.
  - cbn. lia.
  - cbn [drags].
    pose proof (drag_references object result This d obj Hd Ho) as H1.
    destruct (drag object result This d) as [t1 c1].
    specialize (IH t1).
    destruct (drags object result t1 ds) as [t2 c2].
    rewrite references_app. lia.
Qed.

Lemma X26_witness :
  references 1
    (snd (drags Sample2.object Sample2.drop_mime_data_result
            (mk_DropTarget 1 0 0)
            [DragEnter 2 1; DragOver 1; DragLeave; DragEnter 1 1; DragOver 1;
             Drop 1 0 1]))
  = 0.
Proof.
  pose proof (X26_drags_references Sample2.object Sample2.drop_mime_data_result
                (mk_DropTarget 1 0 0)
                [DragEnter 2 1; DragOver 1; DragLeave; DragEnter 1 1; DragOver 1;
                 Drop 1 0 1] 1) as H.
  destruct (drags Sample2.object Sample2.drop_mime_data_result
              (mk_DropTarget 1 0 0)
              [DragEnter 2 1; DragOver 1; DragLeave; DragEnter 1 1; DragOver 1;
               Drop 1 0 1]) as [t c] eqn:E.
  cbn [snd]. rewrite H.
  - assert (Et : dataObj t = 0)
      by (apply (f_equal fst) in E; cbn [fst] in E; rewrite <- E;
          vm_compute; reflexivity).
    rewrite Et. reflexivity.
  - repeat constructor; discriminate.
  - discriminate.
Defined.

(** X27.  The drop effect is decided when the drag enters: DROPEFFECT_NONE
    if the object offers neither files nor a URL, the effect the system
    proposed otherwise.  DragOver and Drop answer with this effect whatever
    they are passed, except that Drop answers DROPEFFECT_NONE when neither
    format can be read; after Drop the target holds no object. *)
Theorem X27_drop_effect_decided_on_entering :
  forall (object : Z -> IDataObject)
         (drop_mime_data_result : string -> string -> mp_dnd_action -> Z)
         (This : DropTarget) (p : Z) (offered over dropped keys : DWORD),
    let accepted := QueryGetData_file (object p) || QueryGetData_url (object p) in
    let readable :=
      match GetData_file (object p), GetData_url (object p) with
      | None, None => false
      | _, _ => true
      end in
    let '(e1, t1, _) :=
      DropTarget_DragEnter object This p offered in
    let '(e2, t2, _) := DropTarget_DragOver t1 over in
    let '(e3, t3, _) :=
      DropTarget_Drop object drop_mime_data_result t2 p keys dropped in
    e1 = (if accepted then offered else DROPEFFECT_NONE) /\
    e2 = e1 /\
    e3 = (if readable then e1 else DROPEFFECT_NONE) /\
    dataObj t1 = p /\ dataObj t3 = 0.
Proof.
  intros object result This p offered over dropped keys accepted readable.
  unfold DropTarget_DragEnter, DropTarget_DragOver, DropTarget_Drop.
  cbn [dataObj lastEffect refCnt].
  subst accepted readable.
  destruct (Z.eqb_spec p 0), (QueryGetData_file (object p)),
    (QueryGetData_url (object p)),
    (GetData_file (object p)) as [[entries|]|],
    (GetData_url (object p)) as [[url|]|];
    cbn [negb andb orb dataObj lastEffect refCnt];
    try destruct (received_files entries);
    try destruct (_ >? 0);
    cbn [dataObj lastEffect refCnt]; repeat split; assumption.
Qed.

(** ** Reconfiguration for a new video size *)

Lemma wrap_uwrap z : Int32.wrap (Int32.uwrap z) = Int32.wrap z.
Proof.
  unfold Int32.wrap, Int32.uwrap, Int32.modulus.
  Z.to_euclidean_division_equations. lia.
Qed.

(** X28.  The first configuration of a window of its own initializes its
    bounds: afterwards the bounds count as initialized, the saved bounds are
    the position the geometry calculation gave with the video size, the
    [vo] has the video size, and, if fullscreen is requested,
    VOCTRL_GET_UNFS_WINDOW_SIZE returns the video size. *)
Theorem X28_gui_thread_reconfig_first :
  forall (os : desktop) (VO_EVENT_RESIZE : Z) (geo_win_x0 geo_win_y0 : Z)
         (GetClientRect : RECT) (v : vo) (o_dwidth o_dheight : Z) (arg : Z * Z),
    parent (w32 (vo_w32 v)) = 0 ->
    window_bounds_initialized (w32 (vo_w32 v)) = false ->
    Int32.in_range (dwidth v) -> Int32.in_range (dheight v) ->
    let '(v', _, _) :=
      gui_thread_reconfig os VO_EVENT_RESIZE geo_win_x0 geo_win_y0 GetClientRect
        v o_dwidth o_dheight in
    let s' := vo_w32 v' in
    window_bounds_initialized (w32 s') = true /\
    (dwidth v', dheight v') = (dwidth v, dheight v) /\
    prev_bounds (w32 s') = (geo_win_x0, geo_win_y0, dwidth v, dheight v) /\
    (fullscreen (opts (w32 (vo_w32 v))) = true ->
     gui_thread_control os VO_EVENT_RESIZE s' VOCTRL_GET_UNFS_WINDOW_SIZE arg
       = (VO_TRUE, (dwidth v, dheight v), s')).
Proof.
  intros os ev gx gy client v od oh arg Hp Hi Hw Hh. unfold gui_thread_reconfig.
  rewrite Hp, Hi. cbn [Z.eqb negb on_w32 set_vo_size vo_w32 dwidth dheight fst snd].
  rewrite !wrap_uwrap, !Int32_wrap_small by assumption.
  match goal with |- context [reinit_window_state os ev ?x] => set (s0 := x) end.
  assert (P0 : prev_bounds (w32 s0) = (gx, gy, dwidth v, dheight v))
    by reflexivity.
  assert (B0 : bounds (w32 s0) = (gx, gy, dwidth v, dheight v))
    by reflexivity.
  assert (I0 : window_bounds_initialized (w32 s0) = true) by reflexivity.
  assert (Hp0 : parent (w32 s0) = 0) by exact Hp.
  assert (F0 : fullscreen (opts (w32 s0)) = fullscreen (opts (w32 (vo_w32 v))))
    by reflexivity.
  pose proof (reinit_window_state_prev_bounds os ev s0) as P.
  pose proof (reinit_window_state_frame os ev s0) as (I & _).
  pose proof (reinit_window_state_current_fs os ev s0 Hp0) as K.
  clearbody s0.
  rewrite I0 in I. rewrite B0, P0 in P.
  assert (P' : prev_bounds (w32 (reinit_window_state os ev s0))
               = (gx, gy, dwidth v, dheight v))
    by (destruct (_ && _ && _) in P; exact P).
  split; [exact I|]. split; [reflexivity|]. split; [exact P'|].
  intros Hfs. cbn [gui_thread_control]. rewrite I, K, F0, Hfs. cbn [negb].
  unfold prev_bounds in P'. injection P' as _ _ -> ->. reflexivity.
Qed.

Lemma X28_witness :
  prev_bounds
    (w32 (vo_w32 (fst (fst (gui_thread_reconfig Sample.os Sample.VO_EVENT_RESIZE
                              320 180 (mkRECT 0 0 100 100)
                              (mk_vo Sample.uninitialized 1280 720) 0 0)))))
  = (320, 180, 1280, 720).
Proof.
  pose proof (X28_gui_thread_reconfig_first Sample.os Sample.VO_EVENT_RESIZE
                320 180 (mkRECT 0 0 100 100)
                (mk_vo Sample.uninitialized 1280 720) 0 0 (0, 0)
                eq_refl eq_refl
                ltac:(vm_compute; split; discriminate)
                ltac:(vm_compute; split; discriminate)) as H.
  destruct (gui_thread_reconfig Sample.os Sample.VO_EVENT_RESIZE
              320 180 (mkRECT 0 0 100 100)
              (mk_vo Sample.uninitialized 1280 720) 0 0) as [[v' od] oh].
  cbn [fst]. destruct H as (_ & _ & H & _). exact H.
Defined.

(** X29.  For an embedded window a configuration only takes over the size
    of the client area the system reports: the [vo] and the struct get this
    size, the bounds never count as initialized by it, the saved bounds and
    the native window are left alone, and nothing is logged or requested. *)
Theorem X29_gui_thread_reconfig_embedded :
  forall (os : desktop) (VO_EVENT_RESIZE : Z) (geo_win_x0 geo_win_y0 : Z)
         (GetClientRect : RECT) (v : vo) (o_dwidth o_dheight : Z),
    parent (w32 (vo_w32 v)) <> 0 ->
    let '(v', _, _) :=
      gui_thread_reconfig os VO_EVENT_RESIZE geo_win_x0 geo_win_y0 GetClientRect
        v o_dwidth o_dheight in
    let s := vo_w32 v in
    let s' := vo_w32 v' in
    (dwidth v', dheight v') = (right GetClientRect, bottom GetClientRect) /\
    (dw (w32 s'), dh (w32 s')) = (right GetClientRect, bottom GetClientRect) /\
    window_bounds_initialized (w32 s') = window_bounds_initialized (w32 s) /\
    prev_bounds (w32 s') = prev_bounds (w32 s) /\
    hwnd_rect s' = hwnd_rect s /\ hwnd_style s' = hwnd_style s /\
    trace s' = trace s.
Proof.
  intros os ev gx gy client v od oh Hp. unfold gui_thread_reconfig.
  destruct (Z.eqb_spec (parent (w32 (vo_w32 v))) 0) as [E|_]; [contradiction|].
  cbn [negb on_w32 set_vo_size vo_w32 dwidth dheight fst snd].
  unfold reinit_window_state.
  cbn [upd w32 parent with_dw with_dh with_window_x with_window_y].
  destruct (Z.eqb_spec (parent (w32 (vo_w32 v))) 0) as [E|_]; [contradiction|].
  cbn. repeat split.
Qed.

Lemma X29_witness :
  dw (w32 (vo_w32 (fst (fst (gui_thread_reconfig Sample.os Sample.VO_EVENT_RESIZE
                               320 180 (mkRECT 0 0 1024 576)
                               (mk_vo Sample2.embedded 1280 720) 0 0)))))
  = 1024.
Proof.
  pose proof (X29_gui_thread_reconfig_embedded Sample.os Sample.VO_EVENT_RESIZE
                320 180 (mkRECT 0 0 1024 576)
                (mk_vo Sample2.embedded 1280 720) 0 0
                ltac:(vm_compute; discriminate)) as H.
  destruct (gui_thread_reconfig Sample.os Sample.VO_EVENT_RESIZE
              320 180 (mkRECT 0 0 1024 576)
              (mk_vo Sample2.embedded 1280 720) 0 0) as [[v' od] oh].
  cbn [fst]. destruct H as (_ & H & _). now injection H.
Defined.

(** X30.  When the video size changes, a windowed window of its own whose
    bounds are initialized either takes the new size as its client size and
    as its saved size, moving so that the centre of the client area stays
    where it was, or logs that the requested size is larger than the
    screen. *)
Theorem X30_gui_thread_reconfig_recenters :
  forall (os : desktop) (VO_EVENT_RESIZE : Z) (geo_win_x0 geo_win_y0 : Z)
         (GetClientRect : RECT) (v : vo) (o_dwidth o_dheight : Z),
    let s := vo_w32 v in
    parent (w32 s) = 0 ->
    window_bounds_initialized (w32 s) = true ->
    current_fs (w32 s) = false ->
    fullscreen (opts (w32 s)) = false ->
    Int32.in_range (dwidth v) -> Int32.in_range (dheight v) ->
    o_dwidth <> Int32.uwrap (dwidth v) \/ o_dheight <> Int32.uwrap (dheight v) ->
    let '(v', _, _) :=
      gui_thread_reconfig os VO_EVENT_RESIZE geo_win_x0 geo_win_y0 GetClientRect
        v o_dwidth o_dheight in
    let s' := vo_w32 v' in
    (dwidth v', dheight v') = (dwidth v, dheight v) /\
    (prev_width (w32 s'), prev_height (w32 s')) = (dwidth v, dheight v) /\
    (In (mp_msg MSGL_V "requested window size larger than the screen\n" [])
        (trace s') \/
     (dw (w32 s') = dwidth v /\ dh (w32 s') = dheight v /\
      (Z.abs (window_x (w32 s)) <= 2 ^ 29 -> Z.abs (dw (w32 s)) <= 2 ^ 29 ->
       Z.abs (dwidth v) <= 2 ^ 29 ->
       window_x (w32 s') + Z.quot (dwidth v) 2
         = window_x (w32 s) + Z.quot (dw (w32 s)) 2) /\
      (Z.abs (window_y (w32 s)) <= 2 ^ 29 -> Z.abs (dh (w32 s)) <= 2 ^ 29 ->
       Z.abs (dheight v) <= 2 ^ 29 ->
       window_y (w32 s') + Z.quot (dheight v) 2
         = window_y (w32 s) + Z.quot (dh (w32 s)) 2))).
Proof.
  intros os ev gx gy client v od oh s Hp Hi Hcur Hfs Hw Hh Hch.
  subst s. unfold gui_thread_reconfig. rewrite Hp, Hi.
  assert (R : negb (od =? Int32.uwrap (dwidth v))
              || negb (oh =? Int32.uwrap (dheight v)) = true).
  { destruct Hch as [H|H]; apply Z.eqb_neq in H; rewrite H;
      [reflexivity|apply orb_true_r]. }
  rewrite R.
  cbn [Z.eqb negb on_w32 set_vo_size vo_w32 dwidth dheight fst snd].
  rewrite !wrap_uwrap, !Int32_wrap_small by assumption.
  match goal with |- context [reinit_window_state os ev ?x] => set (s0 := x) end.
  assert (Hp0 : parent (w32 s0) = 0) by exact Hp.
  assert (Hcur0 : current_fs (w32 s0) = false) by exact Hcur.
  assert (Hfs0 : fullscreen (opts (w32 s0)) = false) by exact Hfs.
  assert (P0 : prev_bounds (w32 s0)
               = (prev_x (w32 (vo_w32 v)), prev_y (w32 (vo_w32 v)),
                  dwidth v, dheight v)) by reflexivity.
  pose proof (reinit_window_state_prev_bounds os ev s0) as P.
  rewrite Hfs0, andb_false_r, P0 in P.
  unfold prev_bounds in P. injection P as _ _ Pw Ph.
  split; [reflexivity|]. split; [now rewrite Pw, Ph|].
  destruct (finds_larger_than_screen os s0) eqn:Hl.
  - left. apply reinit_window_state_logs_larger; [exact Hp0|exact Hl].
  - right.
    pose proof (reinit_window_state_keeps_bounds os ev s0 Hp0 Hcur0 Hfs0 Hl)
      as (Hb & _).
    unfold bounds in Hb. injection Hb as Hx Hy Hdw Hdh.
    rewrite Hx, Hy, Hdw, Hdh. subst s0.
    cbn [w32 upd window_x window_y with_window_x with_window_y with_dw with_dh
         with_prev_width with_prev_height dw dh].
    split; [reflexivity|]. split; [reflexivity|].
    split; intros A B C; no_wrap; lia.
Qed.

Lemma X30_witness :
  (dwidth (fst (fst (gui_thread_reconfig Sample.os Sample.VO_EVENT_RESIZE
                       0 0 (mkRECT 0 0 800 600)
                       (mk_vo (Sample.windowed true 100 100 800 600) 1280 720)
                       800 600))),
   dheight (fst (fst (gui_thread_reconfig Sample.os Sample.VO_EVENT_RESIZE
                        0 0 (mkRECT 0 0 800 600)
                        (mk_vo (Sample.windowed true 100 100 800 600) 1280 720)
                        800 600))))
  = (1280, 720).
Proof.
  pose proof (X30_gui_thread_reconfig_recenters Sample.os Sample.VO_EVENT_RESIZE
                0 0 (mkRECT 0 0 800 600)
                (mk_vo (Sample.windowed true 100 100 800 600) 1280 720) 800 600
                eq_refl eq_refl eq_refl eq_refl
                ltac:(vm_compute; split; discriminate)
                ltac:(vm_compute; split; discriminate)
                ltac:(left; vm_compute; discriminate)) as H.
  destruct (gui_thread_reconfig Sample.os Sample.VO_EVENT_RESIZE
              0 0 (mkRECT 0 0 800 600)
              (mk_vo (Sample.windowed true 100 100 800 600) 1280 720) 800 600)
    as [[v' od] oh].
  cbn [fst]. exact (proj1 H).
Defined.
